(** * Verification of the coursework utilities

    A shallow embedding of the five programs of the repository
    (convertNumbers.py, computeStatistics.py, wordCount.py, computeSales.py
    and the hotel reservation models) together with the properties their
    specification states about them.

    Conventions.
    - Python [int] is [Z]; [str] is [string], restricted to ASCII code points.
    - A Python [dict] whose iteration order matters is an association list in
      insertion order; the price catalogue, which is only looked up, is a
      [gmap string _].
    - A [while] loop is a function defined by well-founded recursion.
    - An exception that the program does not catch is an explicit outcome.
    - The interpreter is CPython 3.11: [int] of a string reads at most 4300
      digits and skips only the whitespace that it skips there, and
      [str_int] writes at most 4300 digits; [str_of_int] is [str] on the
      numbers that can be written. *)

From Stdlib Require Import ZArith String Ascii List Lia DecimalString Sorted.
From Stdlib Require PrimFloat FloatOps SpecFloat Uint63.
From Stdlib Require DecimalPos.
From stdpp Require Import gmap strings list.
From Equations Require Import Equations.

Open Scope string_scope.
Open Scope list_scope.
Open Scope Z_scope.

(** ** Python built-ins shared by the programs *)

Module Py.

(** [str(n)] for an [int]: the decimal numeral, with "-" for negatives.
    CPython 3.11 refuses to write an [int] of more than 4300 digits:
    [str_of_int] is [str] on the others, and [str_int] below is [str] on
    every [int]. *)
Definition str_of_int (n : Z) : string := NilZero.string_of_int (Z.to_int n).

(** [s[i]] on a string, as a one-character string; [None] is IndexError. *)
Definition str_index (s : string) (i : Z) : option string :=
  if i <? 0 then None
  else match String.get (Z.to_nat i) s with
       | Some c => Some (String c EmptyString)
       | None => None
       end.

(** What a call does: it returns a value or raises an exception that the
    caller may or may not catch. *)
Inductive exception : Type :=
| ValueError | TypeError | OverflowError | IndexError | KeyError | OSError.

Inductive result (A : Type) : Type :=
| Ok (a : A)
| Raise (e : exception).
Arguments Ok {A} a.
Arguments Raise {A} e.

(** A loop whose body may raise: the first exception ends it. *)
Fixpoint for_each {A S : Type} (body : S -> A -> result S) (l : list A) (s : S)
  : result S :=
  match l with
  | [] => Ok s
  | x :: rest =>
      match body s x with
      | Ok s' => for_each body rest s'
      | Raise e => Raise e
      end
  end.

(** ["".join(parts)]. *)
Definition join (parts : list string) : string := String.concat "" parts.

(** [sep.join(parts)]. *)
Definition join_with (sep : string) (parts : list string) : string :=
  String.concat sep parts.

(** [c.isspace()] for an ASCII character: tab, line feed, vertical tab, form
    feed, carriage return, the separators 0x1c to 0x1f, and space. *)
Definition isspace (c : ascii) : bool :=
  let n := N_of_ascii c in
  ((9 <=? n) && (n <=? 13) || (28 <=? n) && (n <=? 31) || (n =? 32))%N.

(** The ASCII line boundaries of [str.splitlines]: "\n", "\r", "\v",
    "\f", and the separators 0x1c, 0x1d, 0x1e. *)
Definition is_linebreak (c : ascii) : bool :=
  let n := N_of_ascii c in
  ((10 <=? n) && (n <=? 13) || (28 <=? n) && (n <=? 30))%N.

Definition LF : ascii := ascii_of_N 10.
Definition CR : ascii := ascii_of_N 13.
Definition TAB : ascii := ascii_of_N 9.

(** [s.splitlines()]: a line ends at a line boundary, "\r\n" counting as
    one; the boundaries are dropped, and text after the last boundary is
    a line when it is not empty. [cur] is the line read so far. *)
Fixpoint splitlines_from (cur : string) (s : string) : list string :=
  match s with
  | EmptyString => match cur with EmptyString => [] | _ => [cur] end
  | String c rest =>
      if is_linebreak c then
        match rest with
        | String c' rest' =>
            if Ascii.eqb c CR && Ascii.eqb c' LF
            then cur :: splitlines_from EmptyString rest'
            else cur :: splitlines_from EmptyString rest
        | EmptyString => [cur]
        end
      else splitlines_from (cur +:+ String c EmptyString) rest
  end.

Definition splitlines (s : string) : list string := splitlines_from EmptyString s.

Fixpoint lstrip (s : string) : string :=
  match s with
  | EmptyString => EmptyString
  | String c rest => if isspace c then lstrip rest else s
  end.

Definition rstrip (s : string) : string := String.rev (lstrip (String.rev s)).

(** [s.strip()] *)
Definition strip (s : string) : string := rstrip (lstrip s).

(** [s.split()]: the maximal runs of characters that are not whitespace.
    [cur] is the run being read, if one has started. *)
Fixpoint split_from (cur : option string) (s : string) : list string :=
  match s with
  | EmptyString => match cur with Some w => [w] | None => [] end
  | String c rest =>
      if isspace c then
        match cur with
        | Some w => w :: split_from None rest
        | None => split_from None rest
        end
      else
        match cur with
        | Some w => split_from (Some (w +:+ String c EmptyString)) rest
        | None => split_from (Some (String c EmptyString)) rest
        end
  end.

Definition split (s : string) : list string := split_from None s.

(** [sorted(l)] under the order [le], as a stable insertion sort: an
    element goes before the first one it is [le] to, so elements that
    are equal under [le] keep their order. *)
Fixpoint insert_sorted {A : Type} (le : A -> A -> bool) (x : A) (l : list A) : list A :=
  match l with
  | [] => [x]
  | y :: rest => if le x y then x :: y :: rest else y :: insert_sorted le x rest
  end.

Definition sorted {A : Type} (le : A -> A -> bool) (l : list A) : list A :=
  fold_right (insert_sorted le) [] l.

(** [sorted(l, key=key)] where the keys are compared with [lt]. *)
Definition sorted_by_key {A K : Type} (lt : K -> K -> bool) (key : A -> K)
  (l : list A) : list A :=
  sorted (fun a b => negb (lt (key b) (key a))) l.

(** [c * n] for a one-character string. *)
Fixpoint repeat_char (c : ascii) (n : nat) : string :=
  match n with
  | O => EmptyString
  | S n' => String c (repeat_char c n')
  end.

(** [f"{s:W}"]: left-justified in a field of [w] characters. *)
Definition ljust (w : nat) (s : string) : string :=
  s +:+ repeat_char " " (w - String.length s).

(** [f"{s:>W}"]: right-justified in a field of [w] characters. *)
Definition rjust (w : nat) (s : string) : string :=
  repeat_char " " (w - String.length s) +:+ s.

(** [s[:n]] *)
Definition str_prefix (n : nat) (s : string) : string := String.substring 0 n s.

(** The reading of a decimal numeral by [int]: digits, with single
    underscores allowed between digits. [after_digit] tells that the
    character before was a digit. *)
Fixpoint int_digits (after_digit : bool) (acc : Z) (s : string) : option Z :=
  match s with
  | EmptyString => if after_digit then Some acc else None
  | String c rest =>
      let n := Z.of_N (N_of_ascii c) in
      if (48 <=? n) && (n <=? 57) then int_digits true (acc * 10 + (n - 48)) rest
      else if Ascii.eqb c "_" && after_digit then int_digits false acc rest
      else None
  end.

(** The whitespace that [int] skips around a numeral: tab, line feed,
    vertical tab, form feed, carriage return and space. The separators
    0x1c to 0x1f, which [strip] takes off, are not among them. *)
Definition is_c_space (c : ascii) : bool :=
  let n := N_of_ascii c in
  ((9 <=? n) && (n <=? 13) || (n =? 32))%N.

Fixpoint int_lstrip (s : string) : string :=
  match s with
  | EmptyString => EmptyString
  | String c rest => if is_c_space c then int_lstrip rest else s
  end.

Definition int_strip (s : string) : string :=
  String.rev (int_lstrip (String.rev (int_lstrip s))).

Definition is_digit (c : ascii) : bool :=
  let n := Z.of_N (N_of_ascii c) in (48 <=? n) && (n <=? 57).

(** The number of digits of a numeral, underscores left out. *)
Fixpoint count_digits (s : string) : Z :=
  match s with
  | EmptyString => 0
  | String c rest => (if is_digit c then 1 else 0) + count_digits rest
  end.

(** [sys.get_int_max_str_digits()] as CPython 3.11 starts with: [int]
    reads no numeral, and [str] writes no number, of more digits. *)
Definition MAX_STR_DIGITS : Z := 4300.

(** The least number with more digits than that. *)
Definition INT_LIMIT : Z := 10 ^ MAX_STR_DIGITS.

(** A numeral without its sign: ValueError, here [None], when it has too
    many digits or is not well formed. *)
Definition int_numeral (body : string) : option Z :=
  if MAX_STR_DIGITS <? count_digits body then None else int_digits false 0 body.

(** [int(s)] for a string of ASCII characters: surrounding whitespace, an
    optional sign, then a decimal numeral of at most [MAX_STR_DIGITS]
    digits; ValueError otherwise. *)
Definition int_of_str (s : string) : result Z :=
  let parsed :=
    match int_strip s with
    | String "-" rest => option_map Z.opp (int_numeral rest)
    | String "+" rest => int_numeral rest
    | body => int_numeral body
    end in
  match parsed with
  | Some n => Ok n
  | None => Raise ValueError
  end.

(** [str(n)] and [f"{n}"] for every [int]: ValueError when [n] has more
    than [MAX_STR_DIGITS] digits. *)
Definition str_int (n : Z) : result string :=
  if Z.abs n <? INT_LIMIT then Ok (str_of_int n) else Raise ValueError.

(** [f"{n:0Wd}"]: the sign, then the digits padded with zeros so that the
    whole has at least [w] characters. *)
Definition format_zero_padded (w : nat) (n : Z) : string :=
  let sign := if n <? 0 then "-" else "" in
  let digits := str_of_int (Z.abs n) in
  sign +:+ repeat_char "0" (w - String.length sign - String.length digits) +:+ digits.

(** [sum(l)] for a list of [int]. *)
Definition sum (l : list Z) : Z := fold_left Z.add l 0.

(** Truth value of a string: it is not empty. *)
Definition str_truthy (s : string) : bool :=
  match s with EmptyString => false | _ => true end.

End Py.

Example splitlines_ex :
  Py.splitlines ("ab" +:+ String Py.CR (String Py.LF "c") +:+ String Py.LF (String Py.LF ""))
  = ["ab"; "c"; ""].
Proof. reflexivity. Qed.

Example split_ex : Py.split "  to be   or not " = ["to"; "be"; "or"; "not"].
Proof. reflexivity. Qed.

Example strip_ex : Py.strip "  to be  " = "to be".
Proof. reflexivity. Qed.

Example int_of_str_ex :
  Py.int_of_str " -1_000 " = Py.Ok (-1000) /\ Py.int_of_str "12a" = Py.Raise Py.ValueError /\
  Py.int_of_str "1__0" = Py.Raise Py.ValueError /\ Py.int_of_str "+07" = Py.Ok 7.
Proof. repeat split. Qed.

Example int_of_str_separator_ex :
  Py.strip (String (ascii_of_N 28) "5") = "5" /\
  Py.int_of_str (String (ascii_of_N 28) "5") = Py.Raise Py.ValueError /\
  Py.int_of_str (String Py.TAB "5" +:+ String Py.LF "") = Py.Ok 5.
Proof. repeat split. Qed.

Example format_zero_padded_ex :
  Py.format_zero_padded 12 (-5) = "-00000000005" /\
  Py.format_zero_padded 12 42 = "000000000042" /\
  Py.format_zero_padded 12 1234567890123 = "1234567890123".
Proof. repeat split. Qed.

Example sorted_ex : Py.sorted String.leb ["b"; "a"; "c"; "B"] = ["B"; "a"; "b"; "c"].
Proof. reflexivity. Qed.

(** ** Facts about strings *)

Module Str.

Lemma append_nil_l (y : string) : "" +:+ y = y.
Proof. reflexivity. Qed.

Lemma append_cons (c : ascii) (x y : string) : String c x +:+ y = String c (x +:+ y).
Proof. reflexivity. Qed.

Ltac str_simpl := rewrite ?append_cons, ?append_nil_l.

Lemma append_empty_r (x : string) : x +:+ "" = x.
Proof. induction x as [|c x IH]; str_simpl; [reflexivity | f_equal; exact IH]. Qed.

Lemma append_assoc (a b c : string) : (a +:+ b) +:+ c = a +:+ (b +:+ c).
Proof. induction a as [|x a IH]; str_simpl; [reflexivity | f_equal; exact IH]. Qed.

Lemma append_nonempty_r (a b : string) : b <> "" -> a +:+ b <> "".
Proof. destruct a; str_simpl; [tauto | discriminate]. Qed.

Lemma join_cons (x : string) (l : list string) : Py.join (x :: l) = x +:+ Py.join l.
Proof.
  unfold Py.join. destruct l as [|y l]; simpl.
  - symmetry. apply append_empty_r.
  - reflexivity.
Qed.

Lemma join_app (l1 l2 : list string) : Py.join (l1 ++ l2) = Py.join l1 +:+ Py.join l2.
Proof.
  induction l1 as [|x l1 IH].
  - reflexivity.
  - change ((x :: l1) ++ l2) with (x :: (l1 ++ l2)).
    now rewrite !join_cons, IH, append_assoc.
Qed.

Lemma join_rev_snoc (l : list string) (x : string) :
  Py.join (rev (x :: l)) = Py.join (rev l) +:+ x.
Proof.
  simpl rev. rewrite join_app, join_cons.
  change (Py.join []) with "". now rewrite append_empty_r.
Qed.

(** *** Reversal and [strip] *)

Lemma rev_app_acc (a : string) :
  forall c, String.rev_app a c = String.rev_app a "" +:+ c.
Proof.
  induction a as [|x a IH]; intros c; cbn [String.rev_app]; [reflexivity|].
  rewrite IH, (IH (String x "")), append_assoc. reflexivity.
Qed.

Lemma rev_cons (x : ascii) (a : string) :
  String.rev (String x a) = String.rev a +:+ String x "".
Proof. unfold String.rev. cbn [String.rev_app]. apply rev_app_acc. Qed.

Lemma rev_append (a b : string) :
  String.rev (a +:+ b) = String.rev b +:+ String.rev a.
Proof.
  induction a as [|x a IH]; str_simpl.
  - symmetry. apply append_empty_r.
  - now rewrite !rev_cons, IH, append_assoc.
Qed.

Lemma rev_involutive (a : string) : String.rev (String.rev a) = a.
Proof.
  induction a as [|x a IH]; [reflexivity|].
  now rewrite rev_cons, rev_append, IH.
Qed.

(** The string is made of whitespace. *)
Fixpoint all_space (s : string) : bool :=
  match s with
  | EmptyString => true
  | String c rest => Py.isspace c && all_space rest
  end.

(** The string holds no whitespace. *)
Fixpoint no_space (s : string) : bool :=
  match s with
  | EmptyString => true
  | String c rest => negb (Py.isspace c) && no_space rest
  end.

Lemma all_space_append (a b : string) :
  all_space (a +:+ b) = all_space a && all_space b.
Proof.
  induction a as [|x a IH]; str_simpl; cbn [all_space]; [reflexivity|].
  now rewrite IH, andb_assoc.
Qed.

Lemma all_space_rev (a : string) : all_space (String.rev a) = all_space a.
Proof.
  induction a as [|x a IH]; [reflexivity|].
  rewrite rev_cons, all_space_append, IH. cbn [all_space].
  rewrite andb_true_r. apply andb_comm.
Qed.

Lemma no_space_append (a b : string) :
  no_space (a +:+ b) = no_space a && no_space b.
Proof.
  induction a as [|x a IH]; str_simpl; cbn [no_space]; [reflexivity|].
  now rewrite IH, andb_assoc.
Qed.

Lemma no_space_rev (a : string) : no_space (String.rev a) = no_space a.
Proof.
  induction a as [|x a IH]; [reflexivity|].
  rewrite rev_cons, no_space_append, IH. cbn [no_space].
  rewrite andb_true_r. apply andb_comm.
Qed.

(** [lstrip] takes whitespace off the front, and [rstrip] off the end. *)
Lemma lstrip_spec (s : string) :
  exists ws, all_space ws = true /\ s = ws +:+ Py.lstrip s.
Proof.
  induction s as [|c s (ws & Hws & Hs)]; [now exists ""|].
  cbn [Py.lstrip]. destruct (Py.isspace c) eqn:Hc.
  - exists (String c ws). cbn [all_space]. rewrite Hc, Hws. str_simpl.
    split; [reflexivity | now rewrite <- Hs].
  - now exists "".
Qed.

Lemma rstrip_spec (s : string) :
  exists ws, all_space ws = true /\ s = Py.rstrip s +:+ ws.
Proof.
  destruct (lstrip_spec (String.rev s)) as (ws & Hws & Hs).
  exists (String.rev ws). split; [now rewrite all_space_rev|].
  unfold Py.rstrip. now rewrite <- rev_append, <- Hs, rev_involutive.
Qed.

Lemma lstrip_no_space (s : string) : no_space s = true -> Py.lstrip s = s.
Proof.
  destruct s as [|c s]; [reflexivity|]. cbn [no_space Py.lstrip].
  now destruct (Py.isspace c).
Qed.

(** A string without whitespace is its own [strip]. *)
Lemma strip_no_space (s : string) : no_space s = true -> Py.strip s = s.
Proof.
  intros Hs. unfold Py.strip, Py.rstrip. rewrite (lstrip_no_space s Hs).
  rewrite lstrip_no_space by now rewrite no_space_rev.
  apply rev_involutive.
Qed.

(** *** [split] and [splitlines] *)

(** Whitespace ends the word being read and starts the search for the
    next one. *)
Lemma split_from_space (a : string) (c : ascii) (b : string) :
  Py.isspace c = true ->
  forall cur,
    Py.split_from cur (a +:+ String c b) = Py.split_from cur a ++ Py.split_from None b.
Proof.
  intros Hc. induction a as [|x a IH]; intros cur; str_simpl; cbn [Py.split_from].
  - rewrite Hc. now destruct cur.
  - destruct (Py.isspace x), cur; rewrite IH; reflexivity.
Qed.

Lemma split_all_space (ws : string) : all_space ws = true -> Py.split_from None ws = [].
Proof.
  induction ws as [|c ws IH]; [reflexivity|]. cbn [all_space Py.split_from].
  intros [-> Hws]%andb_true_iff. now apply IH.
Qed.

Lemma split_space_before (ws s : string) :
  all_space ws = true -> Py.split (ws +:+ s) = Py.split s.
Proof.
  unfold Py.split. induction ws as [|c ws IH]; [reflexivity|]. str_simpl.
  cbn [all_space Py.split_from]. intros [-> Hws]%andb_true_iff. now apply IH.
Qed.

Lemma split_space_after (s ws : string) :
  all_space ws = true -> Py.split (s +:+ ws) = Py.split s.
Proof.
  unfold Py.split. destruct ws as [|c ws]; [now rewrite append_empty_r|].
  cbn [all_space]. intros [Hc Hws]%andb_true_iff.
  now rewrite (split_from_space s c ws Hc), (split_all_space ws Hws), app_nil_r.
Qed.

(** [s.strip().split()] is [s.split()]. *)
Lemma split_strip (s : string) : Py.split (Py.strip s) = Py.split s.
Proof.
  unfold Py.strip.
  destruct (lstrip_spec s) as (ws & Hws & Hs).
  destruct (rstrip_spec (Py.lstrip s)) as (ws' & Hws' & Hs').
  rewrite Hs at 2. rewrite (split_space_before ws _ Hws).
  rewrite Hs' at 2. now rewrite (split_space_after _ ws' Hws').
Qed.

Lemma linebreak_isspace (c : ascii) : Py.is_linebreak c = true -> Py.isspace c = true.
Proof.
  unfold Py.is_linebreak, Py.isspace. cbv zeta.
  repeat match goal with
         | |- context [(?a <=? ?b)%N] => destruct (N.leb_spec a b)
         | |- context [(?a =? ?b)%N] => destruct (N.eqb_spec a b)
         end; simpl; try reflexivity; try discriminate; lia.
Qed.

(** The words of the lines of a text, taken together, are the words of the
    text. *)
Lemma split_splitlines_from (n : nat) :
  forall s cur,
    (String.length s <= n)%nat ->
    concat (Py.split <$> Py.splitlines_from cur s) = Py.split (cur +:+ s).
Proof.
  induction n as [|n IH]; intros s cur Hlen.
  - destruct s; [|simpl in Hlen; lia]. rewrite append_empty_r. cbn [Py.splitlines_from].
    destruct cur; [reflexivity|]. rewrite fmap_cons. simpl. apply app_nil_r.
  - destruct s as [|c rest].
    + rewrite append_empty_r. cbn [Py.splitlines_from].
      destruct cur; [reflexivity|]. rewrite fmap_cons. simpl. apply app_nil_r.
    + cbn [String.length] in Hlen. cbn [Py.splitlines_from].
      destruct (Py.is_linebreak c) eqn:Hc.
      * apply linebreak_isspace in Hc. unfold Py.split at 2.
        rewrite (split_from_space cur c rest Hc). fold (Py.split cur).
        destruct rest as [|c' rest'].
        -- rewrite fmap_cons. reflexivity.
        -- destruct (Ascii.eqb c Py.CR && Ascii.eqb c' Py.LF) eqn:Hcrlf;
             rewrite fmap_cons; cbn [concat]; f_equal.
           ++ rewrite IH by (cbn [String.length] in Hlen; lia).
              apply andb_true_iff in Hcrlf as [_ Hlf%Ascii.eqb_eq]. subst c'.
              reflexivity.
           ++ rewrite IH by lia. reflexivity.
      * rewrite IH by lia. now rewrite append_assoc.
Qed.

Lemma split_splitlines (s : string) :
  concat (Py.split <$> Py.splitlines s) = Py.split s.
Proof. exact (split_splitlines_from (String.length s) s "" (le_n _)). Qed.

(** The same when each line is stripped first. *)
Lemma split_stripped_lines (s : string) :
  concat ((fun raw => Py.split (Py.strip raw)) <$> Py.splitlines s) = Py.split s.
Proof.
  rewrite <- split_splitlines. f_equal. apply list_fmap_ext.
  intros i raw _. apply split_strip.
Qed.

End Str.

(** ** Facts about [sorted] *)

Module Sort.

Lemma insert_sorted_perm {A : Type} (le : A -> A -> bool) (x : A) (l : list A) :
  Py.insert_sorted le x l ≡ₚ x :: l.
Proof.
  induction l as [|y l IH]; simpl; [reflexivity|].
  destruct (le x y); [reflexivity|]. rewrite IH. apply Permutation_swap.
Qed.

Lemma sorted_perm {A : Type} (le : A -> A -> bool) (l : list A) :
  Py.sorted le l ≡ₚ l.
Proof.
  induction l as [|x l IH]; simpl; [reflexivity|].
  rewrite insert_sorted_perm. now rewrite IH.
Qed.

Lemma sorted_by_key_perm {A K : Type} (lt : K -> K -> bool) (key : A -> K) (l : list A) :
  Py.sorted_by_key lt key l ≡ₚ l.
Proof. apply sorted_perm. Qed.

Section Order.

Context {A : Type} (le : A -> A -> bool).
Hypothesis le_total : forall x y, le x y = true \/ le y x = true.
Hypothesis le_trans : forall x y z, le x y = true -> le y z = true -> le x z = true.

Lemma insert_sorted_ordered (x : A) (l : list A) :
  StronglySorted (fun a b => le a b = true) l ->
  StronglySorted (fun a b => le a b = true) (Py.insert_sorted le x l).
Proof.
  induction 1 as [|y l Hl IH Hy]; simpl.
  - repeat constructor.
  - destruct (le x y) eqn:Hxy.
    + constructor; [now constructor|].
      constructor; [exact Hxy|].
      eapply Forall_impl; [exact Hy|]. intros z Hz. now apply (le_trans x y z).
    + constructor; [exact IH|].
      rewrite insert_sorted_perm. constructor; [|exact Hy].
      destruct (le_total x y); congruence.
Qed.

(** [sorted] puts every element before the ones it is [le] to. *)
Lemma sorted_ordered (l : list A) :
  StronglySorted (fun a b => le a b = true) (Py.sorted le l).
Proof.
  induction l as [|x l IH]; simpl; [constructor | now apply insert_sorted_ordered].
Qed.

End Order.

(** In a list that is ordered, an element is related to each one after it. *)
Lemma ordered_before {A : Type} (R : A -> A -> Prop) (l1 l2 l3 : list A) (a b : A) :
  StronglySorted R (l1 ++ a :: l2 ++ b :: l3) -> R a b.
Proof.
  induction l1 as [|x l1 IH]; simpl; intros Hs.
  - apply StronglySorted_inv in Hs as [_ Hall].
    rewrite Forall_app, Forall_cons in Hall. tauto.
  - apply StronglySorted_inv in Hs as [Hs _]. auto.
Qed.

End Sort.

(** ** Decimal numerals

    What [str] of an [int] looks like, and how strings of digits
    compare. *)

Module Numeral.

Import Str.

Fixpoint all_digits (s : string) : bool :=
  match s with
  | EmptyString => true
  | String c rest => Py.is_digit c && all_digits rest
  end.

(** The number that a string of digits denotes, after the digits of
    [acc]. *)
Fixpoint digits_value (s : string) (acc : Z) : Z :=
  match s with
  | EmptyString => acc
  | String c rest => digits_value rest (acc * 10 + (Z.of_N (N_of_ascii c) - 48))
  end.

Lemma digits_value_acc (s : string) :
  forall acc,
    digits_value s acc = acc * 10 ^ Z.of_nat (String.length s) + digits_value s 0.
Proof.
  induction s as [|c s IH]; intros acc; cbn [digits_value String.length].
  - change (Z.of_nat 0) with 0. lia.
  - rewrite IH, (IH (0 * 10 + _)), Nat2Z.inj_succ, Z.pow_succ_r by lia. lia.
Qed.

Lemma digits_value_bound (s : string) :
  all_digits s = true -> 0 <= digits_value s 0 < 10 ^ Z.of_nat (String.length s).
Proof.
  induction s as [|c s IH]; cbn [all_digits digits_value String.length].
  - intros _. change (Z.of_nat 0) with 0. lia.
  - intros [Hc Hs]%andb_true_iff. specialize (IH Hs).
    unfold Py.is_digit in Hc. apply andb_true_iff in Hc as [Hlo Hhi].
    rewrite digits_value_acc, Nat2Z.inj_succ, Z.pow_succ_r by lia. nia.
Qed.

(** Strings of digits of the same length compare as the numbers they
    denote. *)
Lemma compare_digits (s : string) :
  forall t,
    all_digits s = true -> all_digits t = true ->
    String.length s = String.length t ->
    String.compare s t = (digits_value s 0 ?= digits_value t 0).
Proof.
  induction s as [|c s IH]; intros [|c' t] Hs Ht Hlen; try discriminate.
  - reflexivity.
  - cbn [all_digits] in Hs, Ht. apply andb_true_iff in Hs as [Hc Hs], Ht as [Hc' Ht].
    injection Hlen as Hlen. cbn [String.compare digits_value].
    rewrite (digits_value_acc s), (digits_value_acc t), <- Hlen.
    pose proof (digits_value_bound s Hs) as Bs.
    pose proof (digits_value_bound t Ht) as Bt. rewrite <- Hlen in Bt.
    unfold Ascii.compare. rewrite <- N2Z.inj_compare.
    set (a := Z.of_N (N_of_ascii c)). set (b := Z.of_N (N_of_ascii c')).
    set (p := 10 ^ Z.of_nat (String.length s)) in *.
    destruct (Z.compare_spec a b) as [Heq|Hlt|Hgt].
    + rewrite (IH t Hs Ht Hlen), Heq.
      destruct (Z.compare_spec (digits_value s 0) (digits_value t 0));
        symmetry; [apply Z.compare_eq_iff | apply Z.compare_lt_iff | apply Z.compare_gt_iff];
        lia.
    + symmetry. apply Z.compare_lt_iff. nia.
    + symmetry. apply Z.compare_gt_iff. nia.
Qed.

Lemma repeat_zero_digits (k : nat) (s : string) :
  all_digits (Py.repeat_char "0" k +:+ s) = all_digits s /\
  digits_value (Py.repeat_char "0" k +:+ s) 0 = digits_value s 0 /\
  String.length (Py.repeat_char "0" k +:+ s) = (k + String.length s)%nat.
Proof.
  induction k as [|k (IHd & IHv & IHl)]; cbn [Py.repeat_char]; str_simpl; [auto|].
  cbn [all_digits digits_value String.length]. now rewrite IHd, IHl.
Qed.

(** *** The numeral of a positive number *)

Lemma uint_digits (d : Decimal.uint) :
  all_digits (NilEmpty.string_of_uint d) = true.
Proof. induction d; cbn [NilEmpty.string_of_uint all_digits]; auto. Qed.

Lemma uint_value_acc (d : Decimal.uint) :
  forall acc,
    digits_value (NilEmpty.string_of_uint d) (Z.pos acc) = Z.pos (Pos.of_uint_acc d acc).
Proof.
  induction d; intros acc; cbn [NilEmpty.string_of_uint digits_value Pos.of_uint_acc];
    [reflexivity | rewrite <- IHd; f_equal; simpl; lia ..].
Qed.

Lemma uint_value (d : Decimal.uint) :
  digits_value (NilEmpty.string_of_uint d) 0 = Z.of_N (Pos.of_uint d).
Proof.
  induction d; cbn [NilEmpty.string_of_uint digits_value Pos.of_uint];
    [reflexivity | exact IHd | apply uint_value_acc ..].
Qed.

Lemma nzhead_no_zero (d d' : Decimal.uint) : Decimal.nzhead d <> Decimal.D0 d'.
Proof. induction d; simpl; try discriminate. exact IHd. Qed.

(** A numeral in normal form that is not 0 does not begin with 0. *)
Lemma unorm_leading (d : Decimal.uint) :
  Decimal.unorm d = d -> d <> Decimal.zero ->
  exists c rest, NilEmpty.string_of_uint d = String c rest /\
                 49 <= Z.of_N (N_of_ascii c).
Proof.
  intros Hnorm Hnz. destruct d; try (eexists _, _; split; [reflexivity | simpl; lia]).
  - discriminate.
  - exfalso. unfold Decimal.unorm in Hnorm. simpl in Hnorm.
    destruct (Decimal.nzhead d) eqn:Hd; try discriminate.
    + injection Hnorm as <-. now apply Hnz.
    + injection Hnorm as ->. exact (nzhead_no_zero _ _ Hd).
Qed.

(** [str(n)] for a number that is not negative: digits only, denoting
    [n], and no more of them than [n] needs. *)
Lemma str_of_int_digits (n : Z) :
  0 <= n ->
  all_digits (Py.str_of_int n) = true /\
  digits_value (Py.str_of_int n) 0 = n /\
  forall k : nat, n < 10 ^ Z.of_nat k -> (0 < k)%nat ->
                  (String.length (Py.str_of_int n) <= k)%nat.
Proof.
  intros Hn. destruct n as [|p|p]; [| |lia].
  - split; [reflexivity|]. split; [reflexivity|]. intros k _ Hk. simpl. lia.
  - unfold Py.str_of_int. cbn [Z.to_int NilZero.string_of_int].
    pose proof (DecimalPos.Unsigned.to_uint_nonnil p) as Hnil.
    pose proof (DecimalPos.Unsigned.to_uint_nonzero p) as Hnz.
    pose proof (DecimalPos.Unsigned.of_to p) as Hof.
    pose proof (DecimalPos.Unsigned.to_of (Pos.to_uint p)) as Hnorm.
    rewrite Hof in Hnorm. cbn [N.to_uint] in Hnorm.
    assert (NilZero.string_of_uint (Pos.to_uint p) = NilEmpty.string_of_uint (Pos.to_uint p))
      as -> by (unfold NilZero.string_of_uint; now destruct (Pos.to_uint p)).
    split; [apply uint_digits|].
    assert (digits_value (NilEmpty.string_of_uint (Pos.to_uint p)) 0 = Z.pos p) as Hv
      by (now rewrite uint_value, Hof).
    split; [exact Hv|]. intros k Hk Hkpos.
    destruct (unorm_leading (Pos.to_uint p)) as (c & rest & Hs & Hc); auto.
    pose proof (uint_digits (Pos.to_uint p)) as Hd. rewrite Hs in Hv, Hd |- *.
    cbn [digits_value all_digits String.length] in *.
    apply andb_true_iff in Hd as [_ Hd].
    rewrite digits_value_acc in Hv. pose proof (digits_value_bound rest Hd) as Hb.
    destruct (le_lt_dec k (String.length rest)) as [Hge|Hlt]; [|lia].
    assert (10 ^ Z.of_nat k <= 10 ^ Z.of_nat (String.length rest))
      by (apply Z.pow_le_mono_r; lia).
    nia.
Qed.

(** [f"{n:012d}"] orders the numbers from 0 to 999999999999 as they are. *)
Lemma zero_padded_order (m n : Z) :
  0 <= m < 10 ^ 12 -> 0 <= n < 10 ^ 12 ->
  String.leb (Py.format_zero_padded 12 m) (Py.format_zero_padded 12 n) = true ->
  m <= n.
Proof.
  intros Hm Hn. unfold Py.format_zero_padded.
  destruct (Z.ltb_spec m 0) as [?|_]; [lia|]. destruct (Z.ltb_spec n 0) as [?|_]; [lia|].
  rewrite !Z.abs_eq by lia. str_simpl. cbn [String.length]. rewrite !Nat.sub_0_r.
  destruct (str_of_int_digits m) as (Hdm & Hvm & Hlm); [lia|].
  destruct (str_of_int_digits n) as (Hdn & Hvn & Hln); [lia|].
  specialize (Hlm 12%nat). specialize (Hln 12%nat).
  destruct (repeat_zero_digits (12 - String.length (Py.str_of_int m)) (Py.str_of_int m))
    as (Hd1 & Hv1 & Hl1).
  destruct (repeat_zero_digits (12 - String.length (Py.str_of_int n)) (Py.str_of_int n))
    as (Hd2 & Hv2 & Hl2).
  unfold String.leb. rewrite compare_digits.
  - rewrite Hv1, Hv2, Hvm, Hvn. destruct (Z.compare_spec m n); [lia | lia | discriminate].
  - now rewrite Hd1.
  - now rewrite Hd2.
  - rewrite Hl1, Hl2. change (Z.of_nat 12) with 12 in *. lia.
Qed.

(** *** [int] reads what [str] writes *)

Lemma digit_no_space (s : string) : all_digits s = true -> no_space s = true.
Proof.
  induction s as [|c s IH]; [reflexivity|]. cbn [all_digits no_space].
  intros [Hc Hs]%andb_true_iff. rewrite (IH Hs), andb_true_r.
  unfold Py.is_digit in Hc. unfold Py.isspace.
  destruct (N_of_ascii c) as [|p] eqn:Hn; [discriminate|].
  apply andb_true_iff in Hc as [Hlo Hhi].
  apply Z.leb_le in Hlo, Hhi.
  repeat match goal with
         | |- context [(?a <=? ?b)%N] => destruct (N.leb_spec a b)
         | |- context [(?a =? ?b)%N] => destruct (N.eqb_spec a b)
         end; try reflexivity; lia.
Qed.

(** What [int] skips is whitespace for [strip] too. *)
Lemma c_space_isspace (c : ascii) : Py.is_c_space c = true -> Py.isspace c = true.
Proof.
  unfold Py.is_c_space, Py.isspace. cbv zeta.
  repeat match goal with
         | |- context [(?a <=? ?b)%N] => destruct (N.leb_spec a b)
         | |- context [(?a =? ?b)%N] => destruct (N.eqb_spec a b)
         end; simpl; try reflexivity; try discriminate; lia.
Qed.

Lemma int_lstrip_no_space (s : string) : no_space s = true -> Py.int_lstrip s = s.
Proof.
  destruct s as [|c s]; [reflexivity|]. cbn [no_space Py.int_lstrip].
  destruct (Py.is_c_space c) eqn:Hc; [|reflexivity].
  now rewrite (c_space_isspace c Hc).
Qed.

Lemma int_strip_no_space (s : string) : no_space s = true -> Py.int_strip s = s.
Proof.
  intros Hs. unfold Py.int_strip. rewrite (int_lstrip_no_space s Hs).
  rewrite int_lstrip_no_space by now rewrite no_space_rev.
  apply rev_involutive.
Qed.

Lemma count_all_digits (s : string) :
  all_digits s = true -> Py.count_digits s = Z.of_nat (String.length s).
Proof.
  induction s as [|c s IH]; [reflexivity|]. cbn [all_digits Py.count_digits String.length].
  intros [-> Hs]%andb_true_iff. rewrite (IH Hs). lia.
Qed.

Lemma int_digits_value (s : string) :
  all_digits s = true ->
  forall (after_digit : bool) (acc : Z),
    Py.int_digits after_digit acc s =
    match s with
    | EmptyString => if after_digit then Some acc else None
    | _ => Some (digits_value s acc)
    end.
Proof.
  induction s as [|c s IH]; [reflexivity|]. cbn [all_digits].
  intros [Hc Hs]%andb_true_iff after_digit acc. cbn [Py.int_digits digits_value].
  unfold Py.is_digit in Hc. cbv zeta in Hc. rewrite Hc, (IH Hs). now destruct s.
Qed.

Lemma digit_not_sign (c : ascii) :
  Py.is_digit c = true -> c <> "-"%char /\ c <> "+"%char.
Proof. intros Hc. split; intros ->; discriminate. Qed.

Lemma int_numeral_digits (s : string) :
  all_digits s = true -> s <> "" ->
  Z.of_nat (String.length s) <= Py.MAX_STR_DIGITS ->
  Py.int_numeral s = Some (digits_value s 0).
Proof.
  intros Hd Hne Hlen. unfold Py.int_numeral. rewrite (count_all_digits s Hd).
  destruct (Z.ltb_spec Py.MAX_STR_DIGITS (Z.of_nat (String.length s))); [lia|].
  rewrite (int_digits_value s Hd). now destruct s.
Qed.

Lemma int_of_digits (s : string) :
  all_digits s = true -> s <> "" ->
  Z.of_nat (String.length s) <= Py.MAX_STR_DIGITS ->
  Py.int_of_str s = Py.Ok (digits_value s 0) /\
  Py.int_of_str ("-" +:+ s) = Py.Ok (- digits_value s 0).
Proof.
  intros Hd Hne Hlen. pose proof (digit_no_space s Hd) as Hsp.
  pose proof (int_numeral_digits s Hd Hne Hlen) as Hv. unfold Py.int_of_str. split.
  - rewrite (int_strip_no_space s Hsp). destruct s as [|c s]; [congruence|].
    cbn [all_digits] in Hd. apply andb_true_iff in Hd as [Hc Hs].
    destruct (digit_not_sign c Hc) as [Hminus Hplus].
    destruct c as [[] [] [] [] [] [] [] []]; try (now rewrite Hv); congruence.
  - rewrite int_strip_no_space by (str_simpl; cbn [no_space]; now rewrite Hsp).
    str_simpl. now rewrite Hv.
Qed.

(** A number below the limit is written with no more digits than the
    limit allows. *)
Lemma str_of_int_short (n : Z) :
  0 <= n < Py.INT_LIMIT ->
  Z.of_nat (String.length (Py.str_of_int n)) <= Py.MAX_STR_DIGITS.
Proof.
  intros [Hn Hlim]. destruct (str_of_int_digits n Hn) as (_ & _ & Hlen).
  specialize (Hlen (Z.to_nat Py.MAX_STR_DIGITS)).
  unfold Py.INT_LIMIT in Hlim.
  assert (0 < Py.MAX_STR_DIGITS) as Hpos by reflexivity.
  rewrite Z2Nat.id in Hlen by lia. specialize (Hlen Hlim). lia.
Qed.

(** [int(str(n))] is [n], for the numbers that [str] writes. *)
Lemma int_of_str_of_int (n : Z) :
  Z.abs n < Py.INT_LIMIT -> Py.int_of_str (Py.str_of_int n) = Py.Ok n.
Proof.
  intros Hlim. destruct (Z.neg_nonneg_cases n) as [Hneg|Hpos].
  - assert (Py.str_of_int n = "-" +:+ Py.str_of_int (- n)) as ->
      by (destruct n as [|p|p]; try lia; reflexivity).
    destruct (str_of_int_digits (- n)) as (Hd & Hv & _); [lia|].
    destruct (int_of_digits (Py.str_of_int (- n)) Hd) as [_ ->].
    + intros Hnil. rewrite Hnil in Hv. cbn [digits_value] in Hv. lia.
    + apply str_of_int_short. lia.
    + f_equal. lia.
  - destruct (str_of_int_digits n Hpos) as (Hd & Hv & _).
    destruct (int_of_digits (Py.str_of_int n) Hd) as [-> _].
    + intros Hnil. rewrite Hnil in Hv. cbn [digits_value] in Hv. subst n. discriminate.
    + apply str_of_int_short. lia.
    + now rewrite Hv.
Qed.

(** *** [int] reads no number that [str] does not write *)

Lemma count_digits_nonneg (s : string) : 0 <= Py.count_digits s.
Proof.
  induction s as [|c s IH]; cbn [Py.count_digits]; [lia|].
  destruct (Py.is_digit c); lia.
Qed.

Lemma int_digits_bound (s : string) :
  forall (after_digit : bool) (acc v : Z),
    0 <= acc ->
    Py.int_digits after_digit acc s = Some v ->
    acc * 10 ^ Py.count_digits s <= v < (acc + 1) * 10 ^ Py.count_digits s.
Proof.
  induction s as [|c s IH]; intros after_digit acc v Hacc; cbn [Py.int_digits Py.count_digits].
  - destruct after_digit; [|discriminate]. intros [= <-]. simpl. lia.
  - unfold Py.is_digit. cbv zeta.
    pose proof (count_digits_nonneg s) as Hc.
    destruct ((48 <=? Z.of_N (N_of_ascii c)) && (Z.of_N (N_of_ascii c) <=? 57)) eqn:Hd.
    + apply andb_true_iff in Hd as [Hlo%Z.leb_le Hhi%Z.leb_le].
      intros Hv. apply IH in Hv; [|lia].
      rewrite Z.pow_add_r, Z.pow_1_r by lia.
      assert (0 < 10 ^ Py.count_digits s) by (apply Z.pow_pos_nonneg; lia). nia.
    + destruct (Ascii.eqb c "_" && after_digit); [|discriminate].
      intros Hv. apply IH in Hv; [|lia]. now rewrite Z.add_0_l.
Qed.

Lemma int_numeral_bound (body : string) (v : Z) :
  Py.int_numeral body = Some v -> 0 <= v < Py.INT_LIMIT.
Proof.
  unfold Py.int_numeral, Py.INT_LIMIT.
  destruct (Z.ltb_spec Py.MAX_STR_DIGITS (Py.count_digits body)) as [?|Hle]; [discriminate|].
  intros Hv. apply int_digits_bound in Hv; [|lia].
  pose proof (count_digits_nonneg body).
  assert (10 ^ Py.count_digits body <= 10 ^ Py.MAX_STR_DIGITS)
    by (apply Z.pow_le_mono_r; lia).
  lia.
Qed.

Lemma int_of_str_numeral (s : string) (n : Z) :
  Py.int_of_str s = Py.Ok n ->
  exists body v, Py.int_numeral body = Some v /\ (n = v \/ n = - v).
Proof.
  unfold Py.int_of_str. destruct (Py.int_strip s) as [|c body].
  - destruct (Py.int_numeral "") as [v|] eqn:Hv; [|discriminate].
    intros [= <-]. eauto.
  - destruct c as [[] [] [] [] [] [] [] []]; cbv beta iota zeta;
      match goal with
      | |- context [Py.int_numeral ?t] => destruct (Py.int_numeral t) as [v|] eqn:Hv
      end; simpl; try discriminate; intros [= <-]; eauto.
Qed.

(** Every number that [int] reads is below the limit, so that [str]
    writes it. *)
Lemma int_of_str_bound (s : string) (n : Z) :
  Py.int_of_str s = Py.Ok n -> Z.abs n < Py.INT_LIMIT.
Proof.
  intros (body & v & Hv & Hn)%int_of_str_numeral.
  apply int_numeral_bound in Hv. lia.
Qed.

End Numeral.

(** ** convertNumbers.py *)

Module Convert.

Definition HEX_DIGITS : string := "0123456789ABCDEF".

(** The loop of [to_binary]:
    [while n > 0: bits.append(str(n % 2)); n //= 2]. *)
Equations? binary_loop (n : Z) (bits : list string) : list string
  by wf (Z.to_nat n) lt :=
binary_loop n bits with Z_lt_dec 0 n := {
  | left _ => binary_loop (n / 2) (bits ++ [Py.str_of_int (n mod 2)])
  | right _ => bits }.
Proof. apply Z2Nat.inj_lt; try lia. apply Z.div_pos; lia. apply Z.div_lt; lia. Qed.

Definition to_binary (n : Z) : string :=
  if n =? 0 then "0"
  else
    let sign := if n <? 0 then "-" else "" in
    let n := if n <? 0 then - n else n in
    let bits := binary_loop n [] in
    sign +:+ Py.join (rev bits).

(** The loop of [to_hexadecimal]:
    [while n > 0: digits.append(HEX_DIGITS[n % 16]); n //= 16].
    The index [n % 16] is always inside [HEX_DIGITS]; the [None] branch of
    the lookup (IndexError) is kept and shown unreachable below. *)
Equations? hex_loop (n : Z) (digits : list string) : option (list string)
  by wf (Z.to_nat n) lt :=
hex_loop n digits with Z_lt_dec 0 n := {
  | left _ with Py.str_index HEX_DIGITS (n mod 16) := {
      | Some d => hex_loop (n / 16) (digits ++ [d])
      | None => None }
  | right _ => Some digits }.
Proof. apply Z2Nat.inj_lt; try lia. apply Z.div_pos; lia. apply Z.div_lt; lia. Qed.

Definition to_hexadecimal (n : Z) : option string :=
  if n =? 0 then Some "0"
  else
    let sign := if n <? 0 then "-" else "" in
    let n := if n <? 0 then - n else n in
    match hex_loop n [] with
    | Some digits => Some (sign +:+ Py.join (rev digits))
    | None => None
    end.

(** *** The reading side of the round trip

    A numeral over an alphabet of [base] digits: an optional leading "-"
    followed by at least one digit, most significant first. *)

Fixpoint digit_value (alphabet : string) (c : ascii) : option Z :=
  match alphabet with
  | EmptyString => None
  | String a rest =>
      if Ascii.eqb a c then Some 0
      else match digit_value rest c with
           | Some v => Some (v + 1)
           | None => None
           end
  end.

Fixpoint parse_digits (alphabet : string) (s : string) (acc : Z) : option Z :=
  match s with
  | EmptyString => Some acc
  | String c rest =>
      match digit_value alphabet c with
      | Some v => parse_digits alphabet rest (acc * Z.of_nat (String.length alphabet) + v)
      | None => None
      end
  end.

Definition parse_numeral (alphabet : string) (s : string) : option Z :=
  match s with
  | EmptyString => None
  | String "-" EmptyString => None
  | String "-" rest => option_map Z.opp (parse_digits alphabet rest 0)
  | _ => parse_digits alphabet s 0
  end.

Definition parse_binary : string -> option Z := parse_numeral "01".
Definition parse_hexadecimal : string -> option Z := parse_numeral HEX_DIGITS.

Example to_binary_10 : to_binary 10 = "1010".
Proof. vm_compute. reflexivity. Qed.

Example to_hexadecimal_neg255 : to_hexadecimal (-255) = Some "-FF".
Proof. vm_compute. reflexivity. Qed.

(** *** Round trip of the two encoders *)

Import Str.

Lemma parse_digits_app (alphabet s t : string) (acc : Z) :
  parse_digits alphabet (s +:+ t) acc =
  match parse_digits alphabet s acc with
  | Some v => parse_digits alphabet t v
  | None => None
  end.
Proof.
  revert acc. induction s as [|c s IH]; intros acc; str_simpl; simpl.
  - now destruct (parse_digits alphabet t acc).
  - destruct (digit_value alphabet c); [apply IH | reflexivity].
Qed.

(** A numeral that starts with a digit is read by [parse_digits]. *)
Lemma parse_numeral_unsigned (alphabet s : string) (v : Z) :
  digit_value alphabet "-"%char = None ->
  s <> "" ->
  parse_digits alphabet s 0 = Some v ->
  parse_numeral alphabet s = Some v.
Proof.
  intros Hminus Hne Hp. destruct s as [|c s]; [congruence|].
  unfold parse_numeral.
  destruct (Ascii.eqb_spec c "-"%char) as [->|Hc].
  - simpl in Hp. rewrite Hminus in Hp. discriminate.
  - destruct c as [[] [] [] [] [] [] [] []]; try exact Hp. congruence.
Qed.

Lemma parse_numeral_signed (alphabet s : string) (v : Z) :
  s <> "" ->
  parse_digits alphabet s 0 = Some v ->
  parse_numeral alphabet ("-" +:+ s) = Some (- v).
Proof.
  intros Hne Hp. destruct s as [|c s]; [congruence|].
  str_simpl. simpl. simpl in Hp. rewrite Hp. reflexivity.
Qed.

(** [bits] only ever grows at its end. *)
Lemma binary_loop_prefix (n : Z) (bits : list string) :
  forall pre, binary_loop n (pre ++ bits) = (pre ++ binary_loop n bits).
Proof.
  funelim (binary_loop n bits); intros pre;
    rewrite (binary_loop_equation_1 n (pre ++ bits));
    match goal with Hd : Z_lt_dec 0 n = _ |- _ => rewrite Hd end;
    cbn [binary_loop_unfold_clause_1]; try reflexivity.
  rewrite <- app_assoc. apply H.
Qed.

Lemma binary_loop_acc (n : Z) (bits : list string) :
  binary_loop n bits = (bits ++ binary_loop n []).
Proof.
  pose proof (binary_loop_prefix n [] bits) as H.
  rewrite app_nil_r in H. exact H.
Qed.

Lemma binary_loop_pos (n : Z) :
  0 < n ->
  binary_loop n [] = Py.str_of_int (n mod 2) :: binary_loop (n / 2) [].
Proof.
  intros Hn. rewrite (binary_loop_equation_1 n []).
  destruct (Z_lt_dec 0 n) as [Hlt|Hge]; [|lia]. simpl.
  now rewrite binary_loop_acc.
Qed.

Lemma binary_loop_nonpos (n : Z) : n <= 0 -> binary_loop n [] = [].
Proof.
  intros Hn. rewrite (binary_loop_equation_1 n []).
  destruct (Z_lt_dec 0 n); [lia | reflexivity].
Qed.

Lemma bit_digit (r : Z) :
  0 <= r < 2 ->
  exists c, Py.str_of_int r = String c "" /\ digit_value "01" c = Some r.
Proof.
  intros Hr. assert (r = 0 \/ r = 1) as [-> | ->] by lia.
  - exists "0"%char. split; reflexivity.
  - exists "1"%char. split; reflexivity.
Qed.

Lemma binary_digits_parse (n : Z) :
  0 <= n ->
  parse_digits "01" (Py.join (rev (binary_loop n []))) 0 = Some n /\
  (0 < n -> Py.join (rev (binary_loop n [])) <> "").
Proof.
  induction n as [n IH] using (well_founded_induction (Z.lt_wf 0)). intros Hn.
  destruct (Z.eq_dec n 0) as [->|Hnz].
  - split; [reflexivity | lia].
  - assert (0 < n) as Hpos by lia.
    rewrite (binary_loop_pos n Hpos), join_rev_snoc.
    destruct (bit_digit (n mod 2)) as (c & Hc & Hv); [apply Z.mod_pos_bound; lia|].
    assert (0 <= n / 2 < n) as Hhalf by (split; [apply Z.div_pos | apply Z.div_lt]; lia).
    destruct (IH (n / 2) Hhalf) as [IHp _]; [lia|].
    split.
    + rewrite parse_digits_app, IHp, Hc. cbn [parse_digits]. rewrite Hv. f_equal.
      change (Z.of_nat (String.length "01")) with 2. pose proof (Z.div_mod n 2). lia.
    + intros _. apply append_nonempty_r. rewrite Hc. discriminate.
Qed.

Lemma hex_loop_prefix (n : Z) (digits : list string) :
  forall pre,
    hex_loop n (pre ++ digits) = option_map (app pre) (hex_loop n digits).
Proof.
  funelim (hex_loop n digits); intros pre;
    rewrite (hex_loop_equation_1 n (pre ++ digits));
    match goal with Hd : Z_lt_dec 0 n = _ |- _ => rewrite Hd end;
    cbn [hex_loop_unfold_clause_1];
    try match goal with Hi : Py.str_index _ _ = _ |- _ => rewrite Hi end;
    cbn [hex_loop_unfold_clause_1_clause_1]; try reflexivity.
  rewrite <- app_assoc. apply H.
Qed.

Lemma hex_loop_acc (n : Z) (digits : list string) :
  hex_loop n digits = option_map (app digits) (hex_loop n []).
Proof.
  pose proof (hex_loop_prefix n [] digits) as H.
  rewrite app_nil_r in H. exact H.
Qed.

Lemma hex_digit (r : Z) :
  0 <= r < 16 ->
  exists c, Py.str_index HEX_DIGITS r = Some (String c "") /\
            digit_value HEX_DIGITS c = Some r.
Proof.
  intros Hr.
  assert (r = 0 \/ r = 1 \/ r = 2 \/ r = 3 \/ r = 4 \/ r = 5 \/ r = 6 \/ r = 7 \/
          r = 8 \/ r = 9 \/ r = 10 \/ r = 11 \/ r = 12 \/ r = 13 \/ r = 14 \/ r = 15)
    as Hcases by lia.
  repeat (destruct Hcases as [-> | Hcases]; [eexists; split; reflexivity |]).
  subst r. eexists; split; reflexivity.
Qed.

Lemma hex_loop_pos (n : Z) :
  0 < n ->
  exists c, digit_value HEX_DIGITS c = Some (n mod 16) /\
    hex_loop n [] = option_map (cons (String c "")) (hex_loop (n / 16) []).
Proof.
  intros Hn. destruct (hex_digit (n mod 16)) as (c & Hc & Hv); [apply Z.mod_pos_bound; lia|].
  exists c. split; [exact Hv|].
  rewrite (hex_loop_equation_1 n []).
  destruct (Z_lt_dec 0 n) as [Hlt|Hge]; [|lia]. simpl. rewrite Hc. simpl.
  now rewrite hex_loop_acc.
Qed.

Lemma hex_digits_parse (n : Z) :
  0 <= n ->
  exists digits, hex_loop n [] = Some digits /\
    parse_digits HEX_DIGITS (Py.join (rev digits)) 0 = Some n /\
    (0 < n -> Py.join (rev digits) <> "").
Proof.
  induction n as [n IH] using (well_founded_induction (Z.lt_wf 0)). intros Hn.
  destruct (Z.eq_dec n 0) as [->|Hnz].
  - exists []. split; [reflexivity|]. split; [reflexivity | lia].
  - assert (0 < n) as Hpos by lia.
    destruct (hex_loop_pos n Hpos) as (c & Hv & Hloop).
    assert (0 <= n / 16 < n) as Hquot by (split; [apply Z.div_pos | apply Z.div_lt]; lia).
    destruct (IH (n / 16) Hquot) as (ds & Hds & IHp & _); [lia|].
    exists (String c "" :: ds). rewrite Hloop, Hds. split; [reflexivity|].
    rewrite join_rev_snoc. split.
    + rewrite parse_digits_app, IHp. cbn [parse_digits]. rewrite Hv. f_equal.
      change (Z.of_nat (String.length HEX_DIGITS)) with 16. pose proof (Z.div_mod n 16). lia.
    + intros _. apply append_nonempty_r. discriminate.
Qed.

(** C6. For every integer [n], zero and negatives included, reading
    [to_binary n] as a base-2 numeral with an optional leading "-" gives [n]
    back, and [to_hexadecimal n] returns a string that, read as a base-16
    numeral over 0123456789ABCDEF with an optional leading "-", gives [n]
    back. *)
Theorem convert_round_trip (n : Z) :
  parse_binary (to_binary n) = Some n /\
  exists s, to_hexadecimal n = Some s /\ parse_hexadecimal s = Some n.
Proof.
  unfold parse_binary, parse_hexadecimal, to_binary, to_hexadecimal.
  destruct (Z.eqb_spec n 0) as [->|Hnz].
  - split; [reflexivity|]. exists "0". split; reflexivity.
  - destruct (Z.ltb_spec n 0) as [Hneg|Hpos]; cbv zeta.
    + destruct (binary_digits_parse (- n)) as [Hb Hbne]; [lia|].
      destruct (hex_digits_parse (- n)) as (ds & Hds & Hh & Hhne); [lia|].
      split.
      * rewrite (parse_numeral_signed "01" _ (- n)); [f_equal; lia | apply Hbne; lia | exact Hb].
      * rewrite Hds. eexists. split; [reflexivity|].
        rewrite (parse_numeral_signed HEX_DIGITS _ (- n)); [f_equal; lia | apply Hhne; lia | exact Hh].
    + destruct (binary_digits_parse n) as [Hb Hbne]; [lia|].
      destruct (hex_digits_parse n) as (ds & Hds & Hh & Hhne); [lia|].
      split.
      * apply parse_numeral_unsigned; [reflexivity | apply Hbne; lia | exact Hb].
      * rewrite Hds. eexists. split; [reflexivity|].
        apply parse_numeral_unsigned; [reflexivity | apply Hhne; lia | exact Hh].
Qed.

(** *** The length of the numerals *)

Lemma length_append (a b : string) :
  String.length (a +:+ b) = (String.length a + String.length b)%nat.
Proof. induction a as [|c a IH]; str_simpl; simpl; [reflexivity | now rewrite IH]. Qed.

Lemma log2_half (n : Z) : 2 <= n -> Z.log2 (n / 2) = Z.log2 n - 1.
Proof.
  intros Hn. change 2 with (2 ^ 1) at 1. rewrite <- Z.shiftr_div_pow2 by lia.
  rewrite Z.log2_shiftr by lia.
  assert (1 <= Z.log2 n) by (apply Z.log2_le_pow2; simpl; lia). lia.
Qed.

Lemma log2_sixteenth (n : Z) : 16 <= n -> Z.log2 (n / 16) = Z.log2 n - 4.
Proof.
  intros Hn. change 16 with (2 ^ 4) at 1. rewrite <- Z.shiftr_div_pow2 by lia.
  rewrite Z.log2_shiftr by lia.
  assert (4 <= Z.log2 n) by (apply Z.log2_le_pow2; simpl; lia). lia.
Qed.

Lemma binary_length (n : Z) :
  0 <= n ->
  String.length (Py.join (rev (binary_loop n []))) =
  if n =? 0 then 0%nat else Z.to_nat (Z.log2 n + 1).
Proof.
  induction n as [n IH] using (well_founded_induction (Z.lt_wf 0)). intros Hn.
  destruct (Z.eqb_spec n 0) as [->|Hnz]; [reflexivity|].
  assert (0 < n) as Hpos by lia.
  rewrite (binary_loop_pos n Hpos), join_rev_snoc, length_append.
  destruct (bit_digit (n mod 2)) as (c & -> & _); [apply Z.mod_pos_bound; lia|].
  assert (0 <= n / 2 < n) as Hhalf by (split; [apply Z.div_pos | apply Z.div_lt]; lia).
  rewrite (IH (n / 2) Hhalf) by lia. cbn [String.length].
  destruct (Z.eqb_spec (n / 2) 0) as [Hz|Hnz'].
  - assert (n = 1) as -> by (pose proof (Z.div_mod n 2); pose proof (Z.mod_pos_bound n 2); lia).
    reflexivity.
  - assert (2 <= n) as Hn2
      by (destruct (Z_lt_dec n 2); [rewrite Z.div_small in Hnz' by lia; lia | lia]).
    rewrite (log2_half n Hn2).
    assert (1 <= Z.log2 n) by (apply Z.log2_le_pow2; simpl; lia). lia.
Qed.

Lemma hex_length (n : Z) :
  0 <= n ->
  exists digits,
    hex_loop n [] = Some digits /\
    String.length (Py.join (rev digits)) =
    if n =? 0 then 0%nat else Z.to_nat (Z.log2 n / 4 + 1).
Proof.
  induction n as [n IH] using (well_founded_induction (Z.lt_wf 0)). intros Hn.
  destruct (Z.eqb_spec n 0) as [->|Hnz]; [exists []; split; reflexivity|].
  assert (0 < n) as Hpos by lia.
  destruct (hex_loop_pos n Hpos) as (c & _ & Hloop).
  assert (0 <= n / 16 < n) as Hquot by (split; [apply Z.div_pos | apply Z.div_lt]; lia).
  destruct (IH (n / 16) Hquot) as (ds & Hds & Hlen); [lia|].
  exists (String c "" :: ds). rewrite Hloop, Hds. split; [reflexivity|].
  rewrite join_rev_snoc, length_append, Hlen. cbn [String.length].
  destruct (Z.eqb_spec (n / 16) 0) as [Hz|Hnz'].
  - assert (n < 16) as Hsmall
      by (pose proof (Z.div_mod n 16); pose proof (Z.mod_pos_bound n 16); lia).
    assert (Z.log2 n < 4) as Hlog by (apply Z.log2_lt_pow2; simpl; lia).
    pose proof (Z.log2_nonneg n).
    rewrite (Z.div_small (Z.log2 n) 4) by lia. reflexivity.
  - assert (16 <= n) as Hn16
      by (destruct (Z_lt_dec n 16); [rewrite Z.div_small in Hnz' by lia; lia | lia]).
    rewrite (log2_sixteenth n Hn16).
    assert (4 <= Z.log2 n) by (apply Z.log2_le_pow2; simpl; lia).
    replace (Z.log2 n - 4) with (Z.log2 n + (-1) * 4) by lia.
    rewrite Z.div_add by lia.
    assert (1 <= Z.log2 n / 4) by (apply Z.div_le_lower_bound; lia). lia.
Qed.

(** X15. The numerals have no digit to spare. For [n > 0], [to_binary n]
    has [log2 n + 1] digits and [to_hexadecimal n] has [log2 n / 4 + 1],
    the fewest that can write [n], so neither begins with a zero; and the
    numeral of [- n] is "-" followed by the numeral of [n]. *)
Theorem numeral_canonical (n : Z) :
  0 < n ->
  String.length (to_binary n) = Z.to_nat (Z.log2 n + 1) /\
  to_binary (- n) = "-" +:+ to_binary n /\
  exists s,
    to_hexadecimal n = Some s /\
    String.length s = Z.to_nat (Z.log2 n / 4 + 1) /\
    to_hexadecimal (- n) = Some ("-" +:+ s).
Proof.
  intros Hn. unfold to_binary, to_hexadecimal.
  destruct (Z.eqb_spec n 0) as [?|_]; [lia|].
  destruct (Z.eqb_spec (- n) 0) as [?|_]; [lia|].
  destruct (Z.ltb_spec n 0) as [?|_]; [lia|].
  destruct (Z.ltb_spec (- n) 0) as [_|?]; [|lia].
  cbv zeta. rewrite Z.opp_involutive. str_simpl.
  pose proof (binary_length n) as Hb. destruct (hex_length n) as (ds & Hds & Hh); [lia|].
  destruct (Z.eqb_spec n 0) as [?|_]; [lia|].
  split; [apply Hb; lia|]. split; [reflexivity|].
  rewrite Hds. eexists. split; [reflexivity|]. split; [exact Hh | reflexivity].
Qed.

Lemma numeral_canonical_witness :
  String.length (to_binary 10) = Z.to_nat (Z.log2 10 + 1) /\
  to_binary (- 10) = "-" +:+ to_binary 10.
Proof.
  refine (let H := numeral_canonical 10 _ in conj (proj1 H) (proj1 (proj2 H))). lia.
Defined.

(** *** [parse_integers] *)

Section Parse.

(** [repr] of a string, which [{token!r}] prints. *)
Variable repr : string -> string.

(** The body of [for token in raw.split()]: ValueError is caught. *)
Definition token_step (line_no : Z) (st : list Z * list string) (token : string)
  : Py.result (list Z * list string) :=
  let '(values, errors) := st in
  match Py.int_of_str token with
  | Py.Ok n => Py.Ok (values ++ [n], errors)
  | Py.Raise Py.ValueError =>
      Py.Ok (values,
             errors ++ ["Line " +:+ Py.str_of_int line_no +:+ ": invalid integer -> "
                        +:+ repr token])
  | Py.Raise e => Py.Raise e
  end.

(** The body of [for line_no, raw in enumerate(text.splitlines(), start=1)];
    the state carries the number of the line. *)
Definition line_step (st : Z * (list Z * list string)) (raw : string)
  : Py.result (Z * (list Z * list string)) :=
  let '(line_no, acc) := st in
  let raw := Py.strip raw in
  if negb (Py.str_truthy raw) then Py.Ok (line_no + 1, acc)
  else
    match Py.for_each (token_step line_no) (Py.split raw) acc with
    | Py.Ok acc' => Py.Ok (line_no + 1, acc')
    | Py.Raise e => Py.Raise e
    end.

(** [parse_integers]: [file] is what [file_path.read_text] gives, the text
    or an OSError, which is raised again. The result is
    [(values, errors)]. *)
Definition parse_integers (file : Py.result string)
  : Py.result (list Z * list string) :=
  match file with
  | Py.Raise _ => Py.Raise Py.OSError
  | Py.Ok text =>
      match Py.for_each line_step (Py.splitlines text) (1, ([], [])) with
      | Py.Ok st => Py.Ok st.2
      | Py.Raise e => Py.Raise e
      end
  end.

(** The number that [int] reads in a token, if it reads one. *)
Definition int_value (token : string) : option Z :=
  match Py.int_of_str token with
  | Py.Ok n => Some n
  | Py.Raise _ => None
  end.

Lemma int_of_str_raises (s : string) (e : Py.exception) :
  Py.int_of_str s = Py.Raise e -> e = Py.ValueError.
Proof.
  unfold Py.int_of_str.
  destruct (match Py.int_strip s with
            | String "-" rest => option_map Z.opp (Py.int_numeral rest)
            | String "+" rest => Py.int_numeral rest
            | body => Py.int_numeral body
            end); [discriminate | now intros [= <-]].
Qed.

Lemma token_loop (line_no : Z) (parts : list string) :
  forall values errors,
  exists errs,
    Py.for_each (token_step line_no) parts (values, errors) =
    Py.Ok (values ++ omap int_value parts, errors ++ errs) /\
    (length (omap int_value parts) + length errs = length parts)%nat.
Proof.
  induction parts as [|part parts IH]; intros values errors; cbn [Py.for_each].
  - exists []. now rewrite !app_nil_r.
  - unfold token_step at 1. cbn [omap list_omap].
    destruct (Py.int_of_str part) as [n|e] eqn:Hint.
    + assert (int_value part = Some n) as -> by (unfold int_value; now rewrite Hint).
      destruct (IH (values ++ [n]) errors) as (errs & -> & Hlen).
      exists errs. rewrite <- app_assoc. split; [reflexivity | simpl; lia].
    + assert (int_value part = None) as -> by (unfold int_value; now rewrite Hint).
      rewrite (int_of_str_raises _ _ Hint).
      destruct (IH values (errors ++ ["Line " +:+ Py.str_of_int line_no
                                      +:+ ": invalid integer -> " +:+ repr part]))
        as (errs & -> & Hlen).
      eexists (_ :: errs). rewrite <- app_assoc. split; [reflexivity | simpl; lia].
Qed.

Lemma line_loop (lines : list string) :
  forall line_no values errors,
  exists line_no' errs,
    Py.for_each line_step lines (line_no, (values, errors)) =
    Py.Ok (line_no',
           (values ++ omap int_value
                        (concat ((fun raw => Py.split (Py.strip raw)) <$> lines)),
            errors ++ errs)) /\
    (length (omap int_value (concat ((fun raw => Py.split (Py.strip raw)) <$> lines)))
     + length errs
     = length (concat ((fun raw => Py.split (Py.strip raw)) <$> lines)))%nat.
Proof.
  induction lines as [|raw lines IH]; intros line_no values errors;
    rewrite ?fmap_cons; cbn [Py.for_each concat].
  - exists line_no, []. now rewrite !app_nil_r.
  - unfold line_step at 1.
    assert (exists errs,
              (if negb (Py.str_truthy (Py.strip raw))
               then Py.Ok (line_no + 1, (values, errors))
               else match Py.for_each (token_step line_no) (Py.split (Py.strip raw))
                            (values, errors) with
                    | Py.Ok acc' => Py.Ok (line_no + 1, acc')
                    | Py.Raise e => Py.Raise e
                    end) =
              Py.Ok (line_no + 1,
                     (values ++ omap int_value (Py.split (Py.strip raw)), errors ++ errs)) /\
              (length (omap int_value (Py.split (Py.strip raw))) + length errs
               = length (Py.split (Py.strip raw)))%nat) as (errs1 & -> & Hlen1).
    { destruct (Py.strip raw) as [|c r] eqn:E; simpl negb; cbv iota.
      - exists []. now rewrite !app_nil_r.
      - destruct (token_loop line_no (Py.split (String c r)) values errors)
          as (errs & -> & Hlen). now exists errs. }
    destruct (IH (line_no + 1) (values ++ omap int_value (Py.split (Py.strip raw)))
                (errors ++ errs1)) as (line_no' & errs & -> & Hlen).
    exists line_no', (errs1 ++ errs). rewrite omap_app, <- !app_assoc.
    split; [reflexivity|]. rewrite !length_app. lia.
Qed.

(** X16. [parse_integers] never raises on a text that was read. Its
    values are the numbers that [int] reads in the words of the whole
    text, [text.split()], in their order, and every word that [int] does
    not read adds one entry to the error list: the two lists together have
    as many entries as the text has words. A file that cannot be read
    gives OSError. *)
Theorem parse_integers_words (text : string) :
  (exists errors,
     parse_integers (Py.Ok text) = Py.Ok (omap int_value (Py.split text), errors) /\
     (length (omap int_value (Py.split text)) + length errors
      = length (Py.split text))%nat) /\
  forall e, parse_integers (Py.Raise e) = Py.Raise Py.OSError.
Proof.
  split; [|reflexivity]. unfold parse_integers.
  destruct (line_loop (Py.splitlines text) 1 [] []) as (line_no & errs & -> & Hlen).
  rewrite split_stripped_lines in Hlen |- *. now exists errs.
Qed.

End Parse.

Example parse_integers_ex :
  parse_integers (fun s => "'" +:+ s +:+ "'")
    (Py.Ok ("10 -3" +:+ String Py.LF " x1 " +:+ String Py.LF "+7"))
  = Py.Ok ([10; -3; 7], ["Line 2: invalid integer -> 'x1'"]).
Proof. vm_compute. reflexivity. Qed.

(** *** [format_results] *)

Definition RESULTS_HEADER : string :=
  "ITEM" +:+ String Py.TAB "DECIMAL" +:+ String Py.TAB "BINARY" +:+
  String Py.TAB "HEXADECIMAL".

(** The line of one value, from the texts of its fields:
    [f"{idx}\t{val}\t{to_binary(val)}\t{to_hexadecimal(val)}"]. *)
Definition result_row (idx val : Z) (hex : string) : string :=
  Py.str_of_int idx +:+ String Py.TAB (Py.str_of_int val) +:+
  String Py.TAB (to_binary val) +:+ String Py.TAB hex.

(** The body of [for idx, val in enumerate(values, start=1)]; the state
    carries the index. The fields are formatted from left to right, and
    writing [idx] or [val] in decimal raises ValueError when the number has
    more than 4300 digits. *)
Definition row_step (st : Z * list string) (val : Z) : Py.result (Z * list string) :=
  let '(idx, lines) := st in
  match Py.str_int idx with
  | Py.Raise e => Py.Raise e
  | Py.Ok idx_text =>
      match Py.str_int val with
      | Py.Raise e => Py.Raise e
      | Py.Ok val_text =>
          match to_hexadecimal val with
          | Some hex =>
              Py.Ok (idx + 1,
                     lines ++ [idx_text +:+ String Py.TAB val_text +:+
                               String Py.TAB (to_binary val) +:+ String Py.TAB hex])
          | None => Py.Raise Py.IndexError
          end
      end
  end.

(** The end of the report: the error section, when there are errors, and
    the elapsed time. *)
Definition results_tail (errors : list string) (elapsed : string) : list string :=
  (match errors with
   | [] => []
   | _ => [""; "Errors (invalid tokens were ignored):"] ++ errors
   end) ++
  [""; "Elapsed time: " +:+ elapsed +:+ " seconds"].

(** [format_results]; [elapsed] is the text of [f"{elapsed_seconds:.6f}"]. *)
Definition format_results (values : list Z) (errors : list string) (elapsed : string)
  : Py.result string :=
  match Py.for_each row_step values (1, [RESULTS_HEADER]) with
  | Py.Raise e => Py.Raise e
  | Py.Ok st =>
      Py.Ok (Py.join_with (String Py.LF "") (st.2 ++ results_tail errors elapsed)
             +:+ String Py.LF "")
  end.

Example format_results_ex :
  format_results [10; -255] [] "0.000012"
  = Py.Ok (Py.join_with (String Py.LF "")
             [RESULTS_HEADER;
              "1" +:+ String Py.TAB "10" +:+ String Py.TAB "1010" +:+ String Py.TAB "A";
              "2" +:+ String Py.TAB "-255" +:+ String Py.TAB "-11111111" +:+
              String Py.TAB "-FF";
              ""; "Elapsed time: 0.000012 seconds"]
           +:+ String Py.LF "").
Proof. vm_compute. reflexivity. Qed.

(** A number of 4301 digits cannot be written. *)
Example format_results_too_long :
  format_results [10; 10 ^ 4300] [] "0.000012" = Py.Raise Py.ValueError.
Proof. vm_compute. reflexivity. Qed.

Lemma to_hexadecimal_returns (n : Z) : exists s, to_hexadecimal n = Some s.
Proof.
  unfold to_hexadecimal. destruct (n =? 0); [eauto|]. cbv zeta.
  destruct (hex_digits_parse (if n <? 0 then - n else n)) as (ds & -> & _); [|eauto].
  destruct (Z.ltb_spec n 0); lia.
Qed.

Lemma str_int_below (n : Z) :
  Z.abs n < Py.INT_LIMIT -> Py.str_int n = Py.Ok (Py.str_of_int n).
Proof.
  intros Hn. unfold Py.str_int.
  destruct (Z.ltb_spec (Z.abs n) Py.INT_LIMIT); [reflexivity | lia].
Qed.

Lemma str_int_beyond (n : Z) :
  Py.INT_LIMIT <= Z.abs n -> Py.str_int n = Py.Raise Py.ValueError.
Proof.
  intros Hn. unfold Py.str_int.
  destruct (Z.ltb_spec (Z.abs n) Py.INT_LIMIT); [lia | reflexivity].
Qed.

Lemma result_row_loop (values : list Z) :
  forall idx lines,
    0 <= idx -> idx + Z.of_nat (length values) <= Py.INT_LIMIT ->
    Forall (fun v => Z.abs v < Py.INT_LIMIT) values ->
    exists rows,
      Py.for_each row_step values (idx, lines)
      = Py.Ok (idx + Z.of_nat (length values), lines ++ rows) /\
      length rows = length values /\
      forall (i : nat) (v : Z),
        values !! i = Some v ->
        exists hex, to_hexadecimal v = Some hex /\
                    rows !! i = Some (result_row (idx + Z.of_nat i) v hex).
Proof.
  induction values as [|val values IH]; intros idx lines Hidx Hlen Hvalues;
    cbn [Py.for_each].
  - exists []. rewrite app_nil_r, Z.add_0_r. split; [reflexivity|]. split; [reflexivity|].
    intros i v Hi. discriminate.
  - apply Forall_cons in Hvalues as [Hval Hvalues]. cbn [length] in Hlen.
    unfold row_step at 1. destruct (to_hexadecimal_returns val) as [hex Hhex].
    rewrite (str_int_below idx) by lia. rewrite (str_int_below val Hval), Hhex.
    fold (result_row idx val hex).
    destruct (IH (idx + 1) (lines ++ [result_row idx val hex])) as (rows & -> & Hrows_len & Hrows);
      [lia | lia | exact Hvalues |].
    exists (result_row idx val hex :: rows). rewrite <- app_assoc. split; [|split].
    + cbn [length]. do 2 f_equal. lia.
    + simpl. now rewrite Hrows_len.
    + intros [|i] v Hi; simpl in Hi.
      * injection Hi as <-. exists hex. rewrite Z.add_0_r. auto.
      * destruct (Hrows i v Hi) as (hex' & Hhex' & Hrow). exists hex'.
        split; [exact Hhex'|]. simpl. rewrite Hrow. do 2 f_equal. lia.
Qed.

Lemma result_row_loop_raises (values : list Z) :
  forall idx lines,
    0 <= idx -> idx + Z.of_nat (length values) <= Py.INT_LIMIT ->
    Exists (fun v => Py.INT_LIMIT <= Z.abs v) values ->
    Py.for_each row_step values (idx, lines) = Py.Raise Py.ValueError.
Proof.
  induction values as [|val values IH]; intros idx lines Hidx Hlen Hbig;
    [inversion Hbig|]. cbn [Py.for_each]. cbn [length] in Hlen.
  unfold row_step at 1. rewrite (str_int_below idx) by lia.
  destruct (Z_lt_dec (Z.abs val) Py.INT_LIMIT) as [Hval|Hval].
  - rewrite (str_int_below val Hval).
    destruct (to_hexadecimal_returns val) as [hex ->].
    apply IH; [lia | lia |]. apply Exists_cons in Hbig as [?|?]; [lia | assumption].
  - now rewrite (str_int_beyond val) by lia.
Qed.

(** X24. [format_results] on a list of fewer than 10^4300 values. When
    every value has at most 4300 digits, as every value that
    [parse_integers] returns has, it returns: no index into [HEX_DIGITS]
    is out of range, and the report is the heading, then exactly one line
    per value in input order, numbered from 1 and holding the value with
    its binary and hexadecimal numerals, then the error section when there
    are errors, and the elapsed time. When some value has more digits, it
    raises ValueError, for the value cannot be written in decimal. *)
Theorem conversion_rows (values : list Z) (errors : list string) (elapsed : string) :
  Z.of_nat (length values) < Py.INT_LIMIT ->
  (Forall (fun v => Z.abs v < Py.INT_LIMIT) values ->
   exists rows,
     format_results values errors elapsed
     = Py.Ok (Py.join_with (String Py.LF "")
                ([RESULTS_HEADER] ++ rows ++ results_tail errors elapsed)
              +:+ String Py.LF "") /\
     length rows = length values /\
     forall (i : nat) (v : Z),
       values !! i = Some v ->
       exists hex, to_hexadecimal v = Some hex /\
                   rows !! i = Some (result_row (Z.of_nat i + 1) v hex)) /\
  (Exists (fun v => Py.INT_LIMIT <= Z.abs v) values ->
   format_results values errors elapsed = Py.Raise Py.ValueError) /\
  (forall repr text values' errors',
     parse_integers repr (Py.Ok text) = Py.Ok (values', errors') ->
     Forall (fun v => Z.abs v < Py.INT_LIMIT) values').
Proof.
  intros Hlen. split; [|split].
  - intros Hvalues. unfold format_results.
    destruct (result_row_loop values 1 [RESULTS_HEADER]) as (rows & -> & Hrows_len & Hrows);
      [lia | lia | exact Hvalues |].
    exists rows. cbn [snd]. rewrite <- app_assoc. split; [reflexivity|].
    split; [exact Hrows_len|]. intros i v Hi.
    destruct (Hrows i v Hi) as (hex & Hhex & Hrow). exists hex.
    split; [exact Hhex|]. rewrite Hrow. do 2 f_equal. lia.
  - intros Hbig. unfold format_results.
    now rewrite (result_row_loop_raises values 1 [RESULTS_HEADER]) by (lia || assumption).
  - intros repr text values' errors' Hparse.
    destruct (parse_integers_words repr text) as [(errors0 & Hwords & _) _].
    rewrite Hwords in Hparse. injection Hparse as <- _.
    apply Forall_forall. intros v Hv.
    apply list_elem_of_omap in Hv as (token & _ & Hint). unfold int_value in Hint.
    destruct (Py.int_of_str token) as [n|] eqn:Hn; [|discriminate].
    injection Hint as <-. exact (Numeral.int_of_str_bound token n Hn).
Qed.

Lemma conversion_rows_witness :
  exists rows,
    format_results [10; -255] [] "0.000012"
    = Py.Ok (Py.join_with (String Py.LF "")
               ([RESULTS_HEADER] ++ rows ++ results_tail [] "0.000012")
             +:+ String Py.LF "") /\
    length rows = 2%nat.
Proof.
  assert (Z.of_nat (length [10; -255]) < Py.INT_LIMIT) as Hlen
    by (vm_compute; reflexivity).
  assert (Forall (fun v => Z.abs v < Py.INT_LIMIT) [10; -255]) as Hvalues
    by (repeat constructor; vm_compute; reflexivity).
  destruct (proj1 (conversion_rows [10; -255] [] "0.000012" Hlen) Hvalues)
    as (rows & Hreport & Hrows & _).
  exists rows. split; [exact Hreport | exact Hrows].
Defined.

End Convert.

(** ** Python dicts in insertion order

    A dict whose iteration order is observed is an association list without
    repeated keys; a new key goes last and an existing key keeps its place. *)

Module Dict.

Section Ops.

Context {K : Type} `{EqDecision K} {A : Type}.

Fixpoint dict_lookup (d : list (K * A)) (k : K) : option A :=
  match d with
  | [] => None
  | (k0, a) :: rest => if decide (k0 = k) then Some a else dict_lookup rest k
  end.

(** [d.get(k, default)] *)
Definition dict_get (d : list (K * A)) (k : K) (default : A) : A :=
  match dict_lookup d k with
  | Some a => a
  | None => default
  end.

(** [d[k]]: KeyError when the key is missing. *)
Definition dict_item (d : list (K * A)) (k : K) : Py.result A :=
  match dict_lookup d k with
  | Some a => Py.Ok a
  | None => Py.Raise Py.KeyError
  end.

(** [d[k] = a] *)
Fixpoint dict_set (d : list (K * A)) (k : K) (a : A) : list (K * A) :=
  match d with
  | [] => [(k, a)]
  | (k0, a0) :: rest =>
      if decide (k0 = k) then (k0, a) :: rest else (k0, a0) :: dict_set rest k a
  end.

(** [d[k].field = ...]: the value under an existing key is changed in
    place. *)
Fixpoint dict_alter (f : A -> A) (d : list (K * A)) (k : K) : list (K * A) :=
  match d with
  | [] => []
  | (k0, a0) :: rest =>
      if decide (k0 = k) then (k0, f a0) :: rest else (k0, a0) :: dict_alter f rest k
  end.

(** [k in d] *)
Definition dict_mem (d : list (K * A)) (k : K) : bool :=
  match dict_lookup d k with
  | Some _ => true
  | None => false
  end.

(** [d.keys()] *)
Definition dict_keys (d : list (K * A)) : list K := d.*1.

End Ops.

Section Tally.

Context {K : Type} `{EqDecision K}.

(** [freq[v] = freq.get(v, 0) + 1] *)
Definition tally_step (freq : list (K * Z)) (v : K) : list (K * Z) :=
  dict_set freq v (dict_get freq v 0 + 1).

(** [freq = {}; for v in values: freq[v] = freq.get(v, 0) + 1] *)
Definition tally (values : list K) : list (K * Z) :=
  fold_left tally_step values [].

(** The number of occurrences of [v] in [values]. *)
Definition occurrences (v : K) (values : list K) : Z :=
  Z.of_nat (length (filter (fun x => x = v) values)).

End Tally.

Section Facts.

Context {K : Type} `{EqDecision K}.

Lemma occurrences_nil (v : K) : occurrences v [] = 0.
Proof. reflexivity. Qed.

Lemma occurrences_snoc (v x : K) (p : list K) :
  occurrences v (p ++ [x]) = occurrences v p + (if decide (x = v) then 1 else 0).
Proof.
  unfold occurrences. rewrite filter_app, length_app.
  rewrite filter_cons, filter_nil. destruct (decide (x = v)); simpl; lia.
Qed.

Lemma occurrences_nonneg (v : K) (p : list K) : 0 <= occurrences v p.
Proof. unfold occurrences. lia. Qed.

Lemma occurrences_pos (v : K) (p : list K) : v ∈ p <-> 0 < occurrences v p.
Proof.
  unfold occurrences. split.
  - intros Hin. assert (v ∈ filter (fun x => x = v) p) as Hf
      by (apply list_elem_of_filter; auto).
    destruct (filter (fun x => x = v) p); [inversion Hf | simpl; lia].
  - intros Hpos. destruct (filter (fun x => x = v) p) as [|y l] eqn:E; [simpl in Hpos; lia|].
    assert (y ∈ filter (fun x => x = v) p) as Hy by (rewrite E; left).
    apply list_elem_of_filter in Hy as [-> Hy]. exact Hy.
Qed.

Lemma dict_lookup_set {A : Type} (freq : list (K * A)) (v k : K) (c : A) :
  dict_lookup (dict_set freq v c) k =
  if decide (v = k) then Some c else dict_lookup freq k.
Proof.
  induction freq as [|[k0 c0] rest IH]; simpl.
  - destruct (decide (v = k)); reflexivity.
  - destruct (decide (k0 = v)) as [->|Hne]; simpl.
    + destruct (decide (v = k)); reflexivity.
    + destruct (decide (k0 = k)) as [->|Hne'].
      * destruct (decide (v = k)); [congruence | reflexivity].
      * exact IH.
Qed.

Lemma dict_lookup_alter {A : Type} (f : A -> A) (d : list (K * A)) (k k' : K) :
  dict_lookup (dict_alter f d k) k' =
  if decide (k = k') then f <$> dict_lookup d k else dict_lookup d k'.
Proof.
  induction d as [|[k0 a0] rest IH]; simpl.
  - now destruct (decide (k = k')).
  - destruct (decide (k0 = k)) as [->|Hne]; simpl.
    + destruct (decide (k = k')) as [->|Hne']; reflexivity.
    + destruct (decide (k0 = k')) as [->|Hne'].
      * now rewrite decide_False by congruence.
      * exact IH.
Qed.

Lemma dict_alter_keys {A : Type} (f : A -> A) (d : list (K * A)) (k : K) :
  dict_keys (dict_alter f d k) = dict_keys d.
Proof.
  unfold dict_keys. induction d as [|[k0 a0] rest IH]; cbn [dict_alter]; [reflexivity|].
  destruct (decide (k0 = k)); rewrite !fmap_cons; [reflexivity | now rewrite IH].
Qed.


Lemma dict_set_keys {A : Type} (freq : list (K * A)) (v : K) (c : A) :
  forall k, k ∈ (dict_set freq v c).*1 <-> k = v \/ k ∈ freq.*1.
Proof.
  intros k. induction freq as [|[k0 c0] rest IH]; simpl.
  - rewrite list_elem_of_singleton. set_solver.
  - destruct (decide (k0 = v)) as [->|Hne]; simpl; set_solver.
Qed.

Lemma dict_set_NoDup {A : Type} (freq : list (K * A)) (v : K) (c : A) :
  NoDup freq.*1 -> NoDup (dict_set freq v c).*1.
Proof.
  induction freq as [|[k0 c0] rest IH]; simpl; intros Hnd.
  - apply NoDup_singleton.
  - apply NoDup_cons in Hnd as [Hk0 Hrest].
    destruct (decide (k0 = v)) as [->|Hne]; simpl.
    + apply NoDup_cons; auto.
    + apply NoDup_cons. split; [|auto].
      rewrite dict_set_keys. intros [?|?]; [congruence | contradiction].
Qed.

Lemma dict_lookup_None {A : Type} (freq : list (K * A)) (k : K) :
  dict_lookup freq k = None <-> k ∉ freq.*1.
Proof.
  induction freq as [|[k0 c0] rest IH]; simpl.
  - split; [intros _; apply not_elem_of_nil | reflexivity].
  - destruct (decide (k0 = k)) as [->|Hne].
    + split; [discriminate | intros Hnot; exfalso; apply Hnot; left].
    + rewrite IH. rewrite not_elem_of_cons. intuition congruence.
Qed.

Lemma dict_lookup_elem {A : Type} (freq : list (K * A)) (k : K) (c : A) :
  NoDup freq.*1 -> ((k, c) ∈ freq <-> dict_lookup freq k = Some c).
Proof.
  induction freq as [|[k0 c0] rest IH]; simpl; intros Hnd.
  - split; [intros Hin; inversion Hin | discriminate].
  - apply NoDup_cons in Hnd as [Hk0 Hrest]. rewrite elem_of_cons.
    destruct (decide (k0 = k)) as [->|Hne].
    + split.
      * intros [Heq | Hin]; [congruence|].
        exfalso. apply Hk0. apply list_elem_of_fmap. exists (k, c). auto.
      * intros [= ->]. now left.
    + rewrite <- (IH Hrest). split; [intros [?|?]; [congruence | assumption] | auto].
Qed.

(** After the counting loop the table has one entry per distinct value, in
    order of first occurrence, holding its number of occurrences. *)
Lemma tally_spec (values : list K) :
  NoDup (tally values).*1 /\
  forall k, dict_lookup (tally values) k =
            if decide (k ∈ values) then Some (occurrences k values) else None.
Proof.
  unfold tally.
  induction values as [|x p [IHnd IHl]] using rev_ind.
  - split; [apply NoDup_nil_2 | intros k; simpl].
    destruct (decide (k ∈ [])) as [Hin|]; [inversion Hin | reflexivity].
  - rewrite fold_left_app. simpl. split.
    + unfold tally_step at 1. now apply dict_set_NoDup.
    + intros k. unfold tally_step at 1. rewrite dict_lookup_set, occurrences_snoc.
      assert (dict_get (fold_left tally_step p []) x 0 = occurrences x p) as ->.
      { unfold dict_get. rewrite IHl.
        destruct (decide (x ∈ p)) as [Hin|Hnin]; [reflexivity|].
        pose proof (occurrences_nonneg x p) as Hge.
        destruct (Z.eq_dec (occurrences x p) 0); [congruence|].
        exfalso. apply Hnin. apply occurrences_pos. lia. }
      rewrite IHl.
      assert (k ∈ p ++ [x] <-> k ∈ p \/ k = x) as Hmem
        by (rewrite elem_of_app, list_elem_of_singleton; tauto).
      destruct (decide (k ∈ p)) as [Hin|Hnin];
        destruct (decide (k ∈ p ++ [x])) as [Hin'|Hnin'];
        destruct (decide (x = k)) as [Heq|Hne];
        try (exfalso; intuition (auto; congruence)); try reflexivity; subst; f_equal; lia.
Qed.

(** The table lists exactly the values of the list with their counts. *)
Lemma tally_elem (values : list K) (k : K) (c : Z) :
  (k, c) ∈ tally values <-> k ∈ values /\ c = occurrences k values.
Proof.
  destruct (tally_spec values) as [Hnd Hl].
  rewrite (dict_lookup_elem _ k c Hnd), Hl.
  destruct (decide (k ∈ values)) as [Hin|Hnin].
  - split; [intros [= <-]; auto | intros [_ ->]; reflexivity].
  - split; [discriminate | tauto].
Qed.

End Facts.

End Dict.

(** ** computeStatistics.py: [mode] *)

Module Stats.

Import Dict.

Section Mode.

(** The values are Python floats compared with [==] and [<]; [V] stands for
    them up to [==] (NaN, which is not equal to itself, is left out), and
    [lt_val] is their [<]. *)
Context {V : Type} `{EqDecision V}.
Variable lt_val : V -> V -> bool.

(** The body of [for val, count in freq.items()]. *)
Definition scan_step (st : Z * list V) (item : V * Z) : Z * list V :=
  let '(max_count, modes) := st in
  let '(val, count) := item in
  if max_count <? count then (count, [val])
  else if count =? max_count then (max_count, modes ++ [val])
  else (max_count, modes).

(** [min(l)]: the first element, replaced by each later one that is [<] it;
    ValueError on an empty list. *)
Definition py_min (l : list V) : Py.result V :=
  match l with
  | [] => Py.Raise Py.ValueError
  | x :: rest =>
      Py.Ok (fold_left (fun cur y => if lt_val y cur then y else cur) rest x)
  end.

Definition mode (values : list V) : Py.result (option V) :=
  let freq := tally values in
  let '(max_count, modes) := fold_left scan_step freq (0, []) in
  if max_count <=? 1 then Py.Ok None
  else match py_min modes with
       | Py.Ok m => Py.Ok (Some m)
       | Py.Raise e => Py.Raise e
       end.

(** The line of [format_results] that reports the mode:
    [f"Mode: {mod if mod is not None else 'N/A'}"], with [repr] the text of a
    float. *)
Definition mode_line (repr : V -> string) (mod_ : option V) : string :=
  "Mode: " +:+ match mod_ with Some m => repr m | None => "N/A" end.

(** Every value of the list occurs once. *)
Definition all_once (values : list V) : Prop :=
  forall v, v ∈ values -> occurrences v values = 1.

(** [m] is a value of the list and no value occurs more often. *)
Definition most_frequent (m : V) (values : list V) : Prop :=
  m ∈ values /\ forall v, occurrences v values <= occurrences m values.

End Mode.

Example mode_tie : mode Z.ltb [3; 1; 3; 1; 2] = Py.Ok (Some 1).
Proof. reflexivity. Qed.

Example mode_all_once : mode Z.ltb [3; 1; 2] = Py.Ok None.
Proof. reflexivity. Qed.

(** *** The frequency table *)

Section ModeFacts.

Context {V : Type} `{EqDecision V}.
Variable lt_val : V -> V -> bool.
Hypothesis lt_irrefl : forall x, lt_val x x = false.
Hypothesis lt_trans :
  forall x y z, lt_val x y = true -> lt_val y z = true -> lt_val x z = true.
Hypothesis lt_total : forall x y, x = y \/ lt_val x y = true \/ lt_val y x = true.

(** *** The scan for the highest count *)

Lemma scan_spec (freq : list (V * Z)) (mx : Z) (modes : list V) :
  Forall (fun item => 0 < item.2) freq ->
  fold_left scan_step freq (0, []) = (mx, modes) ->
  0 <= mx /\
  (forall k c, (k, c) ∈ freq -> c <= mx) /\
  (forall k, k ∈ modes <-> (k, mx) ∈ freq) /\
  (freq <> [] -> modes <> []).
Proof.
  revert mx modes.
  induction freq as [|[k c] p IH] using rev_ind; intros mx modes Hpos Hscan.
  - injection Hscan as <- <-. split; [lia|]. split; [intros k c Hin; inversion Hin|].
    split; [|congruence]. intros k; split; intros Hin; inversion Hin.
  - rewrite fold_left_app in Hscan. simpl in Hscan.
    apply Forall_app in Hpos as [Hp Hc]. rewrite Forall_singleton in Hc. simpl in Hc.
    destruct (fold_left scan_step p (0, [])) as [mx0 modes0] eqn:Hp0.
    destruct (IH mx0 modes0 Hp eq_refl) as (Hmx0 & Hle & Hmodes & Hne).
    assert (p = [] -> mx0 = 0) as Hempty by (intros ->; now injection Hp0).
    unfold scan_step in Hscan.
    destruct (Z.ltb_spec mx0 c) as [Hlt|Hge]; [|destruct (Z.eqb_spec c mx0) as [Heq|Hneq]];
      injection Hscan as <- <-.
    + split; [lia|]. split; [|split].
      * intros k' c'. rewrite elem_of_app, list_elem_of_singleton.
        intros [Hin | [= -> ->]]; [apply Hle in Hin|]; lia.
      * intros k'. rewrite elem_of_app, !list_elem_of_singleton. split.
        -- intros ->. now right.
        -- intros [Hin | [= ->]]; [apply Hle in Hin; lia | reflexivity].
      * discriminate.
    + subst c. split; [lia|]. split; [|split].
      * intros k' c'. rewrite elem_of_app, list_elem_of_singleton.
        intros [Hin | [= -> ->]]; [now apply Hle in Hin | lia].
      * intros k'. rewrite !elem_of_app, !list_elem_of_singleton, Hmodes. split.
        -- intros [Hin | ->]; [now left | now right].
        -- intros [Hin | [= ->]]; [now left | now right].
      * intros _ Happ. now apply app_eq_nil in Happ as [_ ?].
    + split; [lia|]. split; [|split].
      * intros k' c'. rewrite elem_of_app, list_elem_of_singleton.
        intros [Hin | [= -> ->]]; [now apply Hle in Hin | lia].
      * intros k'. rewrite elem_of_app, list_elem_of_singleton, Hmodes. split.
        -- intros Hin; now left.
        -- intros [Hin | [= -> ->]]; [assumption | congruence].
      * intros _. apply Hne. intros ->. specialize (Hempty eq_refl). lia.
Qed.

(** *** [min] *)

Lemma min_fold_spec (rest : list V) :
  forall cur,
    let m := fold_left (fun cur y => if lt_val y cur then y else cur) rest cur in
    (m = cur \/ m ∈ rest) /\
    (forall y, lt_val y cur = false -> lt_val y m = false) /\
    (forall x, x ∈ rest -> lt_val x m = false).
Proof.
  induction rest as [|x r IH]; intros cur; simpl.
  - split; [now left|]. split; [auto|]. intros x Hin; inversion Hin.
  - destruct (IH (if lt_val x cur then x else cur)) as (Hm & Hmono & Hr).
    split; [|split].
    + destruct Hm as [-> | Hin]; [|right; now right].
      destruct (lt_val x cur); [right; left | now left].
    + intros y Hy. apply Hmono. destruct (lt_val x cur) eqn:Hx; [|exact Hy].
      destruct (lt_val y x) eqn:Hyx; [|reflexivity].
      rewrite (lt_trans _ _ _ Hyx Hx) in Hy. discriminate.
    + intros z. rewrite elem_of_cons. intros [-> | Hin]; [|now apply Hr].
      apply Hmono. destruct (lt_val x cur) eqn:Hx; [apply lt_irrefl | exact Hx].
Qed.

Lemma py_min_spec (l : list V) :
  l <> [] ->
  exists m, py_min lt_val l = Py.Ok m /\ m ∈ l /\
            forall x, x ∈ l -> lt_val x m = false.
Proof.
  destruct l as [|x rest]; [congruence|]. intros _. simpl.
  destruct (min_fold_spec rest x) as (Hm & Hmono & Hr).
  eexists. split; [reflexivity|]. split.
  - destruct Hm as [-> | Hin]; [left | now right].
  - intros z. rewrite elem_of_cons. intros [-> | Hin]; [|now apply Hr].
    apply Hmono, lt_irrefl.
Qed.

(** *** The result of [mode] *)

(** C5. [mode] never raises. It returns None, which the report prints as
    N/A, exactly when every value of the list occurs once; otherwise it
    returns a value [m] of the list whose number of occurrences is the
    highest, and every value with that same number of occurrences is [m]
    itself or greater than [m]. This holds for every list, the non-empty
    ones in particular. *)
Theorem mode_smallest_most_frequent (values : list V) :
  (mode lt_val values = Py.Ok None <-> all_once values) /\
  (forall repr : V -> string, mode_line repr None = "Mode: N/A") /\
  (~ all_once values ->
   exists m, mode lt_val values = Py.Ok (Some m) /\
             most_frequent m values /\
             forall v, most_frequent v values -> v = m \/ lt_val m v = true).
Proof.
  unfold mode.
  destruct (fold_left scan_step (tally values) (0, [])) as [mx modes] eqn:Hscan.
  assert (Forall (fun item : V * Z => 0 < item.2) (tally values)) as Hpos.
  { apply Forall_forall. intros [k c] Hin. apply tally_elem in Hin as [Hin ->].
    simpl. now apply occurrences_pos. }
  destruct (scan_spec _ _ _ Hpos Hscan) as (Hmx & Hle & Hmodes & Hne).
  assert (forall v, occurrences v values <= mx) as Hbound.
  { intros v. destruct (decide (v ∈ values)) as [Hin|Hnin].
    - apply (Hle v). apply tally_elem. auto.
    - pose proof (occurrences_nonneg v values). pose proof (occurrences_pos v values).
      destruct (Z_lt_dec 0 (occurrences v values)); [tauto | lia]. }
  assert (forall k, k ∈ modes <-> k ∈ values /\ occurrences k values = mx) as Hm.
  { intros k. rewrite Hmodes, tally_elem. intuition congruence. }
  destruct (Z.leb_spec mx 1) as [Hsmall|Hbig].
  - assert (all_once values) as Hall.
    { intros v Hin. pose proof (Hbound v). apply occurrences_pos in Hin. lia. }
    split; [tauto|]. split; [reflexivity|]. intros Hnot. contradiction.
  - assert (modes <> []) as Hmodes_ne.
    { apply Hne. destruct values as [|x values'].
      - cbn in Hscan. injection Hscan as <- <-. lia.
      - intros Hnil. assert ((x, occurrences x (x :: values')) ∈ tally (x :: values')) as Hin
          by (apply tally_elem; split; [left | reflexivity]).
        rewrite Hnil in Hin. inversion Hin. }
    destruct (py_min_spec modes Hmodes_ne) as (m & -> & Hmin & Hleast).
    apply Hm in Hmin as [Hmin Hocc].
    assert (~ all_once values) as Hnot.
    { intros Hall. specialize (Hall m Hmin). lia. }
    split; [split; [discriminate | contradiction]|]. split; [reflexivity|].
    intros _. exists m. split; [reflexivity|]. split.
    + split; [exact Hmin | intros v; rewrite Hocc; apply Hbound].
    + intros v [Hv Hvmax]. specialize (Hvmax m). pose proof (Hbound v).
      assert (v ∈ modes) as Hvm by (apply Hm; split; [exact Hv | lia]).
      apply Hleast in Hvm.
      destruct (lt_total v m) as [-> | [Hlt | Hgt]]; [now left | congruence | now right].
Qed.

End ModeFacts.

Lemma mode_smallest_most_frequent_witness :
  (mode Z.ltb [3; 1; 3; 1; 2] = Py.Ok None <-> all_once [3; 1; 3; 1; 2]) /\
  (forall repr : Z -> string, mode_line repr None = "Mode: N/A") /\
  (~ all_once [3; 1; 3; 1; 2] ->
   exists m, mode Z.ltb [3; 1; 3; 1; 2] = Py.Ok (Some m) /\
             most_frequent m [3; 1; 3; 1; 2] /\
             forall v, most_frequent v [3; 1; 3; 1; 2] -> v = m \/ Z.ltb m v = true).
Proof.
  apply (mode_smallest_most_frequent Z.ltb).
  - intros x. apply Z.ltb_irrefl.
  - intros x y z Hxy Hyz. apply Z.ltb_lt in Hxy, Hyz. apply Z.ltb_lt. lia.
  - intros x y. rewrite !Z.ltb_lt. lia.
Defined.

(** ** computeStatistics.py: the other statistics *)

(** The exceptions that the arithmetic can raise. *)
Inductive error : Type :=
| ZeroDivisionError
| IndexError
| ValueError.

Inductive outcome (A : Type) : Type :=
| Returns (a : A)
| Raises (e : error).
Arguments Returns {A} a.
Arguments Raises {A} e.

Section Descriptive.

(** [V] stands for the Python floats, with [0.0], [2.0], their four
    operations, [float(n)] for the length of a list, [math.sqrt], which is
    [None] where it raises ValueError, [str] of a float, and [float] of a
    string, which is [None] where it raises ValueError. *)
Context {V : Type} `{EqDecision V}.
Variable lt_val : V -> V -> bool.
Variables zero two : V.
Variables add sub mul div : V -> V -> V.
Variable of_int : Z -> V.
Variable sqrt : V -> option V.
Variable repr : V -> string.
Variable float_of_str : string -> option V.
Variable repr_str : string -> string.

(** [total / len(values)]: ZeroDivisionError when the list is empty. *)
Definition div_len (total : V) (values : list V) : outcome V :=
  let n := Z.of_nat (length values) in
  if n =? 0 then Raises ZeroDivisionError else Returns (div total (of_int n)).

Definition mean (values : list V) : outcome V :=
  let total := fold_left add values zero in
  div_len total values.

(** [l[i]]: a negative index counts from the end; IndexError outside the
    list. *)
Definition py_item (l : list V) (i : Z) : outcome V :=
  let i := if i <? 0 then i + Z.of_nat (length l) else i in
  if i <? 0 then Raises IndexError
  else match l !! Z.to_nat i with
       | Some x => Returns x
       | None => Raises IndexError
       end.

Definition median (sorted_values : list V) : outcome V :=
  let n := Z.of_nat (length sorted_values) in
  let mid := n / 2 in
  if n mod 2 =? 1 then py_item sorted_values mid
  else
    match py_item sorted_values (mid - 1) with
    | Raises e => Raises e
    | Returns a =>
        match py_item sorted_values mid with
        | Raises e => Raises e
        | Returns b => Returns (div (add a b) two)
        end
    end.

Definition population_variance (values : list V) (avg : V) : outcome V :=
  let total :=
    fold_left (fun total v => let diff := sub v avg in add total (mul diff diff))
      values zero in
  div_len total values.

(** [math.sqrt] *)
Definition math_sqrt (x : V) : outcome V :=
  match sqrt x with
  | Some r => Returns r
  | None => Raises ValueError
  end.

Definition population_std (values : list V) (avg : V) : outcome V :=
  match population_variance values avg with
  | Returns var => math_sqrt var
  | Raises e => Raises e
  end.

(** [sorted(values)] *)
Definition sorted_values (values : list V) : list V :=
  Py.sorted (fun a b => negb (lt_val b a)) values.

(** The end of every report: the error section, when there are errors,
    and the elapsed time. *)
Definition report_tail (errors : list string) (elapsed : string) : list string :=
  (match errors with
   | [] => []
   | _ => [""; "Errors (invalid tokens were ignored):"] ++ errors
   end) ++
  [""; "Elapsed time: " +:+ elapsed +:+ " seconds"].

(** [format_results]; [elapsed] is the text of [f"{elapsed_seconds:.6f}"]. *)
Definition format_results (values : list V) (errors : list string) (elapsed : string)
  : outcome string :=
  match values with
  | [] =>
      let header := "No valid numeric data found." +:+ String Py.LF "" in
      let err_block :=
        match errors with
        | [] => ""
        | _ => "Errors:" +:+ String Py.LF "" +:+
               Py.join_with (String Py.LF "") errors +:+ String Py.LF ""
        end in
      let footer :=
        String Py.LF "" +:+ "Elapsed time: " +:+ elapsed +:+ " seconds" +:+
        String Py.LF "" in
      Returns (header +:+ err_block +:+ footer)
  | _ =>
      match mean values with
      | Raises e => Raises e
      | Returns avg =>
          match median (sorted_values values) with
          | Raises e => Raises e
          | Returns med =>
              match mode lt_val values with
              | Py.Raise _ => Raises ValueError
              | Py.Ok mod_ =>
                  match population_variance values avg with
                  | Raises e => Raises e
                  | Returns var =>
                      match math_sqrt var with
                      | Raises e => Raises e
                      | Returns std =>
                          let lines :=
                            ["Descriptive Statistics";
                             Py.repeat_char "-" 24;
                             "Count: " +:+ Py.str_of_int (Z.of_nat (length values));
                             "Mean: " +:+ repr avg;
                             "Median: " +:+ repr med;
                             mode_line repr mod_;
                             "Population Std Dev: " +:+ repr std;
                             "Population Variance: " +:+ repr var] ++
                            report_tail errors elapsed in
                          Returns (Py.join_with (String Py.LF "") lines +:+
                                   String Py.LF "")
                      end
                  end
              end
          end
      end
  end.

(** *** [median] *)

Lemma py_item_middle (l1 : list V) (x : V) (l2 : list V) :
  py_item (l1 ++ x :: l2) (Z.of_nat (length l1)) = Returns x.
Proof.
  unfold py_item.
  assert (Z.of_nat (length l1) <? 0 = false) as Hi by (apply Z.ltb_ge; lia).
  rewrite !Hi, Nat2Z.id, list_lookup_middle by reflexivity. reflexivity.
Qed.

(** X17. [median] takes the middle of the list it is given: for a list of
    odd length the element with as many elements before it as after it,
    and for a list of even length, which is not empty, half the sum of the
    two elements in the middle. On the empty list it raises IndexError. *)
Theorem median_middle :
  median [] = Raises IndexError /\
  (forall l1 m l2, length l1 = length l2 -> median (l1 ++ m :: l2) = Returns m) /\
  (forall l1 a b l2,
     length l1 = length l2 ->
     median (l1 ++ a :: b :: l2) = Returns (div (add a b) two)).
Proof.
  split; [reflexivity|]. split.
  - intros l1 m l2 Hlen. unfold median.
    assert (Z.of_nat (length (l1 ++ m :: l2)) = 2 * Z.of_nat (length l1) + 1) as ->
      by (rewrite length_app; simpl; lia).
    assert ((2 * Z.of_nat (length l1) + 1) mod 2 = 1) as ->
      by (symmetry; apply (Z.mod_unique _ _ (Z.of_nat (length l1))); lia).
    assert ((2 * Z.of_nat (length l1) + 1) / 2 = Z.of_nat (length l1)) as ->
      by (symmetry; apply (Z.div_unique _ _ _ 1); lia).
    simpl Z.eqb. cbv iota. apply py_item_middle.
  - intros l1 a b l2 Hlen. unfold median.
    assert (Z.of_nat (length (l1 ++ a :: b :: l2)) = 2 * (Z.of_nat (length l1) + 1) + 0)
      as -> by (rewrite length_app; simpl; lia).
    assert ((2 * (Z.of_nat (length l1) + 1) + 0) mod 2 = 0) as ->
      by (symmetry; apply (Z.mod_unique _ _ (Z.of_nat (length l1) + 1)); lia).
    assert ((2 * (Z.of_nat (length l1) + 1) + 0) / 2 = Z.of_nat (length l1) + 1) as ->
      by (symmetry; apply (Z.div_unique _ _ _ 0); lia).
    simpl Z.eqb. cbv iota.
    replace (Z.of_nat (length l1) + 1 - 1) with (Z.of_nat (length l1)) by lia.
    rewrite py_item_middle.
    replace (Z.of_nat (length l1) + 1) with (Z.of_nat (length (l1 ++ [a])))
      by (rewrite length_app; simpl; lia).
    change (l1 ++ a :: b :: l2) with (l1 ++ [a] ++ b :: l2). rewrite app_assoc.
    now rewrite py_item_middle.
Qed.

(** *** [format_results] *)

Lemma mode_returns (values : list V) : exists m, mode lt_val values = Py.Ok m.
Proof.
  unfold mode.
  destruct (fold_left scan_step (tally values) (0, [])) as [mx modes] eqn:Hscan.
  destruct (Z.leb_spec mx 1) as [Hsmall|Hbig]; [eauto|].
  assert (Forall (fun item : V * Z => 0 < item.2) (tally values)) as Hpos.
  { apply Forall_forall. intros [k c] Hin. apply tally_elem in Hin as [Hin ->].
    simpl. now apply occurrences_pos. }
  destruct (scan_spec _ _ _ Hpos Hscan) as (_ & _ & _ & Hne).
  destruct modes as [|x rest]; [|simpl; eauto].
  exfalso. apply Hne; [|reflexivity].
  intros Hnil. rewrite Hnil in Hscan. injection Hscan as <-. lia.
Qed.

Lemma py_item_in_range (l : list V) (i : Z) :
  0 <= i < Z.of_nat (length l) -> exists x, py_item l i = Returns x.
Proof.
  intros Hi. unfold py_item.
  assert (i <? 0 = false) as Hneg by (apply Z.ltb_ge; lia). rewrite !Hneg.
  destruct (lookup_lt_is_Some_2 l (Z.to_nat i)) as [x ->]; [lia | eauto].
Qed.

Lemma median_returns (l : list V) : l <> [] -> exists m, median l = Returns m.
Proof.
  intros Hne. unfold median.
  assert (0 < Z.of_nat (length l)) as Hlen by (destruct l; [congruence | simpl; lia]).
  set (n := Z.of_nat (length l)) in *.
  pose proof (Z.div_mod n 2 ltac:(lia)) as Hdiv.
  pose proof (Z.mod_pos_bound n 2 ltac:(lia)) as Hmod.
  destruct (Z.eqb_spec (n mod 2) 1) as [Hodd|Heven].
  - apply py_item_in_range. fold n. lia.
  - destruct (py_item_in_range l (n / 2 - 1)) as [a ->]; [fold n; lia|].
    destruct (py_item_in_range l (n / 2)) as [b ->]; [fold n; lia | eauto].
Qed.

(** X18. [format_results] never divides by zero and never indexes outside
    a list. With no values it returns the text "No valid numeric data
    found." with the errors and the elapsed time, and [mean], [median] and
    [population_variance], which raise on an empty list, are not reached.
    With values, all four statistics return, and the report is returned
    unless [math.sqrt] raises ValueError on the variance. *)
Theorem format_results_edges (values : list V) (errors : list string)
  (elapsed : string) :
  mean [] = Raises ZeroDivisionError /\
  (forall avg, population_variance [] avg = Raises ZeroDivisionError) /\
  match values with
  | [] => exists out, format_results values errors elapsed = Returns out
  | _ =>
      exists avg med mod_ var,
        mean values = Returns avg /\
        median (sorted_values values) = Returns med /\
        mode lt_val values = Py.Ok mod_ /\
        population_variance values avg = Returns var /\
        match sqrt var with
        | Some std => exists out, format_results values errors elapsed = Returns out
        | None => format_results values errors elapsed = Raises ValueError
        end
  end.
Proof.
  split; [reflexivity|]. split; [reflexivity|].
  destruct values as [|v values]; [eexists; reflexivity|].
  set (l := v :: values).
  assert (Z.of_nat (length l) =? 0 = false) as Hlen by (apply Z.eqb_neq; simpl; lia).
  destruct (median_returns (sorted_values l)) as [med Hmed].
  { intros Hnil. apply (f_equal (@length V)) in Hnil. unfold sorted_values in Hnil.
    rewrite (Permutation_length (Sort.sorted_perm _ l)) in Hnil. discriminate. }
  destruct (mode_returns l) as [mod_ Hmode].
  eexists _, med, mod_, _.
  split; [unfold mean, div_len; rewrite Hlen; reflexivity|].
  split; [exact Hmed|]. split; [exact Hmode|].
  split; [unfold population_variance, div_len; rewrite Hlen; reflexivity|].
  unfold format_results. subst l.
  unfold mean, population_variance, div_len. rewrite Hlen, Hmed, Hmode.
  unfold math_sqrt. destruct (sqrt _); [eexists|]; reflexivity.
Qed.

(** *** [parse_numbers] *)

(** The body of [for token in raw.split()]. *)
Definition token_step (line_no : Z) (st : list V * list string) (token : string)
  : list V * list string :=
  let '(numbers, errors) := st in
  match float_of_str token with
  | Some x => (numbers ++ [x], errors)
  | None =>
      (numbers,
       errors ++ ["Line " +:+ Py.str_of_int line_no +:+ ": invalid number -> "
                  +:+ repr_str token])
  end.

(** The body of [for line_no, raw in enumerate(text.splitlines(), start=1)];
    the state carries the number of the line. *)
Definition line_step (st : Z * (list V * list string)) (raw : string)
  : Z * (list V * list string) :=
  let '(line_no, acc) := st in
  let raw := Py.strip raw in
  if negb (Py.str_truthy raw) then (line_no + 1, acc)
  else (line_no + 1, fold_left (token_step line_no) (Py.split raw) acc).

(** [parse_numbers]: [file] is what [file_path.read_text] gives, the text
    or an OSError, which is raised again. *)
Definition parse_numbers (file : Py.result string)
  : Py.result (list V * list string) :=
  match file with
  | Py.Raise _ => Py.Raise Py.OSError
  | Py.Ok text => Py.Ok (fold_left line_step (Py.splitlines text) (1, ([], []))).2
  end.

Lemma number_token_loop (line_no : Z) (parts : list string) :
  forall numbers errors,
  exists errs,
    fold_left (token_step line_no) parts (numbers, errors) =
    (numbers ++ omap float_of_str parts, errors ++ errs) /\
    (length (omap float_of_str parts) + length errs = length parts)%nat.
Proof.
  induction parts as [|part parts IH]; intros numbers errors; cbn [fold_left].
  - exists []. now rewrite !app_nil_r.
  - unfold token_step at 2. cbn [omap list_omap].
    destruct (float_of_str part) as [x|].
    + destruct (IH (numbers ++ [x]) errors) as (errs & -> & Hlen).
      exists errs. rewrite <- app_assoc. split; [reflexivity | simpl; lia].
    + destruct (IH numbers (errors ++ ["Line " +:+ Py.str_of_int line_no
                                       +:+ ": invalid number -> " +:+ repr_str part]))
        as (errs & -> & Hlen).
      eexists (_ :: errs). rewrite <- app_assoc. split; [reflexivity | simpl; lia].
Qed.

Lemma number_line_loop (lines : list string) :
  forall line_no numbers errors,
  exists errs,
    (fold_left line_step lines (line_no, (numbers, errors))).2 =
    (numbers ++ omap float_of_str
                  (concat ((fun raw => Py.split (Py.strip raw)) <$> lines)),
     errors ++ errs) /\
    (length (omap float_of_str (concat ((fun raw => Py.split (Py.strip raw)) <$> lines)))
     + length errs
     = length (concat ((fun raw => Py.split (Py.strip raw)) <$> lines)))%nat.
Proof.
  induction lines as [|raw lines IH]; intros line_no numbers errors;
    rewrite ?fmap_cons; cbn [fold_left concat].
  - exists []. now rewrite !app_nil_r.
  - assert (exists errs,
              line_step (line_no, (numbers, errors)) raw =
              (line_no + 1,
               (numbers ++ omap float_of_str (Py.split (Py.strip raw)), errors ++ errs)) /\
              (length (omap float_of_str (Py.split (Py.strip raw))) + length errs
               = length (Py.split (Py.strip raw)))%nat) as (errs1 & -> & Hlen1).
    { unfold line_step. destruct (Py.strip raw) as [|c r] eqn:E; simpl negb; cbv iota.
      - exists []. now rewrite !app_nil_r.
      - destruct (number_token_loop line_no (Py.split (String c r)) numbers errors)
          as (errs & -> & Hlen). now exists errs. }
    destruct (IH (line_no + 1) (numbers ++ omap float_of_str (Py.split (Py.strip raw)))
                (errors ++ errs1)) as (errs & -> & Hlen).
    exists (errs1 ++ errs). rewrite omap_app, <- !app_assoc.
    split; [reflexivity|]. rewrite !length_app. lia.
Qed.

(** X19. The numbers that [parse_numbers] returns are those that [float]
    reads in the words of the whole text, [text.split()], in their order,
    and every word that [float] does not read adds one entry to the error
    list: the two lists together have as many entries as the text has
    words. A file that cannot be read gives OSError. *)
Theorem parse_numbers_words (text : string) :
  (exists errors,
     parse_numbers (Py.Ok text) = Py.Ok (omap float_of_str (Py.split text), errors) /\
     (length (omap float_of_str (Py.split text)) + length errors
      = length (Py.split text))%nat) /\
  forall e, parse_numbers (Py.Raise e) = Py.Raise Py.OSError.
Proof.
  split; [|reflexivity]. unfold parse_numbers.
  destruct (number_line_loop (Py.splitlines text) 1 [] []) as (errs & -> & Hlen).
  rewrite Str.split_stripped_lines in Hlen |- *. now exists errs.
Qed.

End Descriptive.

Example median_ex :
  median 2 Z.add Z.div [1; 3; 5; 7] = Returns 4 /\
  median 2 Z.add Z.div [1; 3; 5] = Returns 3 /\
  mean 0 Z.add Z.div id [2; 4; 9] = Returns 5 /\
  population_variance 0 Z.add Z.sub Z.mul Z.div id [2; 4; 9] 5 = Returns 8.
Proof. repeat split. Qed.

Example parse_numbers_ex :
  parse_numbers
    (fun s => match Py.int_of_str s with Py.Ok n => Some n | Py.Raise _ => None end)
    (fun s => "'" +:+ s +:+ "'")
    (Py.Ok ("10 -3" +:+ String Py.LF " x1 " +:+ String Py.LF "+7"))
  = Py.Ok ([10; -3; 7], ["Line 2: invalid number -> 'x1'"]).
Proof. vm_compute. reflexivity. Qed.

End Stats.

(** ** wordCount.py *)

Module WordCount.

Import Dict Sort.

(** The body of [for part in parts]. *)
Definition token_step (line_no : Z) (st : list string * list string) (part : string)
  : list string * list string :=
  let '(tokens, errors) := st in
  if Py.str_truthy part then (tokens ++ [part], errors)
  else (tokens,
        errors ++ ["Line " +:+ Py.str_of_int line_no +:+ ": empty token encountered"]).

(** The body of [for line_no, raw in enumerate(text.splitlines(), start=1)];
    the state carries the number of the line. *)
Definition line_step (st : Z * (list string * list string)) (raw : string)
  : Z * (list string * list string) :=
  let '(line_no, acc) := st in
  let raw := Py.strip raw in
  if negb (Py.str_truthy raw) then (line_no + 1, acc)
  else (line_no + 1, fold_left (token_step line_no) (Py.split raw) acc).

(** [read_tokens]: [file] is what [file_path.read_text] gives, the text or
    an OSError, which is raised again. The result is [(tokens, errors)]. *)
Definition read_tokens (file : Py.result string)
  : Py.result (list string * list string) :=
  match file with
  | Py.Raise _ => Py.Raise Py.OSError
  | Py.Ok text => Py.Ok (fold_left line_step (Py.splitlines text) (1, ([], []))).2
  end.

Definition count_frequencies (tokens : list string) : list (string * Z) :=
  tally tokens.

(** The body of [for word in sorted(freq.keys())]. *)
Definition word_step (freq : list (string * Z)) (st : Z * list string) (word : string)
  : Py.result (Z * list string) :=
  let '(total, lines) := st in
  match dict_item freq word with
  | Py.Ok count =>
      Py.Ok (total + count, lines ++ [word +:+ String Py.TAB (Py.str_of_int count)])
  | Py.Raise e => Py.Raise e
  end.

Definition WORD_HEADER : string := "WORD" +:+ String Py.TAB "COUNT".
Definition ERRORS_HEADER : string := "Errors (non-fatal):".

(** The lines of the report. [elapsed] is the text of
    [f"{elapsed_seconds:.6f}"]. *)
Definition report_lines (freq : list (string * Z)) (errors : list string)
  (elapsed : string) : Py.result (list string) :=
  match Py.for_each (word_step freq) (Py.sorted String.leb (dict_keys freq))
          (0, [WORD_HEADER]) with
  | Py.Raise e => Py.Raise e
  | Py.Ok (total, lines) =>
      let lines := lines ++ [""; "Grand Total" +:+ String Py.TAB (Py.str_of_int total)] in
      let lines :=
        match errors with
        | [] => lines
        | _ => lines ++ [""; ERRORS_HEADER] ++ errors
        end in
      Py.Ok (lines ++ [""; "Elapsed time: " +:+ elapsed +:+ " seconds"])
  end.

Definition format_results (freq : list (string * Z)) (errors : list string)
  (elapsed : string) : Py.result string :=
  match report_lines freq errors elapsed with
  | Py.Ok lines => Py.Ok (Py.join_with (String Py.LF "") lines +:+ String Py.LF "")
  | Py.Raise e => Py.Raise e
  end.

Example read_tokens_ex :
  read_tokens (Py.Ok ("to be " +:+ String Py.LF "  " +:+ String Py.LF "or to"))
  = Py.Ok (["to"; "be"; "or"; "to"], []).
Proof. reflexivity. Qed.

Example report_lines_ex :
  report_lines (count_frequencies ["to"; "be"; "or"; "to"]) [] "0.000012"
  = Py.Ok [WORD_HEADER;
           "be" +:+ String Py.TAB "1"; "or" +:+ String Py.TAB "1";
           "to" +:+ String Py.TAB "2"; "";
           "Grand Total" +:+ String Py.TAB "4"; "";
           "Elapsed time: 0.000012 seconds"].
Proof. reflexivity. Qed.

(** *** No token is rejected *)

Lemma split_from_nonempty (s : string) :
  forall cur,
    (forall w, cur = Some w -> w <> "") ->
    Forall (fun part => Py.str_truthy part = true) (Py.split_from cur s).
Proof.
  assert (forall w : string, w <> "" -> Py.str_truthy w = true) as Htruthy
    by (intros [|c w] Hw; [congruence | reflexivity]).
  induction s as [|c rest IH]; intros cur Hcur; simpl.
  - destruct cur as [w|]; [|constructor].
    apply Forall_singleton, Htruthy, Hcur. reflexivity.
  - destruct (Py.isspace c); destruct cur as [w|].
    + constructor; [apply Htruthy, Hcur; reflexivity | apply IH; discriminate].
    + apply IH. discriminate.
    + apply IH. intros w' [= <-]. apply Str.append_nonempty_r. discriminate.
    + apply IH. intros w' [= <-]. discriminate.
Qed.

Lemma split_nonempty (s : string) :
  Forall (fun part => Py.str_truthy part = true) (Py.split s).
Proof. apply split_from_nonempty. discriminate. Qed.

Lemma token_loop_accepts (line_no : Z) (parts tokens errors : list string) :
  Forall (fun part => Py.str_truthy part = true) parts ->
  fold_left (token_step line_no) parts (tokens, errors) = (tokens ++ parts, errors).
Proof.
  revert tokens. induction parts as [|part parts IH]; intros tokens Hparts; simpl.
  - now rewrite app_nil_r.
  - apply Forall_cons in Hparts as [Hpart Hparts].
    rewrite Hpart, IH by assumption. now rewrite <- app_assoc.
Qed.

Lemma line_step_accepts (line_no : Z) (tokens errors : list string) (raw : string) :
  line_step (line_no, (tokens, errors)) raw =
  (line_no + 1, (tokens ++ Py.split (Py.strip raw), errors)).
Proof.
  unfold line_step. destruct (Py.strip raw) as [|c r] eqn:E; simpl negb; cbv iota.
  - now rewrite app_nil_r.
  - now rewrite token_loop_accepts by apply split_nonempty.
Qed.

Lemma line_loop_accepts (lines : list string) :
  forall line_no tokens errors,
    (fold_left line_step lines (line_no, (tokens, errors))).2 =
    (tokens ++ concat ((fun raw => Py.split (Py.strip raw)) <$> lines), errors).
Proof.
  induction lines as [|raw lines IH]; intros line_no tokens errors;
    rewrite ?fmap_cons; cbn [fold_left concat].
  - now rewrite app_nil_r.
  - rewrite line_step_accepts, IH. now rewrite <- app_assoc.
Qed.

(** *** The counts of the report *)

Lemma sum_from (l : list Z) (a : Z) : fold_left Z.add l a = a + Py.sum l.
Proof.
  unfold Py.sum. revert a. induction l as [|x l IH]; intros a; simpl; [lia|].
  rewrite (IH (a + x)), (IH (0 + x)). lia.
Qed.

Lemma sum_cons (x : Z) (l : list Z) : Py.sum (x :: l) = x + Py.sum l.
Proof. unfold Py.sum at 1. simpl. apply sum_from. Qed.

Lemma sum_app (l1 l2 : list Z) : Py.sum (l1 ++ l2) = Py.sum l1 + Py.sum l2.
Proof.
  induction l1 as [|x l1 IH]; [reflexivity|].
  change ((x :: l1) ++ l2) with (x :: (l1 ++ l2)). rewrite !sum_cons, IH. lia.
Qed.

Lemma sum_perm (l1 l2 : list Z) : l1 ≡ₚ l2 -> Py.sum l1 = Py.sum l2.
Proof.
  induction 1 as [|x l1 l2 _ IH|x y l|l1 l2 l3 _ IH1 _ IH2];
    rewrite ?sum_cons; lia.
Qed.

Lemma sum_counts_set (d : list (string * Z)) (k : string) (c : Z) :
  Py.sum (dict_set d k c).*2 = Py.sum d.*2 - dict_get d k 0 + c.
Proof.
  unfold dict_get. induction d as [|[k0 c0] rest IH]; cbn [dict_set dict_lookup].
  - rewrite fmap_cons, sum_cons. simpl. lia.
  - destruct (decide (k0 = k)); rewrite !fmap_cons, !sum_cons; [simpl; lia|].
    rewrite IH. simpl. lia.
Qed.

Lemma sum_counts_tally (tokens : list string) :
  Py.sum (tally tokens).*2 = Z.of_nat (length tokens).
Proof.
  unfold tally. induction tokens as [|t p IH] using rev_ind; [reflexivity|].
  rewrite fold_left_app. simpl. unfold tally_step at 1.
  rewrite sum_counts_set, IH, length_app. simpl. lia.
Qed.

Lemma counts_of_keys (tokens : list string) :
  (fun w => occurrences w tokens) <$> dict_keys (tally tokens) = (tally tokens).*2.
Proof.
  unfold dict_keys.
  assert (Forall (fun item : string * Z => item.2 = occurrences item.1 tokens)
            (tally tokens)) as Hall.
  { apply Forall_forall. intros [k c] Hin. now apply tally_elem in Hin as [_ ->]. }
  induction Hall as [|[k c] d Hkc _ IH]; [reflexivity|].
  rewrite !fmap_cons. cbn [fst snd]. simpl in Hkc. now rewrite IH, Hkc.
Qed.

(** The loop over the words: every word is a key, so no lookup fails. *)
Lemma word_loop (tokens words : list string) :
  (forall w, w ∈ words -> w ∈ tokens) ->
  forall total lines,
    Py.for_each (word_step (tally tokens)) words (total, lines) =
    Py.Ok (total + Py.sum ((fun w => occurrences w tokens) <$> words),
           lines ++ ((fun w => w +:+ String Py.TAB (Py.str_of_int (occurrences w tokens)))
                       <$> words)).
Proof.
  induction words as [|w words IH]; intros Hin total lines;
    rewrite ?fmap_cons; cbn [Py.for_each].
  - rewrite app_nil_r. f_equal. f_equal. unfold Py.sum. simpl. lia.
  - assert (dict_item (tally tokens) w = Py.Ok (occurrences w tokens)) as Hitem.
    { unfold dict_item. destruct (tally_spec tokens) as [_ ->].
      rewrite decide_True; [reflexivity | apply Hin; left]. }
    unfold word_step at 1. rewrite Hitem, IH by (intros w' Hw'; apply Hin; now right).
    rewrite sum_cons, <- app_assoc. f_equal. f_equal. lia.
Qed.

(** *** No error section *)

Fixpoint has_tab (s : string) : bool :=
  match s with
  | EmptyString => false
  | String c rest => Ascii.eqb c Py.TAB || has_tab rest
  end.

Lemma has_tab_append (a b : string) : has_tab (a +:+ String Py.TAB b) = true.
Proof. induction a as [|c a IH]; Str.str_simpl; simpl; [reflexivity|]. rewrite IH. apply orb_true_r. Qed.

Lemma sorted_keys_are_tokens (tokens : list string) (w : string) :
  w ∈ Py.sorted String.leb (dict_keys (tally tokens)) -> w ∈ tokens.
Proof.
  rewrite sorted_perm. unfold dict_keys. intros Hin.
  apply list_elem_of_fmap in Hin as ([k c] & -> & Hin).
  now apply tally_elem in Hin as [Hin _].
Qed.

(** C10. For every input text [read_tokens] returns an empty error list:
    its tokens are all the whitespace-delimited parts of all the lines.
    The report then has one row per distinct word with its number of
    occurrences, these counts sum to the number of tokens, which is the
    grand total printed, and no line of the report is the header of the
    error section. *)
Theorem read_tokens_never_rejects (text elapsed : string) :
  exists tokens words lines,
    read_tokens (Py.Ok text) = Py.Ok (tokens, []) /\
    tokens = concat ((fun raw => Py.split (Py.strip raw)) <$> Py.splitlines text) /\
    words = Py.sorted String.leb (dict_keys (count_frequencies tokens)) /\
    report_lines (count_frequencies tokens) [] elapsed = Py.Ok lines /\
    lines =
      [WORD_HEADER] ++
      ((fun w => w +:+ String Py.TAB (Py.str_of_int (occurrences w tokens))) <$> words) ++
      [""; "Grand Total" +:+ String Py.TAB (Py.str_of_int (Z.of_nat (length tokens)));
       ""; "Elapsed time: " +:+ elapsed +:+ " seconds"] /\
    Py.sum ((fun w => occurrences w tokens) <$> words) = Z.of_nat (length tokens) /\
    ERRORS_HEADER ∉ lines.
Proof.
  eexists _, _, _.
  split; [unfold read_tokens; now rewrite line_loop_accepts|].
  split; [reflexivity|]. split; [reflexivity|].
  set (tokens := concat _).
  assert (Py.sum ((fun w => occurrences w tokens) <$>
                    Py.sorted String.leb (dict_keys (count_frequencies tokens)))
          = Z.of_nat (length tokens)) as Hsum.
  { rewrite (sum_perm _ ((fun w => occurrences w tokens) <$> dict_keys (tally tokens))).
    - now rewrite counts_of_keys, sum_counts_tally.
    - apply fmap_Permutation, sorted_perm. }
  split; [|split; [reflexivity|split; [exact Hsum|]]].
  - unfold report_lines, count_frequencies.
    rewrite (word_loop tokens _ (sorted_keys_are_tokens tokens)).
    unfold count_frequencies in Hsum. rewrite Hsum. simpl Z.add.
    rewrite <- !app_assoc. reflexivity.
  - rewrite !elem_of_app, list_elem_of_singleton, list_elem_of_fmap, !elem_of_cons.
    intros [Hhead | [(w & Hrow & _) | [Hblank | [Htotal | [Hblank | [Hlast | Hnil]]]]]].
    + discriminate.
    + apply (f_equal has_tab) in Hrow. rewrite has_tab_append in Hrow. discriminate.
    + discriminate.
    + apply (f_equal has_tab) in Htotal. rewrite has_tab_append in Htotal. discriminate.
    + discriminate.
    + unfold ERRORS_HEADER in Hlast. rewrite !Str.append_cons in Hlast. discriminate.
    + inversion Hnil.
Qed.

(** *** The tokens are the words of the text *)

(** X13. The tokens that [read_tokens] returns are the words of the whole
    text, [text.split()]: reading line by line and stripping each line
    changes nothing, whatever line boundaries and blank lines the text
    has, and the error list is empty. A file that cannot be read gives
    OSError. *)
Theorem read_tokens_is_split (text : string) :
  read_tokens (Py.Ok text) = Py.Ok (Py.split text, []) /\
  forall e, read_tokens (Py.Raise e) = Py.Raise Py.OSError.
Proof.
  split; [|reflexivity]. unfold read_tokens.
  now rewrite line_loop_accepts, Str.split_stripped_lines.
Qed.

(** *** The words of the report *)

Lemma string_leb_trans (a b c : string) :
  String.leb a b = true -> String.leb b c = true -> String.leb a c = true.
Proof.
  intros Hab Hbc. apply Is_true_true. change (String.le a c).
  transitivity b; [change (Is_true (String.leb a b)) | change (Is_true (String.leb b c))];
    now apply Is_true_true.
Qed.

Lemma string_leb_ltb (a b : string) :
  String.leb a b = true -> a <> b -> String.ltb a b = true.
Proof.
  unfold String.leb, String.ltb. intros Hle Hne.
  destruct (String.compare a b) eqn:Hc; try reflexivity; try discriminate.
  now apply String.compare_eq_iff in Hc.
Qed.

Lemma sorted_strict (l : list string) :
  NoDup l ->
  StronglySorted (fun a b => String.leb a b = true) l ->
  StronglySorted (fun a b => String.ltb a b = true) l.
Proof.
  induction 2 as [|a l Hl IH Ha]; constructor.
  - apply IH. now apply NoDup_cons in H as [_ ?].
  - apply NoDup_cons in H as [Hnin _]. apply Forall_forall. intros b Hb.
    apply string_leb_ltb.
    + apply List.Forall_forall with (x := b) in Ha; [exact Ha | now apply list_elem_of_In].
    + intros ->. contradiction.
Qed.

(** X14. [count_frequencies] gives every word its number of occurrences
    in the token list, and [get] with default 0 gives 0 for any other
    string. The words that [format_results] lists, which are the sorted
    keys, are the distinct tokens, each once, in strictly increasing string
    order. *)
Theorem report_words (tokens : list string) :
  let freq := count_frequencies tokens in
  let words := Py.sorted String.leb (dict_keys freq) in
  (forall w, dict_get freq w 0 = occurrences w tokens) /\
  NoDup words /\
  (forall w, w ∈ words <-> w ∈ tokens) /\
  StronglySorted (fun a b => String.ltb a b = true) words.
Proof.
  intros freq words. subst freq words. unfold count_frequencies, dict_keys.
  destruct (tally_spec tokens) as [Hnd Hlookup].
  assert (NoDup (Py.sorted String.leb (tally tokens).*1)) as Hnd'
    by now rewrite sorted_perm.
  split; [|split; [exact Hnd'|split]].
  - intros w. unfold dict_get. rewrite Hlookup.
    destruct (decide (w ∈ tokens)) as [Hin|Hnin]; [reflexivity|].
    pose proof (occurrences_nonneg w tokens).
    destruct (Z.eq_dec (occurrences w tokens) 0); [congruence|].
    exfalso. apply Hnin, occurrences_pos. lia.
  - intros w. rewrite sorted_perm. split.
    + intros ([k c] & -> & Hin)%list_elem_of_fmap. now apply tally_elem in Hin as [Hin _].
    + intros Hin. apply list_elem_of_fmap. exists (w, occurrences w tokens).
      split; [reflexivity|]. now apply tally_elem.
  - apply sorted_strict; [exact Hnd'|]. apply sorted_ordered.
    + apply String.leb_total.
    + apply string_leb_trans.
Qed.

End WordCount.

(** ** The hotel reservation models (models/hotel.py, models/customer.py,
    models/reservation.py, models/loadData.py) *)

Module Hotel.

(** The scalar values the records hold and the operations receive. *)
Inductive value : Type :=
| VNone
| VBool (b : bool)
| VInt (n : Z)
| VStr (s : string).

(** A [bool] is an [int] in comparisons. *)
Definition as_int (v : value) : option Z :=
  match v with
  | VBool b => Some (if b then 1 else 0)
  | VInt n => Some n
  | _ => None
  end.

(** [a == b] *)
Definition py_eq (a b : value) : bool :=
  match a, b with
  | VNone, VNone => true
  | VStr s, VStr t => String.eqb s t
  | _, _ =>
      match as_int a, as_int b with
      | Some m, Some n => m =? n
      | _, _ => false
      end
  end.


(** [v <= n] for an [int] [n]: TypeError unless [v] is a number. *)
Definition py_le_int (v : value) (n : Z) : Py.result bool :=
  match as_int v with
  | Some m => Py.Ok (m <=? n)
  | None => Py.Raise Py.TypeError
  end.

(** The records, with the keys the [create_] operations write. *)
Record hotel : Type := {
  hotel_id : value;
  hotel_name : value;
  hotel_location : value;
  hotel_rooms : value;
  hotel_reservations : list value
}.

Record customer : Type := {
  customer_id : value;
  customer_name : value;
  customer_email : value
}.

Record reservation : Type := {
  reservation_id : value;
  reservation_customer_id : value;
  reservation_hotel_id : value
}.

(** The three JSON files under data/; [None] is a file that does not exist
    or does not hold JSON. *)
Record store : Type := {
  hotels_file : option (list hotel);
  customers_file : option (list customer);
  reservations_file : option (list reservation)
}.

(** [load_data]: the array of the file, or [[]]. The message that it
    prints when the file exists and does not hold JSON is not modelled:
    the lines that the operations below list are those that they print
    themselves. *)
Definition load_data {A : Type} (file : option (list A)) : list A :=
  match file with
  | Some data => data
  | None => []
  end.

(** [save_data] replaces the whole file; the data directory is taken to be
    writable. *)
Definition save_hotels (hotels : list hotel) (st : store) : store :=
  {| hotels_file := Some hotels;
     customers_file := customers_file st;
     reservations_file := reservations_file st |}.

Definition save_customers (customers : list customer) (st : store) : store :=
  {| hotels_file := hotels_file st;
     customers_file := Some customers;
     reservations_file := reservations_file st |}.

Definition save_reservations (reservations : list reservation) (st : store) : store :=
  {| hotels_file := hotels_file st;
     customers_file := customers_file st;
     reservations_file := Some reservations |}.

(** *** hotel.py *)

Definition create_hotel (id name location rooms : value) (st : store) : store :=
  let hotels := load_data (hotels_file st) in
  let hotel := {| hotel_id := id; hotel_name := name; hotel_location := location;
                  hotel_rooms := rooms; hotel_reservations := [] |} in
  save_hotels (hotels ++ [hotel]) st.

Definition delete_hotel (id : value) (st : store) : store :=
  let hotels := load_data (hotels_file st) in
  save_hotels (List.filter (fun h => negb (py_eq (hotel_id h) id)) hotels) st.

Definition display_hotel (id : value) (st : store) : option hotel :=
  List.find (fun h => py_eq (hotel_id h) id) (load_data (hotels_file st)).




Definition set_hotel_reservations (l : list value) (h : hotel) : hotel :=
  {| hotel_id := hotel_id h; hotel_name := hotel_name h;
     hotel_location := hotel_location h;
     hotel_rooms := hotel_rooms h; hotel_reservations := l |}.



(** *** customer.py *)

Definition create_customer (id name email : value) (st : store) : store :=
  let customers := load_data (customers_file st) in
  let customer := {| customer_id := id; customer_name := name;
                     customer_email := email |} in
  save_customers (customers ++ [customer]) st.





(** *** reservation.py *)

(** How the loop of [create_reservation] over the hotels ends. *)
Inductive booking : Type :=
| HotelNotFound
| NoRooms
| Booked (hotels : list hotel)
| Failed (e : Py.exception).

(** [for hotel in hotels: if hotel["hotel_id"] == hotel_id: ...]: the first
    hotel with the id decides; [Booked] carries the hotels with the
    reservation id appended to that hotel's list. *)
Fixpoint book_room (hotels : list hotel) (reservation_id hotel_id' : value) : booking :=
  match hotels with
  | [] => HotelNotFound
  | hotel :: rest =>
      if py_eq (hotel_id hotel) hotel_id' then
        match py_le_int (hotel_rooms hotel)
                (Z.of_nat (length (hotel_reservations hotel))) with
        | Py.Raise e => Failed e
        | Py.Ok true => NoRooms
        | Py.Ok false =>
            Booked (set_hotel_reservations
                      (hotel_reservations hotel ++ [reservation_id]) hotel :: rest)
        end
      else
        match book_room rest reservation_id hotel_id' with
        | Booked rest' => Booked (hotel :: rest')
        | other => other
        end
  end.

(** [create_reservation]: the store afterwards and the lines printed, or
    the exception raised (nothing has been saved by then). *)
Definition create_reservation (reservation_id' customer_id' hotel_id' : value)
  (st : store) : Py.result (store * list string) :=
  let reservations := load_data (reservations_file st) in
  let hotels := load_data (hotels_file st) in
  match book_room hotels reservation_id' hotel_id' with
  | NoRooms => Py.Ok (st, ["No rooms available"])
  | Booked hotels' =>
      let reservation := {| reservation_id := reservation_id';
                            reservation_customer_id := customer_id';
                            reservation_hotel_id := hotel_id' |} in
      Py.Ok (save_hotels hotels' (save_reservations (reservations ++ [reservation]) st),
             [])
  | HotelNotFound => Py.Ok (st, ["Hotel not found"])
  | Failed e => Py.Raise e
  end.

(** [l.remove(x)]: drops the first element equal to [x]. *)
Fixpoint list_remove (x : value) (l : list value) : list value :=
  match l with
  | [] => []
  | y :: rest => if py_eq y x then rest else y :: list_remove x rest
  end.

Definition cancel_reservation (reservation_id' : value) (st : store) : store :=
  let reservations := load_data (reservations_file st) in
  let hotels := load_data (hotels_file st) in
  let reservations :=
    List.filter (fun r => negb (py_eq (reservation_id r) reservation_id')) reservations in
  let hotels :=
    List.map (fun h => set_hotel_reservations
                         (list_remove reservation_id' (hotel_reservations h)) h) hotels in
  save_hotels hotels (save_reservations reservations st).

(** The fixture of tests/test_reservation.py: empty files, then one hotel
    with two rooms and one customer. *)
Definition empty_store : store :=
  {| hotels_file := Some []; customers_file := Some []; reservations_file := Some [] |}.

Definition test_store : store :=
  create_customer (VInt 1) (VStr "Juan") (VStr "juan@test.com")
    (create_hotel (VInt 1) (VStr "HotelTest") (VStr "CDMX") (VInt 2) empty_store).

(** The same hotel once its two rooms are taken. *)
Definition full_store : store :=
  {| hotels_file :=
       Some [{| hotel_id := VInt 1; hotel_name := VStr "HotelTest";
                hotel_location := VStr "CDMX"; hotel_rooms := VInt 2;
                hotel_reservations := [VInt 3; VInt 4] |}];
     customers_file := customers_file test_store;
     reservations_file :=
       Some [{| reservation_id := VInt 3; reservation_customer_id := VInt 1;
                reservation_hotel_id := VInt 1 |};
             {| reservation_id := VInt 4; reservation_customer_id := VInt 1;
                reservation_hotel_id := VInt 1 |}] |}.

(** [test_no_rooms_available]: the third reservation is refused. *)
Example test_no_rooms_available :
  match create_reservation (VInt 3) (VInt 1) (VInt 1) test_store with
  | Py.Ok (st1, _) =>
      match create_reservation (VInt 4) (VInt 1) (VInt 1) st1 with
      | Py.Ok (st2, _) =>
          match create_reservation (VInt 5) (VInt 1) (VInt 1) st2 with
          | Py.Ok (st3, out) =>
              length (load_data (reservations_file st3)) = 2%nat /\
              out = ["No rooms available"]
          | _ => False
          end
      | _ => False
      end
  | _ => False
  end.
Proof. vm_compute. split; reflexivity. Qed.

(** *** Reservations and room capacity *)

Lemma book_room_skip (pre rest : list hotel) (rid hid : value) :
  Forall (fun h => py_eq (hotel_id h) hid = false) pre ->
  book_room (pre ++ rest) rid hid =
  match book_room rest rid hid with
  | Booked rest' => Booked (pre ++ rest')
  | other => other
  end.
Proof.
  induction 1 as [|h pre Hh _ IH]; simpl.
  - now destruct (book_room rest rid hid).
  - rewrite Hh, IH. now destruct (book_room rest rid hid).
Qed.

Lemma book_room_no_match (hotels : list hotel) (rid hid : value) :
  Forall (fun h => py_eq (hotel_id h) hid = false) hotels ->
  book_room hotels rid hid = HotelNotFound.
Proof.
  intros Hall. rewrite <- (app_nil_r hotels). now rewrite (book_room_skip _ _ _ _ Hall).
Qed.



(** *** Two hotels with one id *)



(** C8. When no hotel record has the given id, [create_reservation] prints
    "Hotel not found" and the store is exactly what it was: neither the
    reservations file nor the hotels file is written. *)
Theorem create_reservation_unknown_hotel
  (st : store) (reservation_id' customer_id' hotel_id' : value) :
  Forall (fun h => py_eq (hotel_id h) hotel_id' = false) (load_data (hotels_file st)) ->
  create_reservation reservation_id' customer_id' hotel_id' st
  = Py.Ok (st, ["Hotel not found"]).
Proof.
  intros Hnone. unfold create_reservation. now rewrite book_room_no_match.
Qed.

Lemma create_reservation_unknown_hotel_witness :
  create_reservation (VInt 6) (VInt 1) (VInt 999) test_store
  = Py.Ok (test_store, ["Hotel not found"]).
Proof.
  apply create_reservation_unknown_hotel.
  repeat constructor.
Defined.

(** *** What [modify_hotel] and [modify_customer] change *)






(** *** Creating, deleting and displaying records *)

Lemma py_eq_refl (a : value) : py_eq a a = true.
Proof.
  destruct a as [|b|n|s]; simpl.
  - reflexivity.
  - now destruct b.
  - apply Z.eqb_refl.
  - apply String.eqb_refl.
Qed.

Lemma py_eq_sym (a b : value) : py_eq a b = py_eq b a.
Proof.
  destruct a as [|x|m|s], b as [|y|n|t]; simpl; try reflexivity.
  - now destruct x, y.
  - apply Z.eqb_sym.
  - apply Z.eqb_sym.
  - apply Z.eqb_sym.
  - apply String.eqb_sym.
Qed.

Lemma py_eq_trans (a b c : value) :
  py_eq a b = true -> py_eq b c = true -> py_eq a c = true.
Proof.
  destruct a as [|x|m|s], b as [|y|n|t], c as [|z|k|u]; simpl;
    try discriminate; try reflexivity;
    rewrite ?Z.eqb_eq, ?String.eqb_eq; congruence.
Qed.



Lemma find_filter_other {A : Type} (f g : A -> bool) (l : list A) :
  (forall x, f x = true -> g x = true) ->
  List.find f (List.filter g l) = List.find f l.
Proof.
  intros Hfg. induction l as [|x l IH]; simpl; [reflexivity|].
  destruct (f x) eqn:Hf.
  - rewrite (Hfg x Hf). simpl. now rewrite Hf.
  - destruct (g x); simpl; [now rewrite Hf | exact IH].
Qed.

Lemma find_filter_none {A : Type} (f g : A -> bool) (l : list A) :
  (forall x, f x = true -> g x = false) ->
  List.find f (List.filter g l) = None.
Proof.
  intros Hfg. induction l as [|x l IH]; simpl; [reflexivity|].
  destruct (g x) eqn:Hg; [|exact IH]. simpl.
  destruct (f x) eqn:Hf; [|exact IH]. rewrite (Hfg x Hf) in Hg. discriminate.
Qed.

(** X2. [display_hotel] after [delete_hotel]: the deleted id, and every id
    equal to it, displays nothing, however many records had it; every other
    id displays what it displayed before. *)
Theorem display_after_delete_hotel (st : store) (id id' : value) :
  display_hotel id' (delete_hotel id st) =
  if py_eq id' id then None else display_hotel id' st.
Proof.
  unfold display_hotel, delete_hotel. simpl hotels_file. simpl load_data at 1.
  destruct (py_eq id' id) eqn:Hid.
  - apply find_filter_none. intros h Hh.
    now rewrite (py_eq_trans _ _ _ Hh Hid).
  - apply find_filter_other. intros h Hh.
    destruct (py_eq (hotel_id h) id) eqn:Hh'; [|reflexivity].
    rewrite py_eq_sym in Hh. rewrite (py_eq_trans _ _ _ Hh Hh') in Hid. discriminate.
Qed.


(** *** Room capacity is never exceeded *)

(** A hotel whose room count is a number holds no more reservation ids
    than it has rooms. *)
Definition within_capacity (h : hotel) : Prop :=
  forall n, as_int (hotel_rooms h) = Some n ->
            Z.of_nat (length (hotel_reservations h)) <= n.

Lemma book_room_capacity (hotels : list hotel) (rid hid : value) :
  Forall within_capacity hotels ->
  forall hotels', book_room hotels rid hid = Booked hotels' ->
                  Forall within_capacity hotels'.
Proof.
  induction 1 as [|h rest Hh Hrest IH]; intros hotels' Hbook; simpl in Hbook.
  - discriminate.
  - destruct (py_eq (hotel_id h) hid).
    + unfold py_le_int in Hbook.
      destruct (as_int (hotel_rooms h)) as [m|] eqn:Hrooms; [|discriminate].
      destruct (Z.leb_spec m (Z.of_nat (length (hotel_reservations h)))); [discriminate|].
      injection Hbook as <-. constructor; [|exact Hrest].
      intros n Hn. simpl in Hn. rewrite Hrooms in Hn. injection Hn as <-.
      simpl. rewrite length_app. simpl. lia.
    + destruct (book_room rest rid hid) as [| |rest'|e]; try discriminate.
      injection Hbook as <-. constructor; [exact Hh | now apply IH].
Qed.

Lemma list_remove_length (x : value) (l : list value) :
  (length (list_remove x l) <= length l)%nat.
Proof.
  induction l as [|y l IH]; simpl; [lia|]. destruct (py_eq y x); simpl; lia.
Qed.

(** X4. No sequence of reservations and cancellations overbooks a hotel:
    when every hotel of the store holds at most as many reservation ids as
    it has rooms, the same is true after [create_reservation], whatever it
    answers, and after [cancel_reservation]. *)
Theorem capacity_is_kept (st : store) (reservation_id' customer_id' hotel_id' : value) :
  Forall within_capacity (load_data (hotels_file st)) ->
  (forall st' out,
     create_reservation reservation_id' customer_id' hotel_id' st = Py.Ok (st', out) ->
     Forall within_capacity (load_data (hotels_file st'))) /\
  Forall within_capacity
    (load_data (hotels_file (cancel_reservation reservation_id' st))).
Proof.
  intros Hcap. split.
  - intros st' out Hcreate. unfold create_reservation in Hcreate.
    destruct (book_room _ _ _) as [| |hotels'|e] eqn:Hbook;
      try discriminate; injection Hcreate as <- _; try exact Hcap.
    simpl. exact (book_room_capacity _ _ _ Hcap _ Hbook).
  - unfold cancel_reservation. simpl. apply Forall_forall. intros h' Hin.
    apply list_elem_of_In, in_map_iff in Hin as (h & <- & Hin).
    apply List.Forall_forall with (x := h) in Hcap; [|exact Hin].
    intros n Hn. simpl in *. specialize (Hcap n Hn).
    pose proof (list_remove_length reservation_id' (hotel_reservations h)). lia.
Qed.

Lemma capacity_is_kept_witness :
  Forall within_capacity (load_data (hotels_file (cancel_reservation (VInt 3) full_store))).
Proof.
  apply (capacity_is_kept full_store (VInt 3) (VInt 1) (VInt 1)).
  repeat constructor. intros n [= <-]. simpl. lia.
Defined.

(** *** Cancelling *)

(** No reservation record and no hotel of the store carries the id. *)
Definition unused_id (id : value) (st : store) : Prop :=
  Forall (fun r => py_eq (reservation_id r) id = false) (load_data (reservations_file st)) /\
  Forall (fun h => Forall (fun x => py_eq x id = false) (hotel_reservations h))
    (load_data (hotels_file st)).

Lemma filter_keeps_all {A : Type} (f : A -> bool) (l : list A) :
  Forall (fun x => f x = true) l -> List.filter f l = l.
Proof.
  induction 1 as [|x l Hx _ IH]; simpl; [reflexivity|]. now rewrite Hx, IH.
Qed.

Lemma list_remove_absent (x : value) (l : list value) :
  Forall (fun y => py_eq y x = false) l -> list_remove x l = l.
Proof.
  induction 1 as [|y l Hy _ IH]; simpl; [reflexivity|]. now rewrite Hy, IH.
Qed.

Lemma list_remove_last (x : value) (l : list value) :
  Forall (fun y => py_eq y x = false) l -> list_remove x (l ++ [x]) = l.
Proof.
  induction 1 as [|y l Hy _ IH]; simpl.
  - now rewrite py_eq_refl.
  - now rewrite Hy, IH.
Qed.

Lemma set_hotel_reservations_same (h : hotel) :
  set_hotel_reservations (hotel_reservations h) h = h.
Proof. now destruct h. Qed.

Lemma remove_from_untouched (id : value) (hotels : list hotel) :
  Forall (fun h => Forall (fun x => py_eq x id = false) (hotel_reservations h)) hotels ->
  List.map (fun h => set_hotel_reservations (list_remove id (hotel_reservations h)) h)
    hotels = hotels.
Proof.
  induction 1 as [|h rest Hh _ IH]; simpl; [reflexivity|].
  now rewrite (list_remove_absent _ _ Hh), set_hotel_reservations_same, IH.
Qed.

Lemma remove_from_booked (rid hid : value) (hotels : list hotel) :
  Forall (fun h => Forall (fun x => py_eq x rid = false) (hotel_reservations h)) hotels ->
  forall hotels',
    book_room hotels rid hid = Booked hotels' ->
    List.map (fun h => set_hotel_reservations (list_remove rid (hotel_reservations h)) h)
      hotels' = hotels.
Proof.
  induction 1 as [|h rest Hh Hrest IH]; intros hotels' Hbook; simpl in Hbook.
  - discriminate.
  - destruct (py_eq (hotel_id h) hid).
    + destruct (py_le_int _ _) as [[|]|e]; try discriminate.
      injection Hbook as <-. simpl.
      rewrite (list_remove_last _ _ Hh), (remove_from_untouched _ _ Hrest).
      now destruct h.
    + destruct (book_room rest rid hid) as [| |rest'|e]; try discriminate.
      injection Hbook as <-. simpl.
      now rewrite (list_remove_absent _ _ Hh), set_hotel_reservations_same, (IH rest').
Qed.

(** X5. [cancel_reservation] with an id that no reservation record and no
    hotel carries removes nothing: the hotels, the reservations and the
    customers read from the files afterwards are those read before. *)
Theorem cancel_unused_id (st : store) (id : value) :
  unused_id id st ->
  load_data (hotels_file (cancel_reservation id st)) = load_data (hotels_file st) /\
  load_data (reservations_file (cancel_reservation id st))
    = load_data (reservations_file st) /\
  customers_file (cancel_reservation id st) = customers_file st.
Proof.
  intros [Hres Hhotels]. unfold cancel_reservation. simpl. split; [|split].
  - now apply remove_from_untouched.
  - apply filter_keeps_all. eapply Forall_impl; [exact Hres|].
    intros r Hr. simpl in Hr. now rewrite Hr.
  - reflexivity.
Qed.

Lemma cancel_unused_id_witness :
  load_data (hotels_file (cancel_reservation (VInt 999) test_store))
    = load_data (hotels_file test_store) /\
  load_data (reservations_file (cancel_reservation (VInt 999) test_store))
    = load_data (reservations_file test_store) /\
  customers_file (cancel_reservation (VInt 999) test_store) = customers_file test_store.
Proof.
  apply cancel_unused_id. split; repeat constructor.
Defined.

(** X6. Cancelling undoes creating: when the reservation id is not in use,
    [create_reservation] followed by [cancel_reservation] of the same id
    leaves the hotels, the reservations and the customers as they were,
    whether the reservation was accepted or refused. *)
Theorem cancel_after_create (st st' : store) (out : list string)
  (reservation_id' customer_id' hotel_id' : value) :
  unused_id reservation_id' st ->
  create_reservation reservation_id' customer_id' hotel_id' st = Py.Ok (st', out) ->
  load_data (hotels_file (cancel_reservation reservation_id' st'))
    = load_data (hotels_file st) /\
  load_data (reservations_file (cancel_reservation reservation_id' st'))
    = load_data (reservations_file st) /\
  customers_file (cancel_reservation reservation_id' st') = customers_file st.
Proof.
  intros [Hres Hhotels] Hcreate. unfold create_reservation in Hcreate.
  assert (List.filter (fun r => negb (py_eq (reservation_id r) reservation_id'))
            (load_data (reservations_file st)) = load_data (reservations_file st))
    as Hkeep.
  { apply filter_keeps_all. eapply Forall_impl; [exact Hres|].
    intros r Hr. simpl in Hr. now rewrite Hr. }
  destruct (book_room _ _ _) as [| |hotels'|e] eqn:Hbook;
    try discriminate; injection Hcreate as <- _; unfold cancel_reservation; simpl.
  - split; [now apply remove_from_untouched|]. split; [exact Hkeep | reflexivity].
  - split; [now apply remove_from_untouched|]. split; [exact Hkeep | reflexivity].
  - split; [exact (remove_from_booked _ _ _ Hhotels _ Hbook)|].
    split; [|reflexivity].
    rewrite List.filter_app, Hkeep. simpl. rewrite py_eq_refl. simpl.
    apply app_nil_r.
Qed.

Lemma cancel_after_create_witness :
  exists st',
    create_reservation (VInt 3) (VInt 1) (VInt 1) test_store = Py.Ok (st', []) /\
    load_data (hotels_file (cancel_reservation (VInt 3) st'))
      = load_data (hotels_file test_store) /\
    load_data (reservations_file (cancel_reservation (VInt 3) st'))
      = load_data (reservations_file test_store).
Proof.
  eexists. split; [reflexivity|].
  refine (let H := cancel_after_create test_store _ [] (VInt 3) (VInt 1) (VInt 1) _ eq_refl
          in conj (proj1 H) (proj1 (proj2 H))).
  split; repeat constructor.
Defined.

(** *** Deleting what was created, and modifying twice *)






(** *** Displaying what was modified *)






(** *** What cancelling removes *)

(** How many times a list of reservation ids holds an id. *)
Definition holds (id : value) (l : list value) : nat :=
  length (List.filter (fun y => py_eq y id) l).

Lemma list_remove_holds (x : value) (l : list value) :
  holds x (list_remove x l) = Nat.pred (holds x l).
Proof.
  unfold holds. induction l as [|y l IH]; [reflexivity|]. cbn [list_remove List.filter].
  destruct (py_eq y x) eqn:Hy; [reflexivity|].
  cbn [List.filter]. now rewrite Hy.
Qed.

Lemma list_remove_holds_other (x z : value) (l : list value) :
  py_eq z x = false -> holds z (list_remove x l) = holds z l.
Proof.
  intros Hz. unfold holds. induction l as [|y l IH]; [reflexivity|].
  cbn [list_remove List.filter]. destruct (py_eq y x) eqn:Hy.
  - destruct (py_eq y z) eqn:Hyz; [|reflexivity].
    rewrite py_eq_sym in Hyz. rewrite (py_eq_trans _ _ _ Hyz Hy) in Hz. discriminate.
  - cbn [List.filter]. destruct (py_eq y z); simpl; now rewrite IH.
Qed.

(** X23. [cancel_reservation] removes every reservation record with the
    id, but from each hotel only the first occurrence of the id in its
    list, and it changes nothing else of a hotel. An id that a hotel holds
    twice, which [create_reservation] allows, is still held once after
    the cancellation, with no reservation record left for it. *)
Theorem cancel_removes_first (st : store) (id : value) :
  Forall (fun r => py_eq (reservation_id r) id = false)
    (load_data (reservations_file (cancel_reservation id st))) /\
  Forall2
    (fun h h' =>
       h' = set_hotel_reservations (hotel_reservations h') h /\
       holds id (hotel_reservations h') = Nat.pred (holds id (hotel_reservations h)) /\
       forall other, py_eq other id = false ->
                     holds other (hotel_reservations h') = holds other (hotel_reservations h))
    (load_data (hotels_file st))
    (load_data (hotels_file (cancel_reservation id st))).
Proof.
  unfold cancel_reservation. simpl. split.
  - apply Forall_forall. intros r Hin.
    apply list_elem_of_In, filter_In in Hin as [_ Hr]. now apply negb_true_iff in Hr.
  - induction (load_data (hotels_file st)) as [|h hotels IH]; simpl; constructor; [|exact IH].
    split; [reflexivity|]. simpl.
    split; [apply list_remove_holds | intros other Hother; now apply list_remove_holds_other].
Qed.

(** The same reservation id booked twice in the hotel of the fixture and
    cancelled once: no reservation record is left, and the hotel still
    holds the id. *)
Example cancel_twice_booked :
  exists st1 st2,
    create_reservation (VInt 7) (VInt 1) (VInt 1) test_store = Py.Ok (st1, []) /\
    create_reservation (VInt 7) (VInt 1) (VInt 1) st1 = Py.Ok (st2, []) /\
    load_data (reservations_file (cancel_reservation (VInt 7) st2)) = [] /\
    hotel_reservations <$> load_data (hotels_file (cancel_reservation (VInt 7) st2))
    = [[VInt 7]].
Proof. eexists _, _. repeat split. Qed.

End Hotel.

(** ** computeSales.py *)

Module Sales.

Import Dict Sort.

(** What [json.load] returns. [F] is the type of Python floats. *)
Inductive json (F : Type) : Type :=
| JNull
| JBool (b : bool)
| JInt (n : Z)
| JFloat (x : F)
| JStr (s : string)
| JList (elements : list (json F))
| JObject (members : list (string * json F)).
Arguments JNull {F}.
Arguments JBool {F} b.
Arguments JInt {F} n.
Arguments JFloat {F} x.
Arguments JStr {F} s.
Arguments JList {F} elements.
Arguments JObject {F} members.

(** The built-ins on floats that the program relies on. The theorems hold
    for every interpretation of them. *)
Class Builtins (F : Type) : Type := {
  (** [0.0], [x + y], [x * y] *)
  float_zero : F;
  float_add : F -> F -> F;
  float_mul : F -> F -> F;
  (** [float(n)] for an [int]; OverflowError when [n] is too large *)
  float_of_int : Z -> Py.result F;
  (** [float(s)] for a [str]; ValueError when [s] is no numeral *)
  float_of_str : string -> Py.result F;
  (** the truth value of a float *)
  float_truthy : F -> bool;
  (** [sum(xs)] *)
  float_sum : list F -> F;
  (** [f"{x:W.Pf}"] *)
  float_format : nat -> nat -> F -> string;
  (** [str(v)] for a float, a list or a dict *)
  repr_json : json F -> string
}.

(** *** An interpretation of the built-ins, for the examples

    Floats are binary64 with the processor's addition and multiplication.
    [float] of an [int] rounds to nearest, ties to even, and overflows as
    Python's does. The other built-ins are given on the inputs that the
    examples use: [float] of a string reads plain decimal numerals (digits
    with an optional sign and an optional point) and refuses the other
    spellings that Python accepts (exponents, inf, nan, underscores);
    [sum] adds from left to right; [str] of a float, a list or a dict is
    left as "?". *)

Module Binary64.

Import PrimFloat SpecFloat.

(** The float nearest to [n >= 0]. Above 62 bits the low bits are folded
    into one sticky bit, which leaves the rounding to 53 bits the same. *)
Definition of_nonneg (n : Z) : float :=
  if n <? 2 ^ 62 then of_uint63 (Uint63.of_Z n)
  else
    let k := Z.log2 n - 61 in
    let sticky := if Z.land n (Z.ones k) =? 0 then 0 else 1 in
    ldshiftexp (of_uint63 (Uint63.of_Z (Z.lor (Z.shiftr n k) sticky)))
      (Uint63.of_Z (k + FloatOps.shift)).

Definition of_int (n : Z) : Py.result float :=
  let x := of_nonneg (Z.abs n) in
  if is_infinity x then Py.Raise Py.OverflowError
  else Py.Ok (if n <? 0 then (- x)%float else x).

(** The float nearest to [num / den], for [num >= 0] and [den > 0], when it
    is a normal number. *)
Definition of_ratio (num den : Z) : float :=
  if num =? 0 then 0%float
  else
    let e := Z.log2 num - Z.log2 den - 64 in
    let num := if e <? 0 then num * 2 ^ (- e) else num in
    let den := if e <? 0 then den else den * 2 ^ e in
    let sticky := if num mod den =? 0 then 0 else 1 in
    if e + FloatOps.shift <? 0 then 0%float
    else ldshiftexp (of_nonneg (Z.lor (num / den) sticky))
           (Uint63.of_Z (e + FloatOps.shift)).

(** The digits at the head of [s]: their value after [acc], how many they
    are, and what follows them. *)
Fixpoint read_digits (s : string) (acc : Z) (count : Z) : Z * Z * string :=
  match s with
  | EmptyString => (acc, count, EmptyString)
  | String c rest =>
      let n := Z.of_N (N_of_ascii c) in
      if (48 <=? n) && (n <=? 57) then read_digits rest (acc * 10 + (n - 48)) (count + 1)
      else (acc, count, s)
  end.

Definition of_unsigned_numeral (s : string) : option float :=
  let '(whole, n1, rest) := read_digits s 0 0 in
  match rest with
  | EmptyString => if 0 <? n1 then Some (of_ratio whole 1) else None
  | String "." fraction =>
      let '(all, n2, rest') := read_digits fraction whole 0 in
      match rest' with
      | EmptyString => if 0 <? n1 + n2 then Some (of_ratio all (10 ^ n2)) else None
      | _ => None
      end
  | _ => None
  end.

Definition of_str (s : string) : Py.result float :=
  let parsed :=
    match Py.strip s with
    | String "-" body => option_map PrimFloat.opp (of_unsigned_numeral body)
    | String "+" body => of_unsigned_numeral body
    | body => of_unsigned_numeral body
    end in
  match parsed with
  | Some x => Py.Ok x
  | None => Py.Raise Py.ValueError
  end.

(** [num / den] rounded to the nearest integer, ties to even. *)
Definition round_half_even (num den : Z) : Z :=
  let q := num / den in
  let r := num mod den in
  if 2 * r <? den then q
  else if den <? 2 * r then q + 1
  else if Z.even q then q else q + 1.

(** [f"{x:W.Pf}"] *)
Definition format (w p : nat) (x : float) : string :=
  let body :=
    match FloatOps.Prim2SF x with
    | S754_nan => "nan"
    | S754_infinity _ => "inf"
    | other =>
        let scaled :=
          match other with
          | S754_finite _ m e =>
              if 0 <=? e then Z.pos m * 10 ^ Z.of_nat p * 2 ^ e
              else round_half_even (Z.pos m * 10 ^ Z.of_nat p) (2 ^ (- e))
          | _ => 0
          end in
        let digits := Py.str_of_int scaled in
        let digits := Py.repeat_char "0" (S p - String.length digits) +:+ digits in
        let whole := (String.length digits - p)%nat in
        Py.str_prefix whole digits +:+
        (match p with
         | O => ""
         | _ => "." +:+ String.substring whole p digits
         end)%string
    end in
  let sign :=
    match FloatOps.Prim2SF x with
    | S754_zero true | S754_infinity true | S754_finite true _ _ => "-"
    | _ => ""
    end in
  Py.rjust w (sign +:+ body).

#[export] Instance builtins : Builtins float := {
  float_zero := 0%float;
  float_add := PrimFloat.add;
  float_mul := PrimFloat.mul;
  float_of_int := of_int;
  float_of_str := of_str;
  float_truthy := fun x => negb (PrimFloat.eqb x 0%float);
  float_sum := fun xs => fold_left PrimFloat.add xs 0%float;
  float_format := format;
  repr_json := fun _ => "?"
}.

Example of_int_ex :
  of_int 3 = Py.Ok 3%float /\
  of_int (2 ^ 53 + 1) = Py.Ok 9007199254740992%float /\
  of_int (2 ^ 64 + 2 ^ 11 + 1) = Py.Ok 18446744073709555712%float /\
  of_int (- (10 ^ 400)) = Py.Raise Py.OverflowError.
Proof. vm_compute. repeat split. Qed.

Example of_str_ex :
  of_str "2.5" = Py.Ok 2.5%float /\ of_str " -3 " = Py.Ok (-3)%float /\
  of_str "0.1" = Py.Ok 0x1.999999999999ap-4%float /\ of_str "abc" = Py.Raise Py.ValueError.
Proof. vm_compute. repeat split. Qed.

Example format_ex :
  format 12 2 7.5%float = "        7.50" /\ format 8 2 (-0.125)%float = "   -0.12" /\
  format 8 2 0x1.5666666666666p+1%float = "    2.67" /\ format 0 6 0.5%float = "0.500000".
Proof. vm_compute. repeat split. Qed.

End Binary64.

(** *** The program *)

Section Program.

Context {F : Type} `{Builtins F}.

(** [float(v)] *)
Definition py_float (v : json F) : Py.result F :=
  match v with
  | JNull => Py.Raise Py.TypeError
  | JBool b => float_of_int (if b then 1 else 0)
  | JInt n => float_of_int n
  | JFloat x => Py.Ok x
  | JStr s => float_of_str s
  | JList _ => Py.Raise Py.TypeError
  | JObject _ => Py.Raise Py.TypeError
  end.

(** [str(v)] *)
Definition py_str (v : json F) : string :=
  match v with
  | JNull => "None"
  | JBool true => "True"
  | JBool false => "False"
  | JInt n => Py.str_of_int n
  | JStr s => s
  | other => repr_json other
  end.

(** The truth value of [v]. *)
Definition py_truthy (v : json F) : bool :=
  match v with
  | JNull => false
  | JBool b => b
  | JInt n => negb (n =? 0)
  | JFloat x => float_truthy x
  | JStr s => Py.str_truthy s
  | JList l => match l with [] => false | _ => true end
  | JObject m => match m with [] => false | _ => true end
  end.

Record SaleItem : Type := {
  product : string;
  quantity : F;
  unit_price : F
}.

Definition line_total (item : SaleItem) : F :=
  float_mul (quantity item) (unit_price item).

Record SaleGroup : Type := {
  sale_id : string;
  sale_date : string;
  items : list SaleItem
}.

Definition subtotal (sale : SaleGroup) : F :=
  float_sum (line_total <$> items sale).



(** The body of the loop of [build_price_catalog]. *)
Definition catalog_step (prices : gmap string F) (entry : json F)
  : Py.result (gmap string F) :=
  match entry with
  | JObject members =>
      let product_title := dict_get members "title" JNull in
      let product_price := dict_get members "price" JNull in
      match product_title with
      | JStr title =>
          if negb (Py.str_truthy (Py.strip title)) then Py.Ok prices
          else
            match py_float product_price with
            | Py.Ok price_num => Py.Ok (<[title := price_num]> prices)
            | Py.Raise Py.TypeError => Py.Ok prices
            | Py.Raise Py.ValueError => Py.Ok prices
            | Py.Raise e => Py.Raise e
            end
      | _ => Py.Ok prices
      end
  | _ => Py.Ok prices
  end.

Definition build_price_catalog (catalog_data : json F) : Py.result (gmap string F) :=
  match catalog_data with
  | JList entries => Py.for_each catalog_step entries ∅
  | _ => Py.Ok ∅
  end.

(** The checks that the loop of [parse_sales] makes on a row before it
    touches its totals: the row is skipped, or it is accepted with the key
    of its group, its date value and its line item, or [float] raises an
    exception that the loop does not catch. *)
Inductive verdict : Type :=
| Skipped
| Accepted (sale_id_key : string) (date : json F) (item : SaleItem)
| Uncaught (e : Py.exception).

Definition check_row (prices : gmap string F) (row : json F) : verdict :=
  match row with
  | JObject members =>
      let sale_id' := dict_get members "SALE_ID" JNull in
      let sale_date' := dict_get members "SALE_Date" (JStr "") in
      let product' := dict_get members "Product" JNull in
      let quantity' := dict_get members "Quantity" JNull in
      match sale_id' with
      | JNull => Skipped
      | _ =>
          match product' with
          | JStr name =>
              if negb (Py.str_truthy (Py.strip name)) then Skipped
              else
                match prices !! name with
                | None => Skipped
                | Some price =>
                    match py_float quantity' with
                    | Py.Ok qty_num =>
                        Accepted (py_str sale_id') sale_date'
                          {| product := name; quantity := qty_num; unit_price := price |}
                    | Py.Raise Py.TypeError => Skipped
                    | Py.Raise Py.ValueError => Skipped
                    | Py.Raise e => Uncaught e
                    end
                end
          | _ => Skipped
          end
      end
  | _ => Skipped
  end.

Definition set_sale_date (date : string) (sale : SaleGroup) : SaleGroup :=
  {| sale_id := sale_id sale; sale_date := date; items := items sale |}.

Definition append_item (item : SaleItem) (sale : SaleGroup) : SaleGroup :=
  {| sale_id := sale_id sale; sale_date := sale_date sale;
     items := items sale ++ [item] |}.

(** The end of the loop body, from [if sale_id_key not in grouped] on. *)
Definition record_item (grouped : list (string * SaleGroup)) (sale_id_key : string)
  (date : json F) (item : SaleItem) : list (string * SaleGroup) :=
  let grouped :=
    if negb (dict_mem grouped sale_id_key)
    then dict_set grouped sale_id_key
           {| sale_id := sale_id_key; sale_date := py_str date; items := [] |}
    else grouped in
  let grouped :=
    dict_alter
      (fun sale =>
         if negb (Py.str_truthy (sale_date sale)) && py_truthy date
         then set_sale_date (py_str date) sale
         else sale)
      grouped sale_id_key in
  dict_alter (append_item item) grouped sale_id_key.

(** The three values that [parse_sales] keeps and returns. *)
Record totals : Type := {
  grouped : list (string * SaleGroup);
  grand_total : F;
  error_count : Z
}.

Definition row_step (prices : gmap string F) (st : totals) (row : json F)
  : Py.result totals :=
  match check_row prices row with
  | Skipped =>
      Py.Ok {| grouped := grouped st; grand_total := grand_total st;
               error_count := error_count st + 1 |}
  | Accepted sale_id_key date item =>
      Py.Ok {| grouped := record_item (grouped st) sale_id_key date item;
               grand_total := float_add (grand_total st) (line_total item);
               error_count := error_count st |}
  | Uncaught e => Py.Raise e
  end.

Definition parse_sales (sales_data : json F) (prices : gmap string F)
  : Py.result totals :=
  match sales_data with
  | JList rows =>
      Py.for_each (row_step prices) rows
        {| grouped := []; grand_total := float_zero; error_count := 0 |}
  | _ => Py.Ok {| grouped := []; grand_total := float_zero; error_count := 1 |}
  end.

(** [sale_sort_key]: a pair compared first by its number, then by its
    string. *)
Definition sale_sort_key (sale_id' : string) : Z * string :=
  match Py.int_of_str sale_id' with
  | Py.Ok n => (0, Py.format_zero_padded 12 n)
  | Py.Raise _ => (1, sale_id')
  end.

(** [a < b] on such pairs. *)
Definition key_lt (a b : Z * string) : bool :=
  (a.1 <? b.1) || ((a.1 =? b.1) && String.ltb a.2 b.2).

(** [sorted(grouped.keys(), key=sale_sort_key)]: the order of the groups
    in the report. *)
Definition report_order (grouped : list (string * SaleGroup)) : list string :=
  Py.sorted_by_key key_lt sale_sort_key (dict_keys grouped).

Definition RULE (c : ascii) : string := Py.repeat_char c 60.

Definition item_line (item : SaleItem) : string :=
  Py.ljust 35 (Py.str_prefix 35 (product item)) +:+ " " +:+
  float_format 8 2 (quantity item) +:+ " " +:+
  float_format 10 2 (unit_price item) +:+ " " +:+
  float_format 12 2 (line_total item).

(** The lines of one sale in the report. *)
Definition sale_lines (sale : SaleGroup) : list string :=
  ["SALE_ID: " +:+ sale_id sale +:+ "    DATE: " +:+ sale_date sale;
   RULE "-";
   Py.ljust 35 "Product" +:+ " " +:+ Py.rjust 8 "Qty" +:+ " " +:+
   Py.rjust 10 "Price" +:+ " " +:+ Py.rjust 12 "Total"] ++
  (item_line <$> items sale) ++
  [RULE "-";
   Py.rjust 55 "SUBTOTAL" +:+ " " +:+ float_format 12 2 (subtotal sale);
   ""].

(** The body of [for sale_id in sorted(...)]. *)
Definition report_step (grouped : list (string * SaleGroup)) (lines : list string)
  (sale_id' : string) : Py.result (list string) :=
  match dict_item grouped sale_id' with
  | Py.Ok sale => Py.Ok (lines ++ sale_lines sale)
  | Py.Raise e => Py.Raise e
  end.

(** [format_report]; [elapsed] is the text of [f"{elapsed_seconds:.6f}"]. *)
Definition format_report (grouped : list (string * SaleGroup)) (grand_total' : F)
  (error_count' : Z) (elapsed : string) : Py.result string :=
  let lines :=
    ["SALES RESULTS"; RULE "=";
     "Sales (unique SALE_ID): " +:+ Py.str_of_int (Z.of_nat (length grouped));
     "Errors (skipped rows): " +:+ Py.str_of_int error_count';
     ""] in
  match Py.for_each (report_step grouped) (report_order grouped) lines with
  | Py.Raise e => Py.Raise e
  | Py.Ok lines =>
      let lines :=
        lines ++
        [RULE "=";
         Py.rjust 55 "GRAND TOTAL" +:+ " " +:+ float_format 12 2 grand_total';
         "Elapsed time (s): " +:+ elapsed;
         RULE "="] in
      Py.Ok (Py.join_with (String Py.LF "") lines +:+ String Py.LF "")
  end.




(** *** What the claims speak of *)

(** The accepted rows in input order, each as the key of its group, its
    date value and its line item. *)
Definition accepted (prices : gmap string F) (rows : list (json F))
  : list (string * json F * SaleItem) :=
  omap (fun row =>
          match check_row prices row with
          | Accepted sale_id_key date item => Some (sale_id_key, date, item)
          | _ => None
          end) rows.

(** The rows that the loop skips. *)
Definition skipped (prices : gmap string F) (rows : list (json F)) : list (json F) :=
  List.filter (fun row =>
                 match check_row prices row with Skipped => true | _ => false end) rows.

(** The line items of the accepted rows of one group. *)
Definition items_of (key : string) (rows : list (string * json F * SaleItem))
  : list SaleItem :=
  snd <$> filter (fun a => a.1.1 = key) rows.

(** The date values of the accepted rows of one group. *)
Definition dates_of (key : string) (rows : list (string * json F * SaleItem))
  : list (json F) :=
  (fun a => a.1.2) <$> filter (fun a => a.1.1 = key) rows.

(** The line items recorded under a key; none when there is no such group. *)
Definition group_items (grouped' : list (string * SaleGroup)) (key : string)
  : list SaleItem :=
  match dict_lookup grouped' key with
  | Some sale => items sale
  | None => []
  end.

(** The date recorded under a key; "" when there is no such group. *)
Definition group_date (grouped' : list (string * SaleGroup)) (key : string) : string :=
  match dict_lookup grouped' key with
  | Some sale => sale_date sale
  | None => ""
  end.

(** The first text of the list that is not empty; "" when there is none. *)
Definition first_nonempty (texts : list string) : string :=
  match List.filter Py.str_truthy texts with
  | text :: _ => text
  | [] => ""
  end.

(** The value is a JSON string. *)
Definition is_text (v : json F) : Prop := exists s, v = JStr s.


(** [Product] of the row is no key of the catalogue. *)
Definition unknown_product (prices : gmap string F) (row : json F) : Prop :=
  match row with
  | JObject members =>
      forall name, dict_get members "Product" JNull = JStr name -> prices !! name = None
  | _ => True
  end.

(** *** Totals of [parse_sales] *)

Lemma unknown_product_skipped (prices : gmap string F) (row : json F) :
  unknown_product prices row -> check_row prices row = Skipped.
Proof.
  destruct row as [| | | | |l|members]; try reflexivity.
  intros Hunknown. simpl in Hunknown. unfold check_row.
  destruct (dict_get members "SALE_ID" JNull); try reflexivity;
    destruct (dict_get members "Product" JNull) as [| | | |name| |]; try reflexivity;
    rewrite (Hunknown name eq_refl);
    now destruct (negb (Py.str_truthy (Py.strip name))).
Qed.

Lemma group_items_record (grouped' : list (string * SaleGroup)) (k : string)
  (date : json F) (item : SaleItem) (key : string) :
  group_items (record_item grouped' k date item) key =
  group_items grouped' key ++ (if decide (k = key) then [item] else []).
Proof.
  unfold group_items, record_item, dict_mem.
  rewrite !dict_lookup_alter.
  destruct (decide (k = key)) as [->|Hne].
  - rewrite decide_True by reflexivity.
    destruct (dict_lookup grouped' key) as [sale|] eqn:Hk; simpl negb; cbv iota.
    + rewrite Hk. simpl.
      now destruct (negb (Py.str_truthy (sale_date sale)) && py_truthy date).
    + rewrite dict_lookup_set, decide_True by reflexivity. simpl.
      now destruct (negb (Py.str_truthy (py_str date)) && py_truthy date).
  - destruct (dict_lookup grouped' k) as [sale|]; simpl negb; cbv iota;
      rewrite ?dict_lookup_set, ?decide_False by assumption;
      destruct (dict_lookup grouped' key); now rewrite app_nil_r.
Qed.

Lemma accepted_cons (prices : gmap string F) (row : json F) (rows : list (json F)) :
  accepted prices (row :: rows) =
  match check_row prices row with
  | Accepted k d it => (k, d, it) :: accepted prices rows
  | _ => accepted prices rows
  end.
Proof. unfold accepted. simpl. now destruct (check_row prices row). Qed.

Lemma items_of_cons (key k : string) (d : json F) (it : SaleItem)
  (rows : list (string * json F * SaleItem)) :
  items_of key ((k, d, it) :: rows) =
  (if decide (k = key) then [it] else []) ++ items_of key rows.
Proof.
  unfold items_of. rewrite filter_cons. simpl.
  destruct (decide (k = key)); reflexivity.
Qed.

(** The loop from any state: what it adds to the three values. *)
Lemma row_loop_totals (prices : gmap string F) (rows : list (json F)) :
  forall st st',
    Py.for_each (row_step prices) rows st = Py.Ok st' ->
    grand_total st' =
      fold_left float_add (line_total <$> (snd <$> accepted prices rows)) (grand_total st) /\
    error_count st' = error_count st + Z.of_nat (length (skipped prices rows)) /\
    forall key,
      group_items (grouped st') key =
      group_items (grouped st) key ++ items_of key (accepted prices rows).
Proof.
  induction rows as [|row rows IH]; intros st st' Hrun.
  - injection Hrun as <-. split; [reflexivity|]. split; [simpl; lia|].
    intros key. now rewrite app_nil_r.
  - cbn [Py.for_each] in Hrun. unfold row_step in Hrun at 1.
    rewrite accepted_cons. unfold skipped. cbn [List.filter]. fold (skipped prices rows).
    destruct (check_row prices row) as [|k d it|e]; [| |discriminate];
      apply IH in Hrun as (Htotal & Herrors & Hitems); cbn [grand_total error_count grouped] in *.
    + split; [exact Htotal|]. split; [rewrite Herrors; cbn [length]; lia | exact Hitems].
    + split; [rewrite Htotal; reflexivity|]. split; [exact Herrors|].
      intros key. rewrite Hitems, group_items_record, items_of_cons.
      now rewrite <- app_assoc.
Qed.

Lemma row_loop_returns (prices : gmap string F) (rows : list (json F)) :
  Forall (fun row => forall e, check_row prices row <> Uncaught e) rows ->
  forall st, exists st', Py.for_each (row_step prices) rows st = Py.Ok st'.
Proof.
  induction 1 as [|row rows Hrow _ IH]; intros st; cbn [Py.for_each].
  - eauto.
  - unfold row_step at 1. destruct (check_row prices row) as [|k d it|e]; [apply IH..|].
    now specialize (Hrow e).
Qed.

(** C1. Whenever [parse_sales] returns for a list of rows (it does unless
    [float] raises an exception on a quantity that the loop does not catch):
    the grand total is the sum, from 0.0 and in input order, of quantity
    times unit price over the accepted rows; the error counter is the number
    of skipped rows; and the line items of each group are those of the
    accepted rows with its key, in order. A row whose Product is no key of
    the catalogue is skipped: it adds one to the error counter and leaves
    the groups and the grand total as they were. *)
Theorem parse_sales_totals (prices : gmap string F) (rows : list (json F)) :
  (Forall (fun row => forall e, check_row prices row <> Uncaught e) rows ->
   exists st, parse_sales (JList rows) prices = Py.Ok st) /\
  (forall st,
     parse_sales (JList rows) prices = Py.Ok st ->
     grand_total st =
       fold_left float_add (line_total <$> (snd <$> accepted prices rows)) float_zero /\
     error_count st = Z.of_nat (length (skipped prices rows)) /\
     (forall key, group_items (grouped st) key = items_of key (accepted prices rows))) /\
  (forall row,
     row ∈ rows -> unknown_product prices row ->
     row ∈ skipped prices rows /\
     forall st0,
       row_step prices st0 row =
       Py.Ok {| grouped := grouped st0; grand_total := grand_total st0;
                error_count := error_count st0 + 1 |}).
Proof.
  split; [intros Hok; now apply row_loop_returns|]. split.
  - intros st Hrun. unfold parse_sales in Hrun.
    apply row_loop_totals in Hrun as (Htotal & Herrors & Hitems).
    cbn [grand_total error_count grouped] in *.
    split; [exact Htotal|]. split; [rewrite Herrors; lia | exact Hitems].
  - intros row Hin Hunknown. apply unknown_product_skipped in Hunknown. split.
    + unfold skipped. apply list_elem_of_In, filter_In. split; [now apply list_elem_of_In|].
      now rewrite Hunknown.
    + intros st0. unfold row_step. now rewrite Hunknown.
Qed.

(** *** The date of a group *)

(** What one accepted row does to the date of a group, for any date
    value: a group that is new takes the text of the value, whatever it is;
    a group that exists takes it only when its date is empty and the value
    is truthy. *)
Lemma group_date_record (grouped' : list (string * SaleGroup)) (k : string)
  (date : json F) (item : SaleItem) (key : string) :
  group_date (record_item grouped' k date item) key =
  if decide (k = key) then
    match dict_lookup grouped' key with
    | None => py_str date
    | Some sale =>
        if negb (Py.str_truthy (sale_date sale)) && py_truthy date
        then py_str date else sale_date sale
    end
  else group_date grouped' key.
Proof.
  unfold group_date, record_item, dict_mem.
  rewrite !dict_lookup_alter.
  destruct (decide (k = key)) as [->|Hne].
  - rewrite decide_True by reflexivity.
    destruct (dict_lookup grouped' key) as [sale|] eqn:Hk; simpl negb; cbv iota.
    + rewrite Hk. simpl.
      now destruct (negb (Py.str_truthy (sale_date sale)) && py_truthy date).
    + rewrite dict_lookup_set, decide_True by reflexivity. simpl.
      now destruct (negb (Py.str_truthy (py_str date)) && py_truthy date).
  - destruct (dict_lookup grouped' k) as [sale|]; simpl negb; cbv iota;
      rewrite ?dict_lookup_set, ?decide_False by assumption; reflexivity.
Qed.

(** A date that is recorded and not empty is never replaced. *)
Lemma group_date_kept (grouped' : list (string * SaleGroup)) (k : string)
  (date : json F) (item : SaleItem) (key : string) :
  Py.str_truthy (group_date grouped' key) = true ->
  group_date (record_item grouped' k date item) key = group_date grouped' key.
Proof.
  intros Hset. rewrite group_date_record. unfold group_date in *.
  destruct (decide (k = key)); [|reflexivity].
  destruct (dict_lookup grouped' key) as [sale|]; [|discriminate].
  now rewrite Hset.
Qed.

Lemma group_date_record_text (grouped' : list (string * SaleGroup)) (k s : string)
  (item : SaleItem) (key : string) :
  group_date (record_item grouped' k (JStr s) item) key =
  if decide (k = key) then
    if Py.str_truthy (group_date grouped' key) then group_date grouped' key else s
  else group_date grouped' key.
Proof.
  rewrite group_date_record. unfold group_date.
  destruct (decide (k = key)); [|reflexivity].
  destruct (dict_lookup grouped' key) as [sale|]; [|reflexivity]. simpl.
  destruct (Py.str_truthy (sale_date sale)) eqn:Hd; simpl; [reflexivity|].
  destruct s; simpl; [|reflexivity]. now destruct (sale_date sale).
Qed.

Lemma dates_of_cons (key k : string) (d : json F) (it : SaleItem)
  (rows : list (string * json F * SaleItem)) :
  dates_of key ((k, d, it) :: rows) =
  (if decide (k = key) then [d] else []) ++ dates_of key rows.
Proof.
  unfold dates_of. rewrite filter_cons. simpl.
  destruct (decide (k = key)); reflexivity.
Qed.

(** When the dates of the accepted rows of a group are texts, the loop
    leaves a date that was set, and otherwise records the first text that
    is not empty. *)
Lemma row_loop_date (prices : gmap string F) (key : string) (rows : list (json F)) :
  Forall is_text (dates_of key (accepted prices rows)) ->
  forall st st',
    Py.for_each (row_step prices) rows st = Py.Ok st' ->
    group_date (grouped st') key =
    if Py.str_truthy (group_date (grouped st) key) then group_date (grouped st) key
    else first_nonempty (py_str <$> dates_of key (accepted prices rows)).
Proof.
  induction rows as [|row rows IH]; intros Htext st st' Hrun.
  - injection Hrun as <-. unfold first_nonempty. simpl.
    now destruct (group_date (grouped st) key).
  - cbn [Py.for_each] in Hrun. unfold row_step in Hrun at 1.
    rewrite accepted_cons in Htext |- *.
    destruct (check_row prices row) as [|k d it|e]; [| |discriminate].
    + now apply IH in Hrun.
    + rewrite dates_of_cons in Htext |- *. apply Forall_app in Htext as [Hd Hrest].
      apply (IH Hrest) in Hrun. cbn [grouped] in Hrun. rewrite Hrun. clear Hrun.
      destruct (decide (k = key)) as [->|Hne].
      * apply Forall_singleton in Hd as [s ->].
        rewrite group_date_record_text, decide_True by reflexivity.
        rewrite fmap_app. cbn [fmap list_fmap py_str app].
        unfold first_nonempty. cbn [List.filter].
        destruct (Py.str_truthy (group_date (grouped st) key)) eqn:Hold.
        -- now rewrite Hold.
        -- destruct (Py.str_truthy s) eqn:Hs; reflexivity.
      * rewrite group_date_record, decide_False by assumption. reflexivity.
Qed.

(** For rows whose dates are texts (or absent), the date of a group is the
    first text that is not empty among its accepted rows. *)
Lemma sale_date_first_text (prices : gmap string F) (rows : list (json F))
  (st : totals) (key : string) :
  parse_sales (JList rows) prices = Py.Ok st ->
  Forall is_text (dates_of key (accepted prices rows)) ->
  group_date (grouped st) key =
  first_nonempty (py_str <$> dates_of key (accepted prices rows)).
Proof.
  intros Hrun Htext. unfold parse_sales in Hrun.
  now rewrite (row_loop_date prices key rows Htext _ _ Hrun).
Qed.

(** *** The order of the groups in the report *)

Lemma not_ltb_leb (a b : string) : negb (String.ltb b a) = String.leb a b.
Proof.
  unfold String.ltb, String.leb. rewrite (String.compare_antisym a b).
  now destruct (String.compare b a).
Qed.

Lemma leb_trans (a b c : string) :
  String.leb a b = true -> String.leb b c = true -> String.leb a c = true.
Proof.
  intros Hab Hbc. apply Is_true_true. change (String.le a c).
  transitivity b; [change (Is_true (String.leb a b)) | change (Is_true (String.leb b c))];
    now apply Is_true_true.
Qed.

(** [not (b < a)] on the keys, spelled out. *)
Lemma key_le_spec (a b : Z * string) :
  negb (key_lt b a) = true <->
  a.1 < b.1 \/ (a.1 = b.1 /\ String.leb a.2 b.2 = true).
Proof.
  unfold key_lt. rewrite negb_true_iff, orb_false_iff, andb_false_iff.
  rewrite Z.ltb_ge, Z.eqb_neq, <- not_ltb_leb, negb_true_iff.
  destruct (String.ltb b.2 a.2); intuition lia.
Qed.

Lemma key_le_total (a b : Z * string) :
  negb (key_lt b a) = true \/ negb (key_lt a b) = true.
Proof.
  rewrite !key_le_spec.
  destruct (String.leb_total a.2 b.2), (Z.lt_trichotomy a.1 b.1) as [?|[?|?]]; auto.
Qed.

Lemma key_le_trans (a b c : Z * string) :
  negb (key_lt b a) = true -> negb (key_lt c b) = true -> negb (key_lt c a) = true.
Proof.
  rewrite !key_le_spec.
  intros [Hab | [Hab Hsab]] [Hbc | [Hbc Hsbc]]; try lia.
  right. split; [lia|]. now apply (leb_trans _ b.2).
Qed.

Lemma report_order_sorted (grouped' : list (string * SaleGroup)) :
  StronglySorted
    (fun a b => negb (key_lt (sale_sort_key b) (sale_sort_key a)) = true)
    (report_order grouped').
Proof.
  unfold report_order, Py.sorted_by_key. apply sorted_ordered.
  - intros x y. apply key_le_total.
  - intros x y z. apply key_le_trans.
Qed.

(** The order the report does follow: when the group [a] comes before the
    group [b], either [a] is an integer literal and [b] is not, or neither
    is and [a] is not after [b] as a string, or both are and the numeral of
    [a] padded to twelve characters is not after that of [b] as a string. *)
Lemma report_order_by_key (grouped' : list (string * SaleGroup))
  (l1 l2 l3 : list string) (a b : string) :
  report_order grouped' = l1 ++ a :: l2 ++ b :: l3 ->
  match Py.int_of_str a, Py.int_of_str b with
  | Py.Ok m, Py.Ok n =>
      String.leb (Py.format_zero_padded 12 m) (Py.format_zero_padded 12 n) = true
  | Py.Ok _, Py.Raise _ => True
  | Py.Raise _, Py.Ok _ => False
  | Py.Raise _, Py.Raise _ => String.leb a b = true
  end.
Proof.
  intros Horder. pose proof (report_order_sorted grouped') as Hsorted.
  rewrite Horder in Hsorted. apply ordered_before in Hsorted.
  apply key_le_spec in Hsorted. unfold sale_sort_key in Hsorted.
  destruct (Py.int_of_str a), (Py.int_of_str b); simpl in Hsorted;
    try exact I; destruct Hsorted as [Hlt | [Heq Hle]]; try lia; exact Hle.
Qed.

(** *** The exit code of [main] *)



(** With an empty catalogue every row is skipped. *)
Lemma parse_sales_empty_catalog (sales_data : json F) :
  exists st, parse_sales sales_data ∅ = Py.Ok st.
Proof.
  destruct sales_data as [| | | | |rows|]; try (eexists; reflexivity).
  apply row_loop_returns. apply Forall_forall. intros row _ e.
  rewrite unknown_product_skipped; [discriminate|].
  destruct row; simpl; try exact I. intros name _. apply lookup_empty.
Qed.










(** *** The price catalogue *)

(** An entry that [build_price_catalog] takes up: an object whose title is
    a string that is not blank and whose price [float] reads. *)
Definition priced (entry : json F) (title : string) (price : F) : Prop :=
  exists members,
    entry = JObject members /\
    dict_get members "title" JNull = JStr title /\
    Py.str_truthy (Py.strip title) = true /\
    py_float (dict_get members "price" JNull) = Py.Ok price.

Lemma priced_functional (entry : json F) (t t' : string) (p p' : F) :
  priced entry t p -> priced entry t' p' -> t = t' /\ p = p'.
Proof.
  intros (m & -> & Ht & _ & Hp) (m' & [= <-] & Ht' & _ & Hp').
  rewrite Ht in Ht'. injection Ht' as <-. rewrite Hp in Hp'. now injection Hp' as <-.
Qed.

(** One turn of the loop stores the price of an entry that is taken up
    and changes nothing for any other entry. *)
Lemma catalog_step_spec (prices prices' : gmap string F) (entry : json F) :
  catalog_step prices entry = Py.Ok prices' ->
  (exists t p, priced entry t p /\ prices' = <[t := p]> prices) \/
  ((forall t p, ~ priced entry t p) /\ prices' = prices).
Proof.
  unfold catalog_step. intros Hstep.
  destruct entry as [| | | | | |members];
    try (right; split; [intros t p (m & [=] & _) | now injection Hstep]).
  destruct (dict_get members "title" JNull) as [| | | |title| |] eqn:Ht;
    try (right; split; [intros t p (m & [= <-] & Ht' & _); congruence | now injection Hstep]).
  destruct (Py.str_truthy (Py.strip title)) eqn:Hblank; simpl in Hstep.
  - destruct (py_float (dict_get members "price" JNull)) as [price|e] eqn:Hp.
    + left. exists title, price. split; [|now injection Hstep].
      exists members. auto.
    + right. split.
      * intros t p (m & [= <-] & _ & _ & Hp'). congruence.
      * destruct e; try discriminate; now injection Hstep.
  - right. split; [|now injection Hstep].
    intros t p (m & [= <-] & Ht' & Hblank' & _). congruence.
Qed.

Lemma catalog_loop_spec (entries : list (json F)) :
  forall prices0 prices,
    Py.for_each catalog_step entries prices0 = Py.Ok prices ->
    forall title,
      (exists l1 e l2 price,
         entries = l1 ++ e :: l2 /\ priced e title price /\
         (forall e' p', e' ∈ l2 -> ~ priced e' title p') /\
         prices !! title = Some price) \/
      ((forall e p, e ∈ entries -> ~ priced e title p) /\
       prices !! title = prices0 !! title).
Proof.
  induction entries as [|entry entries IH]; intros prices0 prices Hrun title.
  - injection Hrun as <-. right. split; [|reflexivity].
    intros e p Hin. inversion Hin.
  - cbn [Py.for_each] in Hrun.
    destruct (catalog_step prices0 entry) as [prices1|e] eqn:Hstep; [|discriminate].
    destruct (IH _ _ Hrun title)
      as [(l1 & e & l2 & price & -> & He & Hlast & Hp) | [Hnone Hp]].
    + left. exists (entry :: l1), e, l2, price. auto.
    + apply catalog_step_spec in Hstep as [(t & p & Hentry & ->) | [Hentry ->]].
      * destruct (decide (t = title)) as [->|Hne].
        -- left. exists [], entry, entries, p. rewrite Hp, lookup_insert_eq. auto.
        -- right. rewrite Hp, lookup_insert_ne by exact Hne. split; [|reflexivity].
           intros e' p'. rewrite elem_of_cons. intros [-> | Hin]; [|now apply Hnone].
           intros Hp'. destruct (priced_functional _ _ _ _ _ Hentry Hp'). contradiction.
      * right. split; [|exact Hp].
        intros e' p'. rewrite elem_of_cons. intros [-> | Hin]; [apply Hentry | now apply Hnone].
Qed.

(** X7. The catalogue that [build_price_catalog] makes of a list: a title
    has a price exactly when some entry with that title is taken up (an
    object whose title is a string that is not blank and whose price
    [float] reads), and the price is that of the last such entry: a later
    entry replaces an earlier one with the same title. *)
Theorem catalog_last_entry_wins (entries : list (json F)) (prices : gmap string F)
  (title : string) :
  build_price_catalog (JList entries) = Py.Ok prices ->
  match prices !! title with
  | Some price =>
      exists l1 e l2,
        entries = l1 ++ e :: l2 /\ priced e title price /\
        forall e' p', e' ∈ l2 -> ~ priced e' title p'
  | None => forall e p, e ∈ entries -> ~ priced e title p
  end.
Proof.
  intros Hrun. unfold build_price_catalog in Hrun.
  destruct (catalog_loop_spec _ _ _ Hrun title)
    as [(l1 & e & l2 & price & -> & He & Hlast & ->) | [Hnone ->]].
  - exists l1, e, l2. auto.
  - rewrite lookup_empty. exact Hnone.
Qed.

(** *** The groups of [parse_sales] *)

(** What one accepted row leaves under each key. *)
Lemma record_item_lookup (grouped' : list (string * SaleGroup)) (k : string)
  (date : json F) (item : SaleItem) (key : string) :
  dict_lookup (record_item grouped' k date item) key =
  if decide (k = key) then
    let sale :=
      match dict_lookup grouped' k with
      | Some sale => sale
      | None => {| sale_id := k; sale_date := py_str date; items := [] |}
      end in
    Some (append_item item
            (if negb (Py.str_truthy (sale_date sale)) && py_truthy date
             then set_sale_date (py_str date) sale else sale))
  else dict_lookup grouped' key.
Proof.
  unfold record_item, dict_mem. rewrite !dict_lookup_alter.
  destruct (decide (k = key)) as [->|Hne].
  - rewrite decide_True by reflexivity.
    destruct (dict_lookup grouped' key) as [sale|] eqn:Hk; simpl negb; cbv iota.
    + now rewrite Hk.
    + now rewrite dict_lookup_set, decide_True by reflexivity.
  - destruct (dict_lookup grouped' k) as [sale|]; simpl negb; cbv iota;
      rewrite ?dict_lookup_set, ?decide_False by assumption; reflexivity.
Qed.

Lemma record_item_NoDup (grouped' : list (string * SaleGroup)) (k : string)
  (date : json F) (item : SaleItem) :
  NoDup (dict_keys grouped') -> NoDup (dict_keys (record_item grouped' k date item)).
Proof.
  intros Hnd. unfold record_item. rewrite !dict_alter_keys.
  destruct (negb (dict_mem grouped' k)); [now apply dict_set_NoDup | exact Hnd].
Qed.

(** Every group carries its key as its identifier and holds an item. *)
Definition well_grouped (grouped' : list (string * SaleGroup)) : Prop :=
  NoDup (dict_keys grouped') /\
  forall key sale, dict_lookup grouped' key = Some sale ->
                   sale_id sale = key /\ items sale <> [].

Lemma record_item_well_grouped (grouped' : list (string * SaleGroup)) (k : string)
  (date : json F) (item : SaleItem) :
  well_grouped grouped' -> well_grouped (record_item grouped' k date item).
Proof.
  intros [Hnd Hinv]. split; [now apply record_item_NoDup|].
  intros key sale. rewrite record_item_lookup.
  destruct (decide (k = key)) as [->|Hne]; [|apply Hinv].
  cbv zeta. intros [= <-]. split.
  - destruct (dict_lookup grouped' key) as [sale|] eqn:Hk.
    + destruct (Hinv _ _ Hk) as [Hid _].
      now destruct (negb (Py.str_truthy (sale_date sale)) && py_truthy date).
    + now destruct (negb _ && py_truthy date).
  - simpl. intros Hnil. now apply app_eq_nil in Hnil as [_ ?].
Qed.

Lemma row_loop_well_grouped (prices : gmap string F) (rows : list (json F)) :
  forall st st',
    Py.for_each (row_step prices) rows st = Py.Ok st' ->
    well_grouped (grouped st) -> well_grouped (grouped st').
Proof.
  induction rows as [|row rows IH]; intros st st' Hrun Hinv.
  - now injection Hrun as <-.
  - cbn [Py.for_each] in Hrun. unfold row_step in Hrun at 1.
    destruct (check_row prices row) as [|k d it|e]; [| |discriminate].
    + exact (IH _ _ Hrun Hinv).
    + apply (IH _ _ Hrun). cbn [grouped]. now apply record_item_well_grouped.
Qed.

(** A loop that ends has accepted or skipped each row. *)
Lemma row_loop_counts (prices : gmap string F) (rows : list (json F)) :
  forall st st',
    Py.for_each (row_step prices) rows st = Py.Ok st' ->
    length rows = (length (accepted prices rows) + length (skipped prices rows))%nat.
Proof.
  induction rows as [|row rows IH]; intros st st' Hrun; [reflexivity|].
  cbn [Py.for_each] in Hrun. unfold row_step in Hrun at 1.
  rewrite accepted_cons. unfold skipped. cbn [List.filter]. fold (skipped prices rows).
  destruct (check_row prices row) as [|k d it|e]; [| |discriminate];
    apply IH in Hrun; cbn [length]; lia.
Qed.

Lemma items_of_nonempty (key : string) (rows : list (string * json F * SaleItem)) :
  items_of key rows <> [] <-> exists date item, (key, date, item) ∈ rows.
Proof.
  unfold items_of. split.
  - intros Hne. destruct (filter _ rows) as [|[[k d] it] l] eqn:Hf; [now contradict Hne|].
    assert ((k, d, it) ∈ filter (fun a : string * json F * SaleItem => a.1.1 = key) rows)
      as Hin by (rewrite Hf; left).
    apply list_elem_of_filter in Hin as [Hk Hin]. simpl in Hk. subst k. eauto.
  - intros (d & it & Hin) Hnil.
    assert ((key, d, it) ∈ filter (fun a : string * json F * SaleItem => a.1.1 = key) rows)
      as Hf by (apply list_elem_of_filter; auto).
    apply (list_elem_of_fmap_2 snd) in Hf. rewrite Hnil in Hf. inversion Hf.
Qed.

(** X8. The groups that [parse_sales] returns: no identifier has two
    groups; every group carries its key as its [sale_id] and holds at least
    one item; there is a group for an identifier exactly when a row with
    that identifier was accepted; and every row is either accepted or
    counted in the error counter. *)
Theorem parse_sales_groups (prices : gmap string F) (rows : list (json F))
  (st : totals) :
  parse_sales (JList rows) prices = Py.Ok st ->
  NoDup (dict_keys (grouped st)) /\
  (forall key sale, (key, sale) ∈ grouped st -> sale_id sale = key /\ items sale <> []) /\
  (forall key, key ∈ dict_keys (grouped st) <->
               exists date item, (key, date, item) ∈ accepted prices rows) /\
  Z.of_nat (length rows) = Z.of_nat (length (accepted prices rows)) + error_count st.
Proof.
  intros Hrun. unfold parse_sales in Hrun.
  pose proof (row_loop_counts _ _ _ _ Hrun) as Hcount.
  pose proof (row_loop_totals _ _ _ _ Hrun) as (_ & Herrors & Hitems).
  apply row_loop_well_grouped in Hrun as [Hnd Hinv];
    [|split; [apply NoDup_nil_2 | discriminate]].
  cbn [grouped error_count] in *.
  split; [exact Hnd|]. split; [|split].
  - intros key sale Hin. apply Hinv. now apply dict_lookup_elem.
  - intros key. specialize (Hitems key). simpl in Hitems.
    rewrite <- items_of_nonempty, <- Hitems. unfold group_items.
    destruct (dict_lookup (grouped st) key) as [sale|] eqn:Hk.
    + split; [intros _; now apply (Hinv key sale)|].
      intros _. destruct (decide (key ∈ dict_keys (grouped st))) as [Hin|Hnin]; [exact Hin|].
      apply dict_lookup_None in Hnin. congruence.
    + apply dict_lookup_None in Hk. split; [contradiction | congruence].
  - rewrite Herrors. lia.
Qed.

(** *** The date of a group, whatever the values are *)

Lemma row_loop_date_kept (prices : gmap string F) (key : string) (rows : list (json F)) :
  forall st st',
    Py.for_each (row_step prices) rows st = Py.Ok st' ->
    Py.str_truthy (group_date (grouped st) key) = true ->
    group_date (grouped st') key = group_date (grouped st) key.
Proof.
  induction rows as [|row rows IH]; intros st st' Hrun Hset.
  - now injection Hrun as <-.
  - cbn [Py.for_each] in Hrun. unfold row_step in Hrun at 1.
    destruct (check_row prices row) as [|k d it|e]; [| |discriminate].
    + exact (IH _ _ Hrun Hset).
    + rewrite (IH _ _ Hrun); cbn [grouped]; rewrite group_date_kept; auto.
Qed.

Lemma row_loop_first_date (prices : gmap string F) (key : string) (d : json F)
  (rest : list (json F)) (rows : list (json F)) :
  forall st st',
    Py.for_each (row_step prices) rows st = Py.Ok st' ->
    dict_lookup (grouped st) key = None ->
    dates_of key (accepted prices rows) = d :: rest ->
    Py.str_truthy (py_str d) = true ->
    group_date (grouped st') key = py_str d.
Proof.
  induction rows as [|row rows IH]; intros st st' Hrun Hnew Hdates Hd.
  - discriminate.
  - cbn [Py.for_each] in Hrun. unfold row_step in Hrun at 1.
    rewrite accepted_cons in Hdates.
    destruct (check_row prices row) as [|k d0 it|e]; [| |discriminate].
    + now apply (IH _ _ Hrun).
    + rewrite dates_of_cons in Hdates. destruct (decide (k = key)) as [->|Hne].
      * injection Hdates as -> _.
        assert (group_date (record_item (grouped st) key d it) key = py_str d) as Hfirst
          by (rewrite group_date_record, decide_True, Hnew by reflexivity; reflexivity).
        apply (row_loop_date_kept prices key) in Hrun; cbn [grouped] in *.
        -- now rewrite Hrun.
        -- now rewrite Hfirst.
      * apply (IH _ _ Hrun); auto. cbn [grouped].
        now rewrite record_item_lookup, decide_False.
Qed.

(** X9. The date that [parse_sales] records for a sale. When the text of
    the SALE_Date of its first accepted row is not empty, that text is the
    date, whatever the value is and whatever the later rows hold: a null
    gives "None". When the SALE_Date of each of its accepted rows is a
    string or is absent, the date is the first of them that is not empty,
    and "" when all are empty. *)
Theorem sale_date_rule (prices : gmap string F) (rows : list (json F)) (st : totals)
  (key : string) (d : json F) (rest : list (json F)) :
  parse_sales (JList rows) prices = Py.Ok st ->
  dates_of key (accepted prices rows) = d :: rest ->
  (Py.str_truthy (py_str d) = true -> group_date (grouped st) key = py_str d) /\
  (Forall is_text (d :: rest) ->
   group_date (grouped st) key = first_nonempty (py_str <$> d :: rest)).
Proof.
  intros Hrun Hdates. unfold parse_sales in Hrun. split.
  - intros Hd. now apply (row_loop_first_date prices key d rest rows _ _ Hrun).
  - intros Htext. rewrite <- Hdates in Htext |- *.
    now rewrite (row_loop_date prices key rows Htext _ _ Hrun).
Qed.

(** *** The order of the report, in numbers *)

(** X10. The order in which [format_report] lists the sales. The list is
    a rearrangement of the keys of the dict. An identifier that [int]
    reads comes before one that it does not read; identifiers that it does
    not read are in string order; and identifiers that it reads as numbers
    from 0 to 999999999999 are in the order of these numbers. [int] reads
    the text of every integer [n] of at most 4300 digits, which every
    integer of a JSON file is, and the sort key of that text is [n] padded
    with zeros to twelve characters. *)
Theorem report_order_rule (grouped' : list (string * SaleGroup)) :
  report_order grouped' ≡ₚ dict_keys grouped' /\
  (forall l1 a l2 b l3,
     report_order grouped' = l1 ++ a :: l2 ++ b :: l3 ->
     match Py.int_of_str a, Py.int_of_str b with
     | Py.Ok m, Py.Ok n => 0 <= m < 10 ^ 12 -> 0 <= n < 10 ^ 12 -> m <= n
     | Py.Ok _, Py.Raise _ => True
     | Py.Raise _, Py.Ok _ => False
     | Py.Raise _, Py.Raise _ => String.leb a b = true
     end) /\
  (forall n,
     Z.abs n < Py.INT_LIMIT ->
     sale_sort_key (Py.str_of_int n) = (0, Py.format_zero_padded 12 n)).
Proof.
  split; [apply sorted_by_key_perm|]. split.
  - intros l1 a l2 b l3 Horder. pose proof (report_order_sorted grouped') as Hsorted.
    rewrite Horder in Hsorted. apply ordered_before in Hsorted.
    apply key_le_spec in Hsorted. unfold sale_sort_key in Hsorted.
    destruct (Py.int_of_str a) as [m|], (Py.int_of_str b) as [n|]; simpl in Hsorted;
      try exact I; destruct Hsorted as [Hlt | [Heq Hle]]; try lia; try exact Hle.
    intros Hm Hn. now apply Numeral.zero_padded_order.
  - intros n Hn. unfold sale_sort_key. now rewrite Numeral.int_of_str_of_int.
Qed.

(** *** No item is lost *)

Lemma concat_one_key (key : string) (item : SaleItem) (g : string -> list SaleItem)
  (keys : list string) :
  NoDup keys -> key ∈ keys ->
  concat ((fun k => (if decide (key = k) then [item] else []) ++ g k) <$> keys)
  ≡ₚ item :: concat (g <$> keys).
Proof.
  induction keys as [|k keys IH]; intros Hnd Hin; [inversion Hin|].
  apply NoDup_cons in Hnd as [Hk Hnd]. rewrite !fmap_cons. cbn [concat].
  destruct (decide (key = k)) as [->|Hne].
  - rewrite (list_fmap_ext _ g keys); [reflexivity|]. intros i k' Hk'.
    rewrite decide_False; [reflexivity|].
    intros ->. apply Hk. eapply list_elem_of_lookup_2, Hk'.
  - apply elem_of_cons in Hin as [?|Hin]; [contradiction|].
    simpl. rewrite (IH Hnd Hin). symmetry. apply Permutation_middle.
Qed.

Lemma items_partition (keys : list string) (rows : list (string * json F * SaleItem)) :
  NoDup keys -> (forall k d it, (k, d, it) ∈ rows -> k ∈ keys) ->
  concat ((fun k => items_of k rows) <$> keys) ≡ₚ snd <$> rows.
Proof.
  intros Hnd. induction rows as [|[[k d] it] rows IH]; intros Hkeys.
  - unfold items_of. simpl. induction keys as [|k keys IHk]; [reflexivity|].
    apply NoDup_cons in Hnd as [_ Hnd]. rewrite fmap_cons. simpl. now apply IHk.
  - rewrite fmap_cons. simpl snd. rewrite <- IH.
    + rewrite <- (concat_one_key k it (fun k' => items_of k' rows) keys Hnd).
      * rewrite (list_fmap_ext (fun k' => items_of k' ((k, d, it) :: rows))
                   (fun k' => (if decide (k = k') then [it] else []) ++ items_of k' rows)
                   keys); [reflexivity|].
        intros i k' _. apply items_of_cons.
      * eapply Hkeys. left.
    + intros k' d' it' Hin. eapply Hkeys. right. exact Hin.
Qed.

Lemma group_items_all (grouped' : list (string * SaleGroup)) :
  NoDup (dict_keys grouped') ->
  group_items grouped' <$> dict_keys grouped' = items <$> grouped'.*2.
Proof.
  unfold dict_keys, group_items. induction grouped' as [|[k sale] rest IH]; [reflexivity|].
  rewrite !fmap_cons. simpl fst. simpl snd. intros [Hk Hnd]%NoDup_cons.
  cbn [dict_lookup]. rewrite decide_True by reflexivity. f_equal.
  rewrite <- (IH Hnd). apply list_fmap_ext. intros i k' Hk'.
  rewrite decide_False; [reflexivity|].
  intros ->. apply Hk. eapply list_elem_of_lookup_2, Hk'.
Qed.

(** X11. No item is lost and none is counted twice: the items of all the
    groups that [parse_sales] returns are, together, a rearrangement of the
    items of the accepted rows. *)
Theorem parse_sales_keeps_items (prices : gmap string F) (rows : list (json F))
  (st : totals) :
  parse_sales (JList rows) prices = Py.Ok st ->
  concat (items <$> (grouped st).*2) ≡ₚ snd <$> accepted prices rows.
Proof.
  intros Hrun. unfold parse_sales in Hrun.
  pose proof (row_loop_totals _ _ _ _ Hrun) as (_ & _ & Hitems).
  apply row_loop_well_grouped in Hrun as [Hnd Hinv];
    [|split; [apply NoDup_nil_2 | discriminate]].
  cbn [grouped] in *.
  assert (forall key, group_items (grouped st) key = items_of key (accepted prices rows))
    as Hitems' by (intros key; now rewrite Hitems).
  clear Hitems. rename Hitems' into Hitems.
  rewrite <- (group_items_all _ Hnd).
  rewrite <- (items_partition (dict_keys (grouped st)) (accepted prices rows) Hnd).
  - rewrite (list_fmap_ext (group_items (grouped st))
               (fun k => items_of k (accepted prices rows)) (dict_keys (grouped st)));
      [reflexivity|].
    intros i k _. apply Hitems.
  - intros k d it Hin.
    assert (items_of k (accepted prices rows) <> []) as Hne
      by (apply items_of_nonempty; eauto).
    rewrite <- (Hitems k) in Hne. unfold group_items in Hne.
    destruct (dict_lookup (grouped st) k) eqn:Hk; [|congruence].
    destruct (decide (k ∈ dict_keys (grouped st))) as [Hin'|Hnin]; [exact Hin'|].
    apply dict_lookup_None in Hnin. congruence.
Qed.

(** *** The lines of the report *)

Lemma report_loop_lines (grouped' : list (string * SaleGroup)) (keys : list string) :
  (forall k, k ∈ keys -> k ∈ dict_keys grouped') ->
  forall lines,
    Py.for_each (report_step grouped') keys lines =
    Py.Ok (lines ++ concat (sale_lines <$> omap (dict_lookup grouped') keys)).
Proof.
  induction keys as [|k keys IH]; intros Hkeys lines; cbn [Py.for_each omap list_omap].
  - simpl. now rewrite app_nil_r.
  - unfold report_step at 1. unfold dict_item.
    destruct (dict_lookup grouped' k) as [sale|] eqn:Hk.
    + rewrite IH by (intros k' Hk'; apply Hkeys; now right).
      rewrite fmap_cons. cbn [concat]. now rewrite app_assoc.
    + exfalso. apply dict_lookup_None in Hk. apply Hk, Hkeys. left.
Qed.

Lemma lookup_all_keys (grouped' : list (string * SaleGroup)) :
  NoDup (dict_keys grouped') ->
  omap (dict_lookup grouped') (dict_keys grouped') = grouped'.*2.
Proof.
  unfold dict_keys. induction grouped' as [|[k sale] rest IH]; [reflexivity|].
  rewrite !fmap_cons. simpl fst. simpl snd. intros [Hk Hnd]%NoDup_cons.
  cbn [omap list_omap dict_lookup]. rewrite decide_True by reflexivity. f_equal.
  rewrite <- (IH Hnd). apply list_omap_ext, Forall2_same_length_lookup_2; [reflexivity|].
  intros i k1 k2 Hk1 Hk2. rewrite Hk1 in Hk2. injection Hk2 as <-.
  rewrite decide_False; [reflexivity|].
  intros ->. apply Hk. eapply list_elem_of_lookup_2, Hk1.
Qed.

(** X12. [format_report] never raises. For a dict without repeated keys,
    as [parse_sales] returns, the report is made of the five lines of the
    heading, then the lines of each sale of the dict once, in the order of
    [report_order], then the four lines of the totals, each line ended by a
    line feed. *)
Theorem format_report_lines (grouped' : list (string * SaleGroup)) (total : F)
  (errors : Z) (elapsed : string) :
  NoDup (dict_keys grouped') ->
  let sales := omap (dict_lookup grouped') (report_order grouped') in
    sales ≡ₚ grouped'.*2 /\
    format_report grouped' total errors elapsed =
    Py.Ok (Py.join_with (String Py.LF "")
             (["SALES RESULTS"; RULE "=";
               "Sales (unique SALE_ID): " +:+ Py.str_of_int (Z.of_nat (length grouped'));
               "Errors (skipped rows): " +:+ Py.str_of_int errors;
               ""] ++
              concat (sale_lines <$> sales) ++
              [RULE "=";
               Py.rjust 55 "GRAND TOTAL" +:+ " " +:+ float_format 12 2 total;
               "Elapsed time (s): " +:+ elapsed;
               RULE "="])
           +:+ String Py.LF "").
Proof.
  intros Hnd sales. subst sales. split.
  - rewrite <- (lookup_all_keys grouped' Hnd). apply omap_Permutation.
    apply sorted_by_key_perm.
  - unfold format_report. rewrite report_loop_lines.
    + now rewrite <- app_assoc.
    + intros k. unfold report_order. now rewrite sorted_by_key_perm.
Qed.

End Program.

(** *** The example of the specification *)

Import Binary64 PrimFloat.

Definition pen_catalog : json PrimFloat.float :=
  JList [JObject [("title", JStr "Pen"); ("price", JStr "2.5")]].

Definition pen_prices : gmap string PrimFloat.float := {[ "Pen" := 2.5%float ]}.

Definition pen_sales : json PrimFloat.float :=
  JList [JObject [("SALE_ID", JInt 1); ("Product", JStr "Pen"); ("Quantity", JStr "3")]].

Definition pen_item : SaleItem :=
  {| product := "Pen"; quantity := 3%float; unit_price := 2.5%float |}.

Example pen_catalog_built : build_price_catalog pen_catalog = Py.Ok pen_prices.
Proof. vm_compute. reflexivity. Qed.

Example pen_sales_parsed :
  parse_sales pen_sales pen_prices =
  Py.Ok {| grouped := [("1", {| sale_id := "1"; sale_date := ""; items := [pen_item] |})];
           grand_total := 7.5%float;
           error_count := 0 |}.
Proof. vm_compute. reflexivity. Qed.

Example pen_subtotal :
  subtotal {| sale_id := "1"; sale_date := ""; items := [pen_item] |} = 7.5%float.
Proof. vm_compute. reflexivity. Qed.

Example pen_report :
  format_report [("1", {| sale_id := "1"; sale_date := ""; items := [pen_item] |})]
    7.5%float 0 "0.000120"
  = Py.Ok (Py.join_with (String Py.LF "")
      ["SALES RESULTS";
       "============================================================";
       "Sales (unique SALE_ID): 1";
       "Errors (skipped rows): 0";
       "";
       "SALE_ID: 1    DATE: ";
       "------------------------------------------------------------";
       "Product                                  Qty      Price        Total";
       "Pen                                     3.00       2.50         7.50";
       "------------------------------------------------------------";
       "                                               SUBTOTAL         7.50";
       "";
       "============================================================";
       "                                            GRAND TOTAL         7.50";
       "Elapsed time (s): 0.000120";
       "============================================================"]
     +:+ String Py.LF "").
Proof. vm_compute. reflexivity. Qed.

Lemma parse_sales_totals_witness :
  grand_total {| grouped := [("1", {| sale_id := "1"; sale_date := "";
                                      items := [pen_item] |})];
                 grand_total := 7.5%float; error_count := 0 |}
  = fold_left float_add
      (line_total <$> (snd <$> accepted pen_prices
         [JObject [("SALE_ID", JInt 1); ("Product", JStr "Pen"); ("Quantity", JStr "3")]]))
      float_zero.
Proof.
  apply (proj1 (proj2 (parse_sales_totals pen_prices
           [JObject [("SALE_ID", JInt 1); ("Product", JStr "Pen");
                     ("Quantity", JStr "3")]]))).
  vm_compute. reflexivity.
Defined.

(** *** Sale identifiers that the report does not put in numeric order *)

(** One accepted row of the sale [id]. *)
Definition sale_row (id : json PrimFloat.float) (date : json PrimFloat.float)
  : json PrimFloat.float :=
  JObject [("SALE_ID", id); ("SALE_Date", date); ("Product", JStr "Pen");
           ("Quantity", JInt 1)].

(** C3, where the code departs from it. The key of an integer identifier
    is its numeral padded with zeros to twelve characters, and the keys are
    compared as strings. So -1 comes before -2 in the report, and
    1000000000000, which has thirteen digits, comes before 999999999999. *)
Theorem report_order_not_numeric :
  (exists st,
     parse_sales (JList [sale_row (JInt (-2)) (JStr ""); sale_row (JInt (-1)) (JStr "")])
       pen_prices = Py.Ok st /\
     sale_sort_key "-1" = (0, "-00000000001") /\
     sale_sort_key "-2" = (0, "-00000000002") /\
     report_order (grouped st) = ["-1"; "-2"]) /\
  (exists st,
     parse_sales (JList [sale_row (JInt 999999999999) (JStr "");
                         sale_row (JInt 1000000000000) (JStr "")])
       pen_prices = Py.Ok st /\
     sale_sort_key "999999999999" = (0, "999999999999") /\
     sale_sort_key "1000000000000" = (0, "1000000000000") /\
     report_order (grouped st) = ["1000000000000"; "999999999999"]).
Proof.
  split; eexists; (split; [vm_compute; reflexivity|]); vm_compute; repeat split.
Qed.

(** *** A date that is null *)

(** C7, where the code departs from it. The first row of sale 1 has a null
    SALE_Date and the second has a date. The group is created with the
    text of the first value, "None", which is not empty, so the date of the
    second row is never recorded. When the null comes second it is passed
    over, as the claim says. *)
Theorem null_date_is_recorded :
  (exists st,
     parse_sales (JList [sale_row (JInt 1) JNull; sale_row (JInt 1) (JStr "2024-01-15")])
       pen_prices = Py.Ok st /\
     dates_of "1"
       (accepted pen_prices
          [sale_row (JInt 1) JNull; sale_row (JInt 1) (JStr "2024-01-15")])
     = [JNull; JStr "2024-01-15"] /\
     group_date (grouped st) "1" = "None") /\
  (exists st,
     parse_sales (JList [sale_row (JInt 1) (JStr ""); sale_row (JInt 1) JNull;
                         sale_row (JInt 1) (JStr "2024-01-15")])
       pen_prices = Py.Ok st /\
     group_date (grouped st) "1" = "2024-01-15").
Proof.
  split; eexists; (split; [vm_compute; reflexivity|]); vm_compute; repeat split.
Qed.

(** *** Input files and rows that end the run, and those that do not *)





(** *** A title that the catalogue lists twice *)

Definition pen_twice : list (json PrimFloat.float) :=
  [JObject [("title", JStr "Pen"); ("price", JInt 1)];
   JObject [("title", JStr "Pen"); ("price", JStr "2.5")]].

Lemma catalog_last_entry_wins_witness :
  exists l1 e l2,
    pen_twice = l1 ++ e :: l2 /\ priced e "Pen" 2.5%float /\
    forall e' p', e' ∈ l2 -> ~ priced e' "Pen" p'.
Proof.
  refine (catalog_last_entry_wins pen_twice pen_prices "Pen" _).
  vm_compute. reflexivity.
Defined.

(** The rows and the result of the example. *)
Definition pen_rows : list (json PrimFloat.float) :=
  [JObject [("SALE_ID", JInt 1); ("Product", JStr "Pen"); ("Quantity", JStr "3")]].

Definition pen_totals : totals :=
  {| grouped := [("1", {| sale_id := "1"; sale_date := ""; items := [pen_item] |})];
     grand_total := 7.5%float;
     error_count := 0 |}.

Lemma parse_sales_groups_witness :
  NoDup (dict_keys (grouped pen_totals)) /\
  (forall key, key ∈ dict_keys (grouped pen_totals) <->
     exists date item, (key, date, item) ∈ accepted pen_prices pen_rows).
Proof.
  assert (parse_sales (JList pen_rows) pen_prices = Py.Ok pen_totals) as Hrun
    by (vm_compute; reflexivity).
  pose proof (parse_sales_groups pen_prices pen_rows pen_totals Hrun) as H.
  exact (conj (proj1 H) (proj1 (proj2 (proj2 H)))).
Defined.

(** The two rows of sale 1, the first with a null date, and what
    [parse_sales] makes of them. *)
Definition null_first_rows : list (json PrimFloat.float) :=
  [sale_row (JInt 1) JNull; sale_row (JInt 1) (JStr "2024-01-15")].

Definition null_first_totals : totals :=
  {| grouped :=
       [("1", {| sale_id := "1"; sale_date := "None";
                 items := [{| product := "Pen"; quantity := 1%float;
                              unit_price := 2.5%float |};
                           {| product := "Pen"; quantity := 1%float;
                              unit_price := 2.5%float |}] |})];
     grand_total := 5%float;
     error_count := 0 |}.

Lemma sale_date_rule_witness :
  group_date (grouped null_first_totals) "1" = py_str (JNull : json PrimFloat.float).
Proof.
  assert (parse_sales (JList null_first_rows) pen_prices = Py.Ok null_first_totals) as Hrun
    by (vm_compute; reflexivity).
  assert (dates_of "1" (accepted pen_prices null_first_rows) = [JNull; JStr "2024-01-15"])
    as Hdates by (vm_compute; reflexivity).
  exact (proj1 (sale_date_rule pen_prices null_first_rows null_first_totals "1" JNull
                  [JStr "2024-01-15"] Hrun Hdates) eq_refl).
Defined.

Lemma parse_sales_keeps_items_witness :
  concat (items <$> (grouped pen_totals).*2) ≡ₚ snd <$> accepted pen_prices pen_rows.
Proof.
  apply (parse_sales_keeps_items pen_prices pen_rows pen_totals).
  vm_compute. reflexivity.
Defined.

Lemma format_report_lines_witness :
  omap (dict_lookup (grouped pen_totals)) (report_order (grouped pen_totals))
  ≡ₚ (grouped pen_totals).*2.
Proof.
  refine (proj1 (format_report_lines (grouped pen_totals) 7.5%float 0 "0.000120" _)).
  repeat constructor. intros Hin. inversion Hin.
Defined.

(** *** Identifiers that [int] does not read *)

(** The separator 0x1c is whitespace for [strip] and not for [int], and a
    numeral of 4301 digits is too long for [int]: both identifiers sort as
    text, after the numbers. *)
Example sort_key_not_integer :
  sale_sort_key (String (ascii_of_N 28) "5") = (1, String (ascii_of_N 28) "5") /\
  sale_sort_key (Py.repeat_char "9" 4301) = (1, Py.repeat_char "9" 4301) /\
  (sale_sort_key (Py.repeat_char "9" 4300)).1 = 0 /\
  report_order
    [(String (ascii_of_N 28) "5",
      {| sale_id := String (ascii_of_N 28) "5"; sale_date := ""; items := [pen_item] |});
     ("7", {| sale_id := "7"; sale_date := ""; items := [pen_item] |})]
  = ["7"; String (ascii_of_N 28) "5"].
Proof. repeat split; vm_compute; reflexivity. Qed.

End Sales.
